(** * pyServer.py: the worker side of the wekaPython socket protocol

    A shallow embedding of
    [src/packages/internal/wekaPython/resources/py/pyServer.py] and the
    properties of its framing layer, header inference, variable exchange,
    script bridge and dispatcher.

    The embedding follows the Python 3 branches of the source
    ([_global_python3] is [True]): a [str] is a sequence of Unicode code
    points, [bytes] a sequence of octets, and [/] is true division.

    Layout: the codecs the source calls ([utf-8], [struct], [base64],
    [json.dumps]) and the Python data model; the collaborators it only calls
    ([exec], [pickle], [json.loads], pandas' CSV reader and writer), taken as
    the class [Externals]; the process state with its exception/state monad;
    the functions of the source in source order; one concrete [Externals] for
    closed examples; and then the lemmas, by component. *)

From Stdlib Require Import ZArith NArith List Strings.Byte String Ascii Lia DecimalString.
From stdpp Require Import gmap.

Set Warnings "-register-all".
#[local] Open Scope N_scope.

(** ** Text and bytes *)

(** A Python 3 [str]: its code points, in order. *)
Definition text : Type := list N.

(** An ASCII literal of the source as a [str]. *)
Definition str (s : string) : text := map N_of_ascii (list_ascii_of_string s).
Arguments str s%_string.

(** [len(x)] as a Python int. *)
Definition len {A : Type} (l : list A) : N := N.of_nat (length l).

Definition byte_of (n : N) : byte :=
  match Byte.of_N (n mod 256) with
  | Some b => b
  | None => x00
  end.

(** ** Python exceptions

    The exception classes the modelled code can meet. [SystemExit],
    [KeyboardInterrupt] and [GeneratorExit] derive from [BaseException] only;
    every other one is an [Exception]. *)
Inductive exn : Type :=
| TypeError
| AttributeError
| KeyError
| ValueError
| struct_error
| UnicodeEncodeError
| UnicodeDecodeError
| binascii_Error
| JSONDecodeError
| PicklingError
| UnpicklingError
| ParserError
| ScriptError
| SystemExit
| KeyboardInterrupt
| GeneratorExit.

(** [isinstance(e, Exception)]: what an [except Exception:] clause catches. *)
Definition is_Exception (e : exn) : bool :=
  match e with
  | SystemExit | KeyboardInterrupt | GeneratorExit => false
  | _ => true
  end.

(** The ways a call ends: it returns, it raises, or it never comes back
    (blocked in [recv] on a transport with nothing more to deliver, or inside
    a script that does not end). *)
Inductive result (A : Type) : Type :=
| Ok (a : A)
| Raise (e : exn)
| Blocked.
Arguments Ok {A} a.
Arguments Raise {A} e.
Arguments Blocked {A}.

(** ** UTF-8, as [str.encode('utf-8')] and [bytes.decode('utf-8')] (strict) *)
Module Utf8.

Definition cont (c : N) : byte := byte_of (N.lor 0x80 (N.land c 0x3F)).

Definition encode_char (c : N) : option (list byte) :=
  if c <? 0x80 then Some [byte_of c]
  else if c <? 0x800 then
    Some [byte_of (N.lor 0xC0 (N.shiftr c 6)); cont c]
  else if c <? 0x10000 then
    if (0xD800 <=? c) && (c <=? 0xDFFF) then None
    else Some [byte_of (N.lor 0xE0 (N.shiftr c 12)); cont (N.shiftr c 6); cont c]
  else if c <? 0x110000 then
    Some [byte_of (N.lor 0xF0 (N.shiftr c 18)); cont (N.shiftr c 12);
          cont (N.shiftr c 6); cont c]
  else None.

Fixpoint encode (s : text) : result (list byte) :=
  match s with
  | [] => Ok []
  | c :: s' =>
    match encode_char c, encode s' with
    | Some b, Ok bs => Ok (b ++ bs)
    | None, _ => Raise UnicodeEncodeError
    | _, r => r
    end
  end.

Definition in_range (lo hi : N) (b : byte) : bool :=
  (lo <=? Byte.to_N b) && (Byte.to_N b <=? hi).

Definition low6 (b : byte) : N := N.land (Byte.to_N b) 0x3F.

(** The well-formed byte sequences of the Unicode standard (table 3-7); any
    other sequence, a truncated one included, is a [UnicodeDecodeError]. *)
Fixpoint decode (bs : list byte) : result text :=
  let cons c r := match r with Ok s => Ok (c :: s) | e => e end in
  match bs with
  | [] => Ok []
  | b0 :: r0 =>
    let n0 := Byte.to_N b0 in
    if n0 <? 0x80 then cons n0 (decode r0)
    else if in_range 0xC2 0xDF b0 then
      match r0 with
      | b1 :: r1 =>
        if in_range 0x80 0xBF b1
        then cons (N.lor (N.shiftl (N.land n0 0x1F) 6) (low6 b1)) (decode r1)
        else Raise UnicodeDecodeError
      | _ => Raise UnicodeDecodeError
      end
    else if in_range 0xE0 0xEF b0 then
      match r0 with
      | b1 :: b2 :: r2 =>
        let lo := if n0 =? 0xE0 then 0xA0 else 0x80 in
        let hi := if n0 =? 0xED then 0x9F else 0xBF in
        if in_range lo hi b1 && in_range 0x80 0xBF b2
        then cons (N.lor (N.shiftl (N.land n0 0x0F) 12)
                     (N.lor (N.shiftl (low6 b1) 6) (low6 b2))) (decode r2)
        else Raise UnicodeDecodeError
      | _ => Raise UnicodeDecodeError
      end
    else if in_range 0xF0 0xF4 b0 then
      match r0 with
      | b1 :: b2 :: b3 :: r3 =>
        let lo := if n0 =? 0xF0 then 0x90 else 0x80 in
        let hi := if n0 =? 0xF4 then 0x8F else 0xBF in
        if in_range lo hi b1 && in_range 0x80 0xBF b2 && in_range 0x80 0xBF b3
        then cons (N.lor (N.shiftl (N.land n0 0x07) 18)
                     (N.lor (N.shiftl (low6 b1) 12)
                        (N.lor (N.shiftl (low6 b2) 6) (low6 b3)))) (decode r3)
        else Raise UnicodeDecodeError
      | _ => Raise UnicodeDecodeError
      end
    else Raise UnicodeDecodeError
  end.

End Utf8.

(** ** [struct.pack('>L', n)] and [struct.unpack('>L', b)] *)
Module Struct.

(** Four octets, most significant first; a value outside [0, 2^32) raises
    [struct.error]. *)
Definition pack_L (n : N) : result (list byte) :=
  if n <? 2 ^ 32
  then Ok [byte_of (N.shiftr n 24); byte_of (N.shiftr n 16);
           byte_of (N.shiftr n 8); byte_of n]
  else Raise struct_error.

(** A buffer of any length but four raises [struct.error]. *)
Definition unpack_L (b : list byte) : result N :=
  match b with
  | [b3; b2; b1; b0] =>
    Ok (N.lor (N.shiftl (Byte.to_N b3) 24)
          (N.lor (N.shiftl (Byte.to_N b2) 16)
             (N.lor (N.shiftl (Byte.to_N b1) 8) (Byte.to_N b0))))
  | _ => Raise struct_error
  end.

End Struct.

(** ** [base64.b64encode] and [base64.b64decode] *)
Module Base64.

(** The standard alphabet: [A-Z], [a-z], [0-9], [+], [/]. *)
Definition b2a (i : N) : byte :=
  if i <? 26 then byte_of (65 + i)
  else if i <? 52 then byte_of (71 + i)
  else if i <? 62 then byte_of (i - 4)
  else if i =? 62 then "+"%byte
  else "/"%byte.

(** The inverse table; [None] for an octet outside the alphabet. *)
Definition a2b (b : byte) : option N :=
  let n := Byte.to_N b in
  if (65 <=? n) && (n <=? 90) then Some (n - 65)
  else if (97 <=? n) && (n <=? 122) then Some (n - 71)
  else if (48 <=? n) && (n <=? 57) then Some (n + 4)
  else if n =? 43 then Some 62
  else if n =? 47 then Some 63
  else None.

Definition PAD : byte := "="%byte.

Fixpoint b64encode (s : list byte) : list byte :=
  match s with
  | [] => []
  | [x] =>
    let a := Byte.to_N x in
    [b2a (N.shiftr a 2); b2a (N.shiftl (N.land a 3) 4); PAD; PAD]
  | [x; y] =>
    let a := Byte.to_N x in
    let b := Byte.to_N y in
    [b2a (N.shiftr a 2);
     b2a (N.lor (N.shiftl (N.land a 3) 4) (N.shiftr b 4));
     b2a (N.shiftl (N.land b 15) 2); PAD]
  | x :: y :: z :: rest =>
    let a := Byte.to_N x in
    let b := Byte.to_N y in
    let c := Byte.to_N z in
    b2a (N.shiftr a 2)
    :: b2a (N.lor (N.shiftl (N.land a 3) 4) (N.shiftr b 4))
    :: b2a (N.lor (N.shiftl (N.land b 15) 2) (N.shiftr c 6))
    :: b2a (N.land c 63)
    :: b64encode rest
  end.

(** The decoder behind [b64decode(s)] ([validate] is [False]): octets
    outside the alphabet are skipped, a pad sequence that completes a quad
    ends the input, and a quad left incomplete raises [binascii.Error]. The
    state is the position in the quad, the bits left over from the previous
    character, and the pads seen since the last character. *)
Fixpoint a2b_base64 (input : list byte) (quad_pos leftchar pads : N)
    (bin_data : list byte) : result (list byte) :=
  match input with
  | [] => if quad_pos =? 0 then Ok bin_data else Raise binascii_Error
  | this_ch :: rest =>
    if Byte.eqb this_ch PAD then
      if 2 <=? quad_pos then
        if 4 <=? quad_pos + (pads + 1) then Ok bin_data
        else a2b_base64 rest quad_pos leftchar (pads + 1) bin_data
      else a2b_base64 rest quad_pos leftchar pads bin_data
    else
      match a2b this_ch with
      | None => a2b_base64 rest quad_pos leftchar pads bin_data
      | Some v =>
        if quad_pos =? 0 then a2b_base64 rest 1 v 0 bin_data
        else if quad_pos =? 1 then
          a2b_base64 rest 2 (N.land v 0x0f) 0
            (bin_data ++ [byte_of (N.lor (N.shiftl leftchar 2) (N.shiftr v 4))])
        else if quad_pos =? 2 then
          a2b_base64 rest 3 (N.land v 0x03) 0
            (bin_data ++ [byte_of (N.lor (N.shiftl leftchar 4) (N.shiftr v 2))])
        else
          a2b_base64 rest 0 0 0
            (bin_data ++ [byte_of (N.lor (N.shiftl leftchar 6) v)])
      end
  end.

Definition b64decode (s : list byte) : result (list byte) :=
  a2b_base64 s 0 0 0 [].

End Base64.

(** ** The Python data model *)

(** What a cell of a pandas column holds: a string, a boolean, a number, or
    the missing-value marker [NaN] ([read_csv] puts it where the text has
    [?]). *)
Inductive cell : Type :=
| CStr (s : text)
| CBool (b : bool)
| CNum (z : Z)
| CNaN.

(** A column: its label, the name of its dtype ([object], [bool], [int64],
    [float64], [datetime64[ns]], ...) and its cells. *)
Record column : Type := Column {
  col_name : text;
  col_dtype : text;
  col_values : list cell
}.

(** A [pd.DataFrame]: the length of its index and its columns in order. *)
Record DataFrame : Type := Frame {
  index_len : N;
  columns : list column
}.

(** A Python object, as far as this program handles one. Dict keys are
    [str], as in every dict the program builds and [json.loads] returns; a
    dict keeps its insertion order. [VNpBool] is a [numpy.bool_], what
    iterating a [bool] array yields; [VNaN] is [float('nan')]. *)
Inductive value : Type :=
| VNone
| VBool (b : bool)
| VNpBool (b : bool)
| VInt (z : Z)
| VNaN
| VStr (s : text)
| VList (l : list value)
| VDict (d : list (text * value))
| VFrame (f : DataFrame).

Definition text_eqb (a b : text) : bool := bool_decide (a = b).

(** [d[k]] on a dict: the value under [k], if any. *)
Fixpoint dict_get (k : text) (d : list (text * value)) : option value :=
  match d with
  | [] => None
  | (k', v) :: r => if text_eqb k k' then Some v else dict_get k r
  end.

(** [d[k] = v] on a dict: in place for a key that is present, at the end
    for a new one. *)
Fixpoint dict_set (k : text) (v : value) (d : list (text * value))
    : list (text * value) :=
  match d with
  | [] => [(k, v)]
  | (k', v') :: r =>
    if text_eqb k k' then (k, v) :: r else (k', v') :: dict_set k v r
  end.

(** ** [json.dumps] with its defaults ([ensure_ascii], separators [", "]
    and [": "]) *)
Module Json.

Definition hex_digit (n : N) : N := if n <? 10 then 48 + n else 87 + n.

(** [\uXXXX], lower-case hexadecimal. *)
Definition u_escape (n : N) : text :=
  [92; 117; hex_digit (N.land (N.shiftr n 12) 15);
   hex_digit (N.land (N.shiftr n 8) 15);
   hex_digit (N.land (N.shiftr n 4) 15); hex_digit (N.land n 15)].

Definition escape_char (c : N) : text :=
  if c =? 34 then [92; 34]
  else if c =? 92 then [92; 92]
  else if c =? 10 then [92; 110]
  else if c =? 13 then [92; 114]
  else if c =? 9 then [92; 116]
  else if c =? 8 then [92; 98]
  else if c =? 12 then [92; 102]
  else if (32 <=? c) && (c <=? 126) then [c]
  else if c <? 0x10000 then u_escape c
  else
    let n := c - 0x10000 in
    u_escape (N.lor 0xd800 (N.land (N.shiftr n 10) 0x3ff))
    ++ u_escape (N.lor 0xdc00 (N.land n 0x3ff)).

Definition dumps_str (s : text) : text :=
  [34] ++ flat_map escape_char s ++ [34].

Definition dumps_int (z : Z) : text := str (NilZero.string_of_int (Z.to_int z)).

(** [', '.join(items)]. *)
Fixpoint join (items : list text) : text :=
  match items with
  | [] => []
  | [x] => x
  | x :: r => x ++ [44; 32] ++ join r
  end.

(** An object [json] has no encoding for raises [TypeError]. *)
Fixpoint dumps (v : value) : result text :=
  match v with
  | VNone => Ok (str "null")
  | VBool true => Ok (str "true")
  | VBool false => Ok (str "false")
  | VNpBool _ => Raise TypeError
  | VInt z => Ok (dumps_int z)
  | VNaN => Ok (str "NaN")
  | VStr s => Ok (dumps_str s)
  | VList l =>
    let fix items (l : list value) : result (list text) :=
      match l with
      | [] => Ok []
      | x :: r =>
        match dumps x, items r with
        | Ok t, Ok ts => Ok (t :: ts)
        | Ok _, e => e
        | Raise e, _ => Raise e
        | Blocked, _ => Blocked
        end
      end in
    match items l with
    | Ok ts => Ok ([91] ++ join ts ++ [93])
    | Raise e => Raise e
    | Blocked => Blocked
    end
  | VDict d =>
    let fix items (d : list (text * value)) : result (list text) :=
      match d with
      | [] => Ok []
      | (k, x) :: r =>
        match dumps x, items r with
        | Ok t, Ok ts => Ok ((dumps_str k ++ [58; 32] ++ t) :: ts)
        | Ok _, e => e
        | Raise e, _ => Raise e
        | Blocked, _ => Blocked
        end
      end in
    match items d with
    | Ok ts => Ok ([123] ++ join ts ++ [125])
    | Raise e => Raise e
    | Blocked => Blocked
    end
  | VFrame _ => Raise TypeError
  end.

End Json.

(** ** Dynamic typing: the operators of Python the source applies to
    objects whose type it does not check *)

Definition nl : text := [10].

(** [x is None]. *)
Definition is_None (v : value) : bool :=
  match v with VNone => true | _ => false end.

(** [type(x) is pd.DataFrame]. *)
Definition is_DataFrame (v : value) : bool :=
  match v with VFrame _ => true | _ => false end.

(** [s.startswith(p)]. *)
Fixpoint is_prefix (p s : text) : bool :=
  match p, s with
  | [], _ => true
  | a :: p', b :: s' => (a =? b) && is_prefix p' s'
  | _ :: _, [] => false
  end.

(** [p in s] for two [str]. *)
Fixpoint is_substring (p s : text) : bool :=
  is_prefix p s || match s with [] => false | _ :: s' => is_substring p s' end.

(** [x == 'literal']: true for that [str] only; comparing a DataFrame gives
    a frame of booleans, whose truth value raises [ValueError]. *)
Definition eq_str (v : value) (s : text) : result bool :=
  match v with
  | VStr t => Ok (text_eqb t s)
  | VFrame _ => Raise ValueError
  | _ => Ok false
  end.

(** [key in x] for a [str] key. *)
Definition py_in (key : text) (x : value) : result bool :=
  match x with
  | VDict d => Ok (bool_decide (is_Some (dict_get key d)))
  | VStr s => Ok (is_substring key s)
  | VList l =>
    (fix mem (l : list value) : result bool :=
       match l with
       | [] => Ok false
       | v :: r =>
         match eq_str v key with
         | Ok true => Ok true
         | Ok false => mem r
         | e => e
         end
       end) l
  | VFrame f => Ok (existsb (fun c => text_eqb key (col_name c)) (columns f))
  | _ => Raise TypeError
  end.

(** [x[key]] for a [str] key: a dict gives the entry or [KeyError]; a [str]
    or a list wants an integer, the scalars are not subscriptable. (A
    DataFrame would give a column, an object no message holds: it is
    answered as a missing key.) *)
Definition py_getitem (x : value) (key : text) : result value :=
  match x with
  | VDict d =>
    match dict_get key d with
    | Some v => Ok v
    | None => Raise KeyError
    end
  | VFrame _ => Raise KeyError
  | _ => Raise TypeError
  end.

(** [bool(x)], as an [if x:] takes it. *)
Definition truthy (v : value) : result bool :=
  match v with
  | VNone => Ok false
  | VBool b | VNpBool b => Ok b
  | VInt z => Ok (negb (z =? 0)%Z)
  | VNaN => Ok true
  | VStr s => Ok (negb (len s =? 0))
  | VList l => Ok (negb (len l =? 0))
  | VDict d => Ok (negb (len d =? 0))
  | VFrame _ => Raise ValueError
  end.

(** [if x == True:]. *)
Definition eq_True (v : value) : result bool :=
  match v with
  | VBool b | VNpBool b => Ok b
  | VInt z => Ok (z =? 1)%Z
  | VFrame _ => Raise ValueError
  | _ => Ok false
  end.

(** [if x > 0:]. *)
Definition gt_0 (v : value) : result bool :=
  match v with
  | VBool b | VNpBool b => Ok b
  | VInt z => Ok (0 <? z)%Z
  | VNaN => Ok false
  | VFrame _ => Raise ValueError
  | _ => Raise TypeError
  end.

(** ['literal' + x] and [x + 'literal']: defined for a [str] only. *)
Definition as_str (v : value) : result text :=
  match v with
  | VStr s => Ok s
  | _ => Raise TypeError
  end.

(** [len(x)]. *)
Definition py_len (v : value) : result N :=
  match v with
  | VStr s => Ok (len s)
  | VList l => Ok (len l)
  | VDict d => Ok (len d)
  | VFrame f => Ok (index_len f)
  | _ => Raise TypeError
  end.

(** [x.encode('utf-8')]: a method of [str] only. *)
Definition py_encode (v : value) : result (list byte) :=
  match v with
  | VStr s => Utf8.encode s
  | _ => Raise AttributeError
  end.

(** [len(x.index)]: the index of a DataFrame; [str.index] and [list.index]
    are methods, which have no [len]; nothing else has the attribute. *)
Definition len_index (v : value) : result N :=
  match v with
  | VFrame f => Ok (index_len f)
  | VStr _ | VList _ => Raise TypeError
  | _ => Raise AttributeError
  end.

(** The key an object is as a key of the Environment or of a stored dict.
    Keys are [str] in this model; an unhashable key raises [TypeError], and
    the other hashable objects, which Python would take as keys of their own,
    are answered alike. *)
Definition as_key (v : value) : result text :=
  match v with
  | VStr s => Ok s
  | _ => Raise TypeError
  end.

(** ** The collaborators the source only calls *)

(** What [exec(script, globals, locals)] does: the two scopes it leaves, the
    text the script wrote to [sys.stdout] and [sys.stderr], how it ended
    ([Blocked]: it does not end), and, when it raised, what
    [traceback.print_exc] prints below its heading. *)
Record exec_result : Type := ExecResult {
  exec_globals : gmap text value;
  exec_locals : gmap text value;
  exec_stdout : text;
  exec_stderr : text;
  exec_end : result unit;
  exec_trace : text
}.

Class Externals : Type := {
  exec : value -> gmap text value -> gmap text value -> exec_result;
  pickle_dumps : value -> result (list byte);
  pickle_loads : list byte -> result value;
  json_loads : text -> result value;
  (** [pd.read_csv(StringIO(s), na_values='?', quotechar='\'', escapechar='\\')] *)
  read_csv : text -> result DataFrame;
  (** [frame.to_csv(na_rep='?', index=False, quotechar='\'', escapechar='\\', header=False)] *)
  to_csv : DataFrame -> text;
  (** what [frame.info()] prints *)
  frame_info : DataFrame -> text;
  (** [str(x)] *)
  py_str : value -> text;
  getpid : Z
}.

(** ** The process state *)

(** The module's globals, the two capture buffers installed as [sys.stdout]
    and [sys.stderr] (a [StringIO] is its content), and the socket: the
    segments the peer's bytes arrive in, still unread, and the bytes written
    so far. *)
Record world : Type := World {
  _global_startup_debug : bool;
  _global_env : gmap text value;
  _local_env : gmap text value;
  sys_stdout : text;
  sys_stderr : text;
  conn_in : list (list byte);
  conn_out : list byte;
  conn_closed : bool
}.

Definition set_envs (g l : gmap text value) (w : world) : world :=
  World (_global_startup_debug w) g l (sys_stdout w) (sys_stderr w)
    (conn_in w) (conn_out w) (conn_closed w).

Definition set_local_env (l : gmap text value) (w : world) : world :=
  set_envs (_global_env w) l w.

Definition set_sys_stdout (s : text) (w : world) : world :=
  World (_global_startup_debug w) (_global_env w) (_local_env w) s
    (sys_stderr w) (conn_in w) (conn_out w) (conn_closed w).

Definition set_sys_stderr (s : text) (w : world) : world :=
  World (_global_startup_debug w) (_global_env w) (_local_env w)
    (sys_stdout w) s (conn_in w) (conn_out w) (conn_closed w).

Definition set_conn_in (c : list (list byte)) (w : world) : world :=
  World (_global_startup_debug w) (_global_env w) (_local_env w)
    (sys_stdout w) (sys_stderr w) c (conn_out w) (conn_closed w).

Definition set_conn_out (c : list byte) (w : world) : world :=
  World (_global_startup_debug w) (_global_env w) (_local_env w)
    (sys_stdout w) (sys_stderr w) (conn_in w) c (conn_closed w).

Definition set_conn_closed (b : bool) (w : world) : world :=
  World (_global_startup_debug w) (_global_env w) (_local_env w)
    (sys_stdout w) (sys_stderr w) (conn_in w) (conn_out w) b.

(** A computation of the program: from a state, how it ends and the state it
    leaves. A raise keeps the effects made before it. *)
Definition M (A : Type) : Type := world -> result A * world.

Definition ret {A : Type} (a : A) : M A := fun w => (Ok a, w).

Definition bind {A B : Type} (m : M A) (k : A -> M B) : M B :=
  fun w =>
    match m w with
    | (Ok a, w') => k a w'
    | (Raise e, w') => (Raise e, w')
    | (Blocked, w') => (Blocked, w')
    end.

Definition lift {A : Type} (r : result A) : M A := fun w => (r, w).

Definition get {A : Type} (f : world -> A) : M A := fun w => (Ok (f w), w).

Definition modify (f : world -> world) : M unit := fun w => (Ok tt, f w).

(** [try: m finally: f]. *)
Definition finally {A : Type} (m : M A) (f : M unit) : M A :=
  fun w =>
    match m w with
    | (Blocked, w') => (Blocked, w')
    | (r, w') =>
      match f w' with
      | (Ok _, w'') => (r, w'')
      | (Raise e, w'') => (Raise e, w'')
      | (Blocked, w'') => (Blocked, w'')
      end
    end.

Notation "x <- m ;; k" := (bind m (fun x => k))
  (at level 100, m at next level, right associativity).
Notation "m ;;; k" := (bind m (fun _ => k))
  (at level 100, right associativity).

(** [print(s)] for a [str]: onto the buffer installed as [sys.stdout]. *)
Definition print (s : text) : M unit :=
  modify (fun w => set_sys_stdout (sys_stdout w ++ s ++ nl) w).

(** ** The socket *)

(** The first [n] elements of a list and the rest. *)
Fixpoint split_at {A : Type} (n : N) (l : list A) : list A * list A :=
  match l with
  | [] => ([], [])
  | x :: r =>
    if n =? 0 then ([], l)
    else let (a, b) := split_at (n - 1) r in (x :: a, b)
  end.

(** What [recv(bufsize)] takes from the pending segments: up to [bufsize]
    bytes of the first one that has any; [None] when there is none, and the
    call blocks. *)
Fixpoint recv_from (pending : list (list byte)) (bufsize : N)
    : option (list byte * list (list byte)) :=
  match pending with
  | [] => None
  | [] :: rest => recv_from rest bufsize
  | seg :: rest =>
    let (got, left) := split_at bufsize seg in
    Some (got, match left with [] => rest | _ => left :: rest end)
  end.

Definition recv (bufsize : N) : M (list byte) :=
  fun w =>
    match recv_from (conn_in w) bufsize with
    | None => (Blocked, w)
    | Some (got, rest) => (Ok got, set_conn_in rest w)
    end.

Definition sendall (b : list byte) : M unit :=
  modify (fun w => set_conn_out (conn_out w ++ b) w).

(** The bytes the transport still holds: a bound on the reads a loop can
    make, each read taking one byte at least. *)
Definition pending_bytes (w : world) : nat := length (concat (conn_in w)).

(** Sequencing for the functions that touch no state. *)
Definition and_then {A B : Type} (r : result A) (k : A -> result B) : result B :=
  match r with
  | Ok a => k a
  | Raise e => Raise e
  | Blocked => Blocked
  end.

Notation "x <-? r ;; k" := (and_then r (fun x => k))
  (at level 100, r at next level, right associativity).

(** ** pandas: [Series.unique] and the column access of a DataFrame *)

Definition cell_num (c : cell) : Z :=
  match c with
  | CBool b => Z.b2z b
  | CNum z => z
  | _ => 0%Z
  end.

(** Equality of two cells as the hash table behind [unique] takes it:
    Python's [==] (so [True] is [1]), with all [NaN] alike. *)
Definition cell_eqb (a b : cell) : bool :=
  match a, b with
  | CStr s, CStr t => text_eqb s t
  | CNaN, CNaN => true
  | (CBool _ | CNum _), (CBool _ | CNum _) => (cell_num a =? cell_num b)%Z
  | _, _ => false
  end.

Fixpoint unique_from (seen : list cell) (values : list cell) : list cell :=
  match values with
  | [] => []
  | v :: r =>
    if existsb (cell_eqb v) seen then unique_from seen r
    else v :: unique_from (v :: seen) r
  end.

(** [series.unique()]: the distinct values in order of first appearance,
    the missing-value marker among them. *)
Definition unique (values : list cell) : list cell := unique_from [] values.

(** [frame.dtypes[att_name]] and [frame[att_name]]: the column of that
    label. With a label that several columns carry both give a table, and the
    comparison the source makes next has no truth value. *)
Definition frame_column (frame : DataFrame) (att_name : text) : result column :=
  match List.filter (fun c => text_eqb (col_name c) att_name) (columns frame) with
  | [c] => Ok c
  | [] => Raise KeyError
  | _ => Raise ValueError
  end.

(** The object that iterating [distinct] yields for a cell: a [numpy.bool_]
    from a [bool] array, the stored object from an [object] array. *)
Definition cell_value (dtype : text) (c : cell) : value :=
  match c with
  | CStr s => VStr s
  | CBool b => if text_eqb dtype (str "bool") then VNpBool b else VBool b
  | CNum z => VInt z
  | CNaN => VNaN
  end.

Section Server.
Context {E : Externals}.

(** ** The functions of pyServer.py *)

Definition message_debug (message : value) : result value :=
  has <-? py_in (str "debug") message ;;
  if has then py_getitem message (str "debug") else Ok (VBool false).

Definition send_response (response : value) (isJson : bool) : M unit :=
  response <- (if isJson
               then (s <- lift (Json.dumps response) ;; ret (VStr s))
               else ret response) ;;
  n <- lift (py_len response) ;;
  prefix <- lift (Struct.pack_L n) ;;
  sendall prefix ;;;
  payload <- lift (py_encode response) ;;
  sendall payload.

(** [while len(length) < 4: length += recv(4)]. *)
Fixpoint receive_length (fuel : nat) (length : list byte) : M (list byte) :=
  if len length <? 4 then
    match fuel with
    | O => lift Blocked
    | S fuel' => chunk <- recv 4 ;; receive_length fuel' (length ++ chunk)
    end
  else ret length.

(** [while len(data) < size: data += recv(size).decode('utf-8')]. *)
Fixpoint receive_data (fuel : nat) (size : N) (data : text) : M text :=
  if len data <? size then
    match fuel with
    | O => lift Blocked
    | S fuel' =>
      chunk <- recv size ;;
      s <- lift (Utf8.decode chunk) ;;
      receive_data fuel' size (data ++ s)
    end
  else ret data.

Definition receive_message (isJson : bool) : M value :=
  length <- (fun w => receive_length (pending_bytes w) [] w) ;;
  size <- lift (Struct.unpack_L length) ;;
  data <- (fun w => receive_data (pending_bytes w) size [] w) ;;
  if isJson then lift (json_loads data) else ret (VStr data).

Definition ack_command_err (message : text) : M unit :=
  send_response
    (VDict (dict_set (str "error_message") (VStr message)
              (dict_set (str "response") (VStr (str "error")) []))) true.

Definition ack_command_ok : M unit :=
  send_response (VDict (dict_set (str "response") (VStr (str "ok")) [])) true.

Definition get_variable (var_name : value) : M value :=
  match var_name with
  | VList _ | VDict _ | VFrame _ => lift (Raise TypeError)
  | VStr name =>
    env <- get _local_env ;;
    match env !! name with
    | Some v => ret v
    | None => ret VNone
    end
  | _ => ret VNone
  end.

(** [_local_env[var_name] = object]. *)
Definition set_variable (var_name : value) (object : value) : M unit :=
  name <- lift (as_key var_name) ;;
  modify (fun w => set_local_env (<[name := object]> (_local_env w)) w).

Definition send_debug_buffer : M unit :=
  tOut <- get sys_stdout ;;
  tErr <- get sys_stderr ;;
  let ok_response :=
    dict_set (str "std_err") (VStr tErr)
      (dict_set (str "std_out") (VStr tOut)
         (dict_set (str "response") (VStr (str "ok")) [])) in
  modify (set_sys_stdout []) ;;;
  modify (set_sys_stderr []) ;;;
  send_response (VDict ok_response) true.

Definition receive_instances (message : value) : M unit :=
  has <- lift (py_in (str "header") message) ;;
  if has then
    header <- lift (py_getitem message (str "header")) ;;
    frame_name <- lift (py_getitem header (str "frame_name")) ;;
    env <- get _local_env ;;
    headers <- lift (match env !! str "headers" with
                     | Some h => Ok h
                     | None => Raise KeyError
                     end) ;;
    headers <- lift (match headers with
                     | VDict d =>
                       key <-? as_key frame_name ;; Ok (VDict (dict_set key header d))
                     | _ => Raise TypeError
                     end) ;;
    set_variable (VStr (str "headers")) headers ;;;
    num_instances <- lift (py_getitem message (str "num_instances")) ;;
    positive <- lift (gt_0 num_instances) ;;
    (if positive then
       csv_data <- receive_message false ;;
       csv_data <- lift (as_str csv_data) ;;
       frame <- lift (read_csv csv_data) ;;
       set_variable frame_name (VFrame frame) ;;;
       debug <- lift (d <-? message_debug message ;; eq_True d) ;;
       if debug then
         modify (fun w => set_sys_stdout (sys_stdout w ++ frame_info frame) w) ;;;
         print (str "None " ++ nl)
       else ret tt
     else ret tt) ;;;
    ack_command_ok
  else
    ack_command_err (str "put instances json message does not contain a header entry!").

(** [math.isnan(s)]: of a number; a [str] raises [TypeError]. *)
Definition math_isnan (s : cell) : result bool :=
  match s with
  | CNaN => Ok true
  | CBool _ | CNum _ => Ok false
  | CStr _ => Raise TypeError
  end.

(** [try: return math.isnan(s) / except: return False]. *)
Definition is_nan (s : cell) : bool :=
  match math_isnan s with
  | Ok b => b
  | _ => false
  end.

Definition attribute_of (frame : DataFrame) (num_rows : N) (att_name : text)
    : result value :=
  c <-? frame_column frame att_name ;;
  let attribute := dict_set (str "name") (VStr att_name) [] in
  let type := col_dtype c in
  if text_eqb type (str "object") || text_eqb type (str "bool") then
    let attribute := dict_set (str "type") (VStr (str "STRING")) attribute in
    let distinct := unique (col_values c) in
    (* distinct.size < num_rows / 2, the quotient being exact *)
    if 2 * len distinct <? num_rows then
      let attribute := dict_set (str "type") (VStr (str "NOMINAL")) attribute in
      let nom_vals := List.filter (fun val => negb (is_nan val)) distinct in
      Ok (VDict (dict_set (str "values") (VList (map (cell_value type) nom_vals))
                   attribute))
    else Ok (VDict attribute)
  else if is_prefix (str "datetime") type then
    Ok (VDict (dict_set (str "type") (VStr (str "DATE")) attribute))
  else
    Ok (VDict (dict_set (str "type") (VStr (str "NUMERIC")) attribute)).

Fixpoint header_attributes (frame : DataFrame) (num_rows : N)
    (names : list text) : result (list value) :=
  match names with
  | [] => Ok []
  | att_name :: rest =>
    attribute <-? attribute_of frame num_rows att_name ;;
    attributes <-? header_attributes frame num_rows rest ;;
    Ok (attribute :: attributes)
  end.

Definition instances_to_header_message (frame_name : value) (frame : DataFrame)
    : result value :=
  let num_rows := index_len frame in
  attributes <-? header_attributes frame num_rows (map col_name (columns frame)) ;;
  Ok (VDict (dict_set (str "attributes") (VList attributes)
               (dict_set (str "relation_name") frame_name []))).

Definition send_instances (message : value) : M unit :=
  frame_name <- lift (py_getitem message (str "frame_name")) ;;
  frame <- get_variable frame_name ;;
  message <- (if negb (is_DataFrame frame) then
                prefix <- lift (as_str frame_name) ;;
                let message := str "Variable " ++ prefix in
                let message :=
                  if is_None frame then message ++ str " is not defined"
                  else message ++ str " is not a DataFrame object" in
                ack_command_err message ;;;
                ret (VStr message)
              else
                ack_command_ok ;;;
                ret message) ;;
  num_instances <- lift (len_index frame) ;;
  header <- lift (match frame with
                  | VFrame f => instances_to_header_message frame_name f
                  | _ => Raise AttributeError
                  end) ;;
  let response :=
    VDict (dict_set (str "header") header
             (dict_set (str "num_instances") (VInt (Z.of_N num_instances))
                (dict_set (str "response") (VStr (str "instances_header")) []))) in
  debug <- lift (d <-? message_debug message ;; eq_True d) ;;
  (if debug then print (py_str response) else ret tt) ;;;
  send_response response true ;;;
  s <- lift (match frame with
             | VFrame f => Ok (to_csv f)
             | _ => Raise AttributeError
             end) ;;
  send_response (VStr s) false.

Definition traceback_heading : text :=
  str "Traceback (most recent call last):" ++ nl.

(** The [try] block of [execute_script] with its [except Exception]: the
    script runs on the two scopes and writes to the buffers installed at that
    moment; an [Exception] it raises is answered by a line on [sys.stdout]
    and the trace on the error buffer (the buffer installed as [sys.stderr]),
    anything else it raises goes on up. *)
Definition exec_guarded (script : value) : M unit :=
  fun w =>
    let r := exec script (_global_env w) (_local_env w) in
    let w' :=
      set_sys_stderr (sys_stderr w ++ exec_stderr r)
        (set_sys_stdout (sys_stdout w ++ exec_stdout r)
           (set_envs (exec_globals r) (exec_locals r) w)) in
    match exec_end r with
    | Ok _ => (Ok tt, w')
    | Raise e =>
      if is_Exception e then
        (print (str "Got an exception executing script") ;;;
         modify (fun w => set_sys_stderr
                   (sys_stderr w ++ traceback_heading ++ exec_trace r) w)) w'
      else (Raise e, w')
    | Blocked => (Blocked, w')
    end.

(** [tOut] and [tErr] name the buffer objects installed on entry; what they
    hold when they are put back is what they hold when they are swapped out,
    the line the [debug] branch prints included. *)
Definition execute_script (message : value) : M unit :=
  has <- lift (py_in (str "script") message) ;;
  if has then
    script <- lift (py_getitem message (str "script")) ;;
    debug <- lift (d <-? message_debug message ;; truthy d) ;;
    (if debug then
       s <- lift (as_str script) ;;
       print (str "Executing script..." ++ nl ++ nl ++ s)
     else ret tt) ;;;
    tOut <- get sys_stdout ;;
    tErr <- get sys_stderr ;;
    modify (set_sys_stdout []) ;;;
    modify (set_sys_stderr []) ;;;
    exec_guarded script ;;;
    output <- get sys_stdout ;;
    error <- get sys_stderr ;;
    modify (set_sys_stdout tOut) ;;;
    modify (set_sys_stderr tErr) ;;;
    send_response
      (VDict (dict_set (str "script_error") (VStr error)
                (dict_set (str "script_out") (VStr output)
                   (dict_set (str "response") (VStr (str "ok")) [])))) true
  else
    ack_command_err (str "execute script json message does not contain a script entry!").

Definition send_variable_is_set (message : value) : M unit :=
  has <- lift (py_in (str "variable_name") message) ;;
  if has then
    var_name <- lift (py_getitem message (str "variable_name")) ;;
    var_value <- get_variable var_name ;;
    let ok_response :=
      dict_set (str "variable_name") var_name
        (dict_set (str "response") (VStr (str "ok")) []) in
    let ok_response :=
      if negb (is_None var_value)
      then dict_set (str "variable_exists") (VBool true) ok_response
      else dict_set (str "variable_exists") (VBool false) ok_response in
    send_response (VDict ok_response) true
  else
    ack_command_err (str "object exists json message does not contain a variable_name entry!").

Definition base64_encode (value : list byte) : result text :=
  Utf8.decode (Base64.b64encode value).

Definition base64_decode (value : value) : result (list byte) :=
  b64b <-? py_encode value ;;
  Base64.b64decode b64b.

Definition send_encoded_variable_value (message : value) : M unit :=
  has <- lift (py_in (str "variable_name") message) ;;
  if has then
    var_name <- lift (py_getitem message (str "variable_name")) ;;
    object <- get_variable var_name ;;
    if negb (is_None object) then
      encoding <- lift (py_getitem message (str "variable_encoding")) ;;
      pickled <- lift (eq_str encoding (str "pickled")) ;;
      encoded_object <-
        (if pickled then
           encoded_object <- lift (pickle_dumps object) ;;
           b64s <- lift (base64_encode encoded_object) ;;
           ret (VStr b64s)
         else
           json <- lift (eq_str encoding (str "json")) ;;
           if json then ret object
           else
             string <- lift (eq_str encoding (str "string")) ;;
             if string then ret (VStr (py_str object)) else ret VNone) ;;
      let ok_response :=
        dict_set (str "variable_value") encoded_object
          (dict_set (str "variable_encoding") encoding
             (dict_set (str "variable_name") var_name
                (dict_set (str "response") (VStr (str "ok")) []))) in
      debug <- lift (d <-? message_debug message ;; eq_True d) ;;
      (if debug then
         encoding <- lift (as_str encoding) ;;
         var_name <- lift (as_str var_name) ;;
         print (str "Sending " ++ encoding ++ str " value for var " ++ var_name ++ nl)
       else ret tt) ;;;
      send_response (VDict ok_response) true
    else
      var_name <- lift (as_str var_name) ;;
      ack_command_err (var_name ++ str " does not exist!")
  else
    ack_command_err (str "get variable value json message does not contain a variable_name entry!").

Definition send_variable_value (message : value) : M unit :=
  has <- lift (py_in (str "variable_encoding") message) ;;
  if has then
    encoding <- lift (py_getitem message (str "variable_encoding")) ;;
    pickled <- lift (eq_str encoding (str "pickled")) ;;
    json <- (if pickled then ret true else lift (eq_str encoding (str "json"))) ;;
    string <- (if json then ret true else lift (eq_str encoding (str "string"))) ;;
    if string then send_encoded_variable_value message
    else ack_command_err (str "Unknown encoding type for send variable value message")
  else
    ack_command_err (str "send variable value message does not contain an encoding field").

Definition receive_pickled_variable_value (message : value) : M unit :=
  has_name <- lift (py_in (str "variable_name") message) ;;
  has <- (if has_name then lift (py_in (str "variable_value") message) else ret false) ;;
  if has then
    var_name <- lift (py_getitem message (str "variable_name")) ;;
    pickled_var_value <- lift (py_getitem message (str "variable_value")) ;;
    pickled_var_value <- lift (base64_decode pickled_var_value) ;;
    object <- lift (pickle_loads pickled_var_value) ;;
    set_variable var_name object ;;;
    ack_command_ok
  else
    ack_command_err (str "put variable value json message does not contain a variable_name or variable_value entry!").

Definition receive_variable_value (message : value) : M unit :=
  has <- lift (py_in (str "variable_encoding") message) ;;
  if has then
    encoding <- lift (py_getitem message (str "variable_encoding")) ;;
    pickled <- lift (eq_str encoding (str "pickled")) ;;
    if pickled then receive_pickled_variable_value message else ret tt
  else
    ack_command_err (str "receive variable value message does not contain an encoding field").

(** [if _global_startup_debug == True: print(s)]. *)
Definition startup_print (s : text) : M unit :=
  debug <- get _global_startup_debug ;;
  if debug then print s else ret tt.

(** The body of the [while 1] loop of [runServer], after the receive. The
    chain of [elif] tests the command against each name in turn. *)
Definition dispatch (message : value) : M unit :=
  has <- lift (py_in (str "command") message) ;;
  if has then
    command <- lift (py_getitem message (str "command")) ;;
    c <- lift (eq_str command (str "put_instances")) ;;
    if c then receive_instances message else
    c <- lift (eq_str command (str "get_instances")) ;;
    if c then send_instances message else
    c <- lift (eq_str command (str "execute_script")) ;;
    if c then execute_script message else
    c <- lift (eq_str command (str "get_variable_value")) ;;
    if c then send_variable_value message else
    c <- lift (eq_str command (str "variable_is_set")) ;;
    if c then send_variable_is_set message else
    c <- lift (eq_str command (str "set_variable_value")) ;;
    if c then receive_variable_value message else
    c <- lift (eq_str command (str "get_debug_buffer")) ;;
    if c then send_debug_buffer else
    c <- lift (eq_str command (str "shutdown")) ;;
    if c then
      startup_print (str "Received shutdown command..." ++ nl) ;;;
      lift (Raise SystemExit)
    else ret tt
  else
    startup_print (str "message did not contain a command field!").

(** One turn of the loop: [message = receive_message(True)], then the
    dispatch. *)
Definition server_cycle : M unit :=
  message <- receive_message true ;;
  dispatch message.

(** [while 1: ...]. Every turn reads four bytes at least, so on a transport
    that holds [fuel] bytes or fewer the loop is blocked in [recv], or has
    raised, before the fuel is spent. *)
Fixpoint server_loop (fuel : nat) : M unit :=
  match fuel with
  | O => lift Blocked
  | S fuel' => server_cycle ;;; server_loop fuel'
  end.

Definition runServer : M unit :=
  startup_print (str "Python server starting..." ++ nl) ;;;
  set_variable (VStr (str "headers")) (VDict []) ;;;
  send_response
    (VDict (dict_set (str "pid") (VInt getpid)
              (dict_set (str "response") (VStr (str "pid_response")) []))) true ;;;
  finally (fun w => server_loop (S (pending_bytes w)) w)
    (modify (set_conn_closed true)).

End Server.

(** ** Vocabulary of the statements *)

(** A document [json.loads] can return: no DataFrame and no numpy scalar
    inside. *)
Fixpoint is_json (v : value) : bool :=
  match v with
  | VNone | VBool _ | VInt _ | VNaN | VStr _ => true
  | VNpBool _ | VFrame _ => false
  | VList l => forallb is_json l
  | VDict d => forallb (fun kv => is_json (snd kv)) d
  end.

(** The bytes of the frame whose payload is the text [s]: the length of [s]
    in four octets, then its UTF-8 encoding. *)
Definition text_frame (s : text) : result (list byte) :=
  prefix <-? Struct.pack_L (len s) ;;
  payload <-? Utf8.encode s ;;
  Ok (prefix ++ payload).

(** The bytes of the frame that carries the document [v]. *)
Definition json_frame (v : value) : result (list byte) :=
  s <-? Json.dumps v ;; text_frame s.

(** A text of code points below 128. *)
Definition is_ascii (s : text) : bool := forallb (fun c => c <? 128) s.

(** The values of a column that are not the missing-value marker. *)
Definition non_missing (values : list cell) : list cell :=
  List.filter (fun v => negb (is_nan v)) values.

(** The script raised. *)
Definition script_failed (r : exec_result) : bool :=
  match exec_end r with
  | Raise _ => true
  | _ => false
  end.

(** What a script's run leaves in the two buffers [execute_script] installs
    for it: what the script wrote, then, when it raised an [Exception], the
    handler's line on the output and the trace on the error buffer. *)
Definition script_out (r : exec_result) : text :=
  if script_failed r
  then exec_stdout r ++ str "Got an exception executing script" ++ nl
  else exec_stdout r.

Definition script_error (r : exec_result) : text :=
  if script_failed r
  then exec_stderr r ++ traceback_heading ++ exec_trace r
  else exec_stderr r.

(** The response of [execute_script] to a run. *)
Definition script_response (r : exec_result) : value :=
  VDict [(str "response", VStr (str "ok"));
         (str "script_out", VStr (script_out r));
         (str "script_error", VStr (script_error r))].

(** The line the [debug] branch of [execute_script] prints. *)
Definition debug_line (debug : bool) (script : text) : text :=
  if debug then str "Executing script..." ++ nl ++ nl ++ script ++ nl else [].

(** The state in which that response is sent: the two scopes as the script
    left them, the capture buffers installed before the call put back, the
    debug line added to the first. *)
Definition after_script (r : exec_result) (debug : bool) (script : text)
    (w : world) : world :=
  set_envs (exec_globals r) (exec_locals r)
    (set_sys_stdout (sys_stdout w ++ debug_line debug script) w).

(** A state that differs from another in the unread segments only. *)
Definition reads_only (w w' : world) : Prop := w' = set_conn_in (conn_in w') w.

(** A computation that puts no bytes back on the transport. *)
Definition input_only {A : Type} (m : M A) : Prop :=
  forall w r w', m w = (r, w') -> (pending_bytes w' <= pending_bytes w)%nat.

(** All 256 octets, and the facts about one group of base64 characters that
    are checked over them. *)
Definition all_bytes : list byte :=
  map (fun n => byte_of (N.of_nat n)) (seq 0 256).

Module B64.
Import Base64.

(** The four characters of a group of three bytes. *)
Definition c0 (x : byte) : N := N.shiftr (Byte.to_N x) 2.
Definition c1 (x y : byte) : N :=
  N.lor (N.shiftl (N.land (Byte.to_N x) 3) 4) (N.shiftr (Byte.to_N y) 4).
Definition c2 (y z : byte) : N :=
  N.lor (N.shiftl (N.land (Byte.to_N y) 15) 2) (N.shiftr (Byte.to_N z) 6).
Definition c3 (z : byte) : N := N.land (Byte.to_N z) 63.

(** A character of the alphabet is no pad and decodes to its index. *)
Definition char_ok (i : N) : bool :=
  negb (Byte.eqb (b2a i) PAD) && match a2b (b2a i) with
                                 | Some j => j =? i
                                 | None => false
                                 end.

(** For two octets in each role they can play in a group: the characters
    are of the alphabet, and the decoder's shifts put the octets back. *)
Definition quad_ok (x y : byte) : bool :=
  char_ok (c0 x) && char_ok (c1 x y) && char_ok (c2 x y) && char_ok (c3 x)
  && Byte.eqb (byte_of (N.lor (N.shiftl (c0 x) 2) (N.shiftr (c1 x y) 4))) x
  && (N.land (c1 x y) 0x0f =? N.shiftr (Byte.to_N y) 4)
  && (N.shiftr (c2 x y) 2 =? N.land (Byte.to_N x) 15)
  && Byte.eqb (byte_of (N.lor (N.shiftl (N.shiftr (Byte.to_N x) 4) 4)
                          (N.land (Byte.to_N x) 15))) x
  && Byte.eqb (byte_of (N.lor (N.shiftl (N.land (c2 y x) 0x03) 6) (c3 x))) x.

End B64.

(** ** A concrete set of collaborators

    The lemmas below hold for every [Externals]. To evaluate the program on
    concrete inputs one instance is fixed here: a codec that speaks a few
    opcodes of the pickle protocol, a script engine that knows four scripts,
    and a [json.loads] that knows the requests of the examples. *)
Module Demo.

(** The opcodes [NONE], [NEWTRUE], [NEWFALSE], [BININT1], [SHORT_BINUNICODE],
    [EMPTY_LIST], [APPEND], [EMPTY_DICT], [SETITEM] and [STOP]. *)
Definition save_str (s : text) : result (list byte) :=
  b <-? Utf8.encode s ;;
  if len b <? 256 then Ok (x8c :: byte_of (len b) :: b) else Raise PicklingError.

Fixpoint save (v : value) : result (list byte) :=
  match v with
  | VNone => Ok ["N"%byte]
  | VBool true => Ok [x88]
  | VBool false => Ok [x89]
  | VInt z =>
    if ((0 <=? z) && (z <? 256))%Z then Ok ["K"%byte; byte_of (Z.to_N z)]
    else Raise PicklingError
  | VStr s => save_str s
  | VList l =>
    bs <-? (fix items (l : list value) : result (list byte) :=
              match l with
              | [] => Ok []
              | x :: r =>
                b <-? save x ;; bs <-? items r ;; Ok (b ++ ["a"%byte] ++ bs)
              end) l ;;
    Ok ("]"%byte :: bs)
  | VDict d =>
    bs <-? (fix items (d : list (text * value)) : result (list byte) :=
              match d with
              | [] => Ok []
              | (k, x) :: r =>
                kb <-? save_str k ;; b <-? save x ;; bs <-? items r ;;
                Ok (kb ++ b ++ ["s"%byte] ++ bs)
              end) d ;;
    Ok ("}"%byte :: bs)
  | _ => Raise PicklingError
  end.

Definition dumps (v : value) : result (list byte) :=
  b <-? save v ;; Ok (b ++ ["."%byte]).

Fixpoint load (fuel : nat) (input : list byte) (stack : list value)
    : result value :=
  match fuel, input with
  | S fuel', op :: rest =>
    if Byte.eqb op "N"%byte then load fuel' rest (VNone :: stack)
    else if Byte.eqb op x88 then load fuel' rest (VBool true :: stack)
    else if Byte.eqb op x89 then load fuel' rest (VBool false :: stack)
    else if Byte.eqb op "]"%byte then load fuel' rest (VList [] :: stack)
    else if Byte.eqb op "}"%byte then load fuel' rest (VDict [] :: stack)
    else if Byte.eqb op "K"%byte then
      match rest with
      | b :: rest' => load fuel' rest' (VInt (Z.of_N (Byte.to_N b)) :: stack)
      | [] => Raise UnpicklingError
      end
    else if Byte.eqb op x8c then
      match rest with
      | n :: rest' =>
        let (b, rest'') := split_at (Byte.to_N n) rest' in
        if len b =? Byte.to_N n then
          s <-? Utf8.decode b ;; load fuel' rest'' (VStr s :: stack)
        else Raise UnpicklingError
      | [] => Raise UnpicklingError
      end
    else if Byte.eqb op "a"%byte then
      match stack with
      | x :: VList l :: stack' => load fuel' rest (VList (l ++ [x]) :: stack')
      | _ => Raise UnpicklingError
      end
    else if Byte.eqb op "s"%byte then
      match stack with
      | x :: VStr k :: VDict d :: stack' =>
        load fuel' rest (VDict (dict_set k x d) :: stack')
      | _ => Raise UnpicklingError
      end
    else if Byte.eqb op "."%byte then
      match stack with
      | x :: _ => Ok x
      | [] => Raise UnpicklingError
      end
    else Raise UnpicklingError
  | _, _ => Raise UnpicklingError
  end.

Definition loads (b : list byte) : result value := load (length b) b [].

Definition no_effect (g l : gmap text value) (out err : text)
    (e : result unit) (trace : text) : exec_result :=
  ExecResult g l out err e trace.

(** The scripts [x = 1], [print('hi')], [1/0] and [raise SystemExit]; any
    other text is taken as a script that does nothing. *)
Definition run (script : value) (g l : gmap text value) : exec_result :=
  match script with
  | VStr s =>
    if text_eqb s (str "x = 1") then
      no_effect g (<[str "x" := VInt 1]> l) [] [] (Ok tt) []
    else if text_eqb s (str "print('hi')") then
      no_effect g l (str "hi" ++ nl) [] (Ok tt) []
    else if text_eqb s (str "1/0") then
      no_effect g l [] [] (Raise ScriptError)
        (str "ZeroDivisionError: division by zero" ++ nl)
    else if text_eqb s (str "raise SystemExit") then
      no_effect g l [] [] (Raise SystemExit) []
    else no_effect g l [] [] (Ok tt) []
  | _ =>
    no_effect g l [] [] (Raise TypeError)
      (str "TypeError: exec() arg 1 must be a string, bytes or code object" ++ nl)
  end.

(** The requests of the examples. *)
Definition no_command : list (text * value) := [].

Definition shutdown : list (text * value) :=
  [(str "command", VStr (str "shutdown"))].

Definition run_failing : list (text * value) :=
  [(str "command", VStr (str "execute_script"));
   (str "script", VStr (str "1/0"))].

Definition run_exit : list (text * value) :=
  [(str "command", VStr (str "execute_script"));
   (str "script", VStr (str "raise SystemExit"))].

Definition run_print_debug : list (text * value) :=
  [(str "command", VStr (str "execute_script"));
   (str "script", VStr (str "print('hi')"));
   (str "debug", VBool true)].

Definition get_absent : list (text * value) :=
  [(str "command", VStr (str "get_instances"));
   (str "frame_name", VStr (str "nope"))].

(** [nested] is a map that holds a list; [nested_text] and [none_text] are
    the base64 texts of the pickles of [nested] and of [None]. *)
Definition nested : value :=
  VDict [(str "k", VList [VInt 1; VStr (str "two"); VNone])].

Definition nested_text : text := str "fYwBa11LAWGMA3R3b2FOYXMu".

Definition none_text : text := str "Ti4=".

Definition set_x (t : text) : list (text * value) :=
  [(str "command", VStr (str "set_variable_value"));
   (str "variable_name", VStr (str "x"));
   (str "variable_value", VStr t);
   (str "variable_encoding", VStr (str "pickled"))].

Definition set_x_json : list (text * value) :=
  [(str "command", VStr (str "set_variable_value"));
   (str "variable_name", VStr (str "x"));
   (str "variable_value", VStr (str "1"));
   (str "variable_encoding", VStr (str "json"))].

Definition ask_x : list (text * value) :=
  [(str "command", VStr (str "variable_is_set"));
   (str "variable_name", VStr (str "x"))].

Definition get_x : list (text * value) :=
  [(str "command", VStr (str "get_variable_value"));
   (str "variable_name", VStr (str "x"));
   (str "variable_encoding", VStr (str "pickled"))].

(** [json.loads] on the serializations of these requests. *)
Definition documents : list value :=
  map VDict
    [no_command; shutdown; run_failing; run_exit; run_print_debug; get_absent;
     set_x nested_text; set_x none_text; set_x_json; ask_x; get_x].

Definition parse (s : text) : result value :=
  match find (fun d => match Json.dumps d with
                       | Ok t => text_eqb t s
                       | _ => false
                       end) documents with
  | Some d => Ok d
  | None => Raise JSONDecodeError
  end.

(** Two tables of one textual column: four rows, one of them missing; and
    seven rows with two distinct values and a missing one. *)
Definition gappy : DataFrame :=
  Frame 4 [Column (str "grade") (str "object")
             [CStr (str "a"); CNaN; CStr (str "a"); CStr (str "a")]].

Definition graded : DataFrame :=
  Frame 7 [Column (str "grade") (str "object")
             [CStr (str "a"); CStr (str "b"); CStr (str "a"); CNaN;
              CStr (str "a"); CStr (str "b"); CStr (str "a")]].

#[export] Instance externals : Externals := {
  exec := run;
  pickle_dumps := dumps;
  pickle_loads := loads;
  json_loads := parse;
  read_csv := fun _ => Raise ParserError;
  to_csv := fun _ => [];
  frame_info := fun _ => [];
  py_str := fun _ => [];
  getpid := 4242%Z
}.

(** A freshly started process: nothing captured, nothing read or written,
    the Environment as [runServer] leaves it before the loop. *)
Definition started (pending : list (list byte)) : world :=
  World false ∅ (<[str "headers" := VDict []]> ∅) [] [] pending [] false.

(** The transport that delivers the frame of one request in one segment. *)
Definition incoming (request : list (text * value)) : list (list byte) :=
  match json_frame (VDict request) with
  | Ok b => [b]
  | _ => []
  end.

End Demo.

(** ** Vocabulary of the further statements *)

(** The commands the dispatcher knows. *)
Definition command_names : list text :=
  [str "put_instances"; str "get_instances"; str "execute_script";
   str "get_variable_value"; str "variable_is_set"; str "set_variable_value";
   str "get_debug_buffer"; str "shutdown"].

(** The encodings [get_variable_value] knows. *)
Definition encoding_names : list text :=
  [str "pickled"; str "json"; str "string"].

(** A computation whose every run relates the state it starts in to the
    state it leaves. *)
Definition preserves {A : Type} (R : world -> world -> Prop) (m : M A) : Prop :=
  forall w r w', m w = (r, w') -> R w w'.

(** The two scopes are as they were. *)
Definition same_env (w w' : world) : Prop :=
  _local_env w' = _local_env w /\ _global_env w' = _global_env w.

(** What was written to the socket is still there, with what was written
    since after it; the connection is open or closed as it was. *)
Definition appends_only (w w' : world) : Prop :=
  (exists b, conn_out w' = conn_out w ++ b) /\
  conn_closed w' = conn_closed w.

(** A cell of a column of booleans. *)
Definition is_bool (c : cell) : bool :=
  match c with
  | CBool _ => true
  | _ => false
  end.

(** The four attribute types of a header. *)
Definition attribute_types : list value :=
  [VStr (str "NUMERIC"); VStr (str "STRING"); VStr (str "NOMINAL");
   VStr (str "DATE")].

(** A computation whose outcome depends on the unread segments alone, and
    that changes nothing else. *)
Definition reads_input {A : Type} (m : M A) : Prop :=
  forall w0 w r w0', conn_in w0 = conn_in w -> m w0 = (r, w0') ->
    m w = (r, set_conn_in (conn_in w0') w).

(** ** A second fixed world, for the exchange of tables

    [Demo]'s collaborators with a pandas that reads one CSV text and that
    writes the rows of a table whose texts need no quoting. *)
Module Tables.

(** The rows of [Demo.gappy] as [to_csv] writes them, and the text that
    [read_csv] reads as that table: the labels on the first line. *)
Definition rows : text :=
  str "a" ++ nl ++ str "?" ++ nl ++ str "a" ++ nl ++ str "a" ++ nl.

Definition sheet : text := str "grade" ++ nl ++ rows.

Definition pd_read_csv (s : text) : result DataFrame :=
  if text_eqb s sheet then Ok Demo.gappy else Raise ParserError.

Definition cell_text (c : cell) : text :=
  match c with
  | CStr s => s
  | CBool true => str "True"
  | CBool false => str "False"
  | CNum z => Json.dumps_int z
  | CNaN => str "?"
  end.

Fixpoint comma_join (items : list text) : text :=
  match items with
  | [] => []
  | [x] => x
  | x :: r => x ++ str "," ++ comma_join r
  end.

Definition pd_to_csv (f : DataFrame) : text :=
  concat
    (map (fun i =>
            comma_join (map (fun c => cell_text (nth i (col_values c) CNaN))
                          (columns f)) ++ nl)
       (seq 0 (N.to_nat (index_len f)))).

Definition externals : Externals := {|
  exec := Demo.run;
  pickle_dumps := Demo.dumps;
  pickle_loads := Demo.loads;
  json_loads := Demo.parse;
  read_csv := pd_read_csv;
  to_csv := pd_to_csv;
  frame_info := fun _ => [];
  py_str := fun _ => [];
  getpid := 4242%Z
|}.

(** The bytes of a frame that could be built. *)
Definition bytes_of (r : result (list byte)) : list byte :=
  match r with
  | Ok b => b
  | _ => []
  end.

(** The process before [runServer] has run. *)
Definition fresh (pending : list (list byte)) : world :=
  World false ∅ ∅ [] [] pending [] false.

(** A started process in which [grades] is bound to a table. *)
Definition loaded (f : DataFrame) : world :=
  World false ∅ (<[str "grades" := VFrame f]> (<[str "headers" := VDict []]> ∅))
    [] [] [] [] false.

(** Tables: a [bool] column of five rows, a date and an integer column, and
    two columns under one label. *)
Definition flags : DataFrame :=
  Frame 5 [Column (str "passed") (str "bool")
             [CBool true; CBool false; CBool true; CBool true; CBool false]].

Definition measured : DataFrame :=
  Frame 2 [Column (str "when") (str "datetime64[ns]") [CNum 0; CNum 1];
           Column (str "size") (str "int64") [CNum 3; CNum 4]].

Definition twice : DataFrame :=
  Frame 1 [Column (str "a") (str "int64") [CNum 1];
           Column (str "a") (str "int64") [CNum 2]].

(** The requests of the examples. *)
Definition grades_header : list (text * value) :=
  [(str "relation_name", VStr (str "grades"));
   (str "frame_name", VStr (str "grades"))].

Definition put_grades (n : Z) : list (text * value) :=
  [(str "command", VStr (str "put_instances"));
   (str "num_instances", VInt n);
   (str "header", VDict grades_header)].

Definition get_grades : list (text * value) :=
  [(str "command", VStr (str "get_instances"));
   (str "frame_name", VStr (str "grades"))].

Definition get_grades_json : list (text * value) :=
  [(str "command", VStr (str "get_variable_value"));
   (str "variable_name", VStr (str "grades"));
   (str "variable_encoding", VStr (str "json"))].

Definition reboot : list (text * value) :=
  [(str "command", VStr (str "reboot"))].

Definition run_assign : list (text * value) :=
  [(str "command", VStr (str "execute_script"));
   (str "script", VStr (str "x = 1"))].

End Tables.

(** * Lemmas *)
Lemma to_N_byte_of (n : N) : Byte.to_N (byte_of n) = n mod 256.
Proof.
  unfold byte_of.
  destruct (Byte.of_N (n mod 256)) as [b|] eqn:Hb.
  - now apply Byte.to_of_N.
  - apply Byte.of_N_None_iff in Hb.
    pose proof (N.mod_upper_bound n 256). lia.
Qed.

Lemma byte_of_to_N (b : byte) : byte_of (Byte.to_N b) = b.
Proof.
  unfold byte_of.
  rewrite N.mod_small by (pose proof (Byte.to_N_bounded b); lia).
  now rewrite Byte.of_to_N.
Qed.

Lemma testbit_byte_shiftl (x k i : N) :
  N.testbit (N.shiftl (x mod 256) k) i
  = (k <=? i) && (i - k <? 8) && N.testbit x (i - k).
Proof.
  destruct (N.leb_spec k i) as [Hk|Hk]; simpl.
  - rewrite N.shiftl_spec_high' by assumption.
    change 256 with (2 ^ 8).
    destruct (N.ltb_spec (i - k) 8) as [H8|H8]; simpl.
    + now rewrite N.mod_pow2_bits_low.
    + now rewrite N.mod_pow2_bits_high.
  - now rewrite N.shiftl_spec_low.
Qed.

Lemma unpack_pack_L (n : N) (b : list byte) :
  Struct.pack_L n = Ok b -> Struct.unpack_L b = Ok n.
Proof.
  unfold Struct.pack_L.
  destruct (N.ltb_spec n (2 ^ 32)) as [Hn|Hn]; [|discriminate].
  intros [= <-]. unfold Struct.unpack_L. f_equal.
  rewrite !to_N_byte_of.
  apply N.bits_inj. intro i.
  rewrite !N.lor_spec.
  rewrite <- (N.shiftl_0_r (n mod 256)).
  rewrite !testbit_byte_shiftl, !N.shiftr_spec'.
  destruct (N.leb_spec 32 i) as [H32|H32].
  - assert (N.testbit n i = false) as ->.
    { rewrite <- (N.mod_small n (2 ^ 32)) by assumption.
      now apply N.mod_pow2_bits_high. }
    replace (24 <=? i) with true by (symmetry; apply N.leb_le; lia).
    replace (i - 24 <? 8) with false by (symmetry; apply N.ltb_ge; lia).
    replace (i - 16 <? 8) with false by (symmetry; apply N.ltb_ge; lia).
    replace (i - 8 <? 8) with false by (symmetry; apply N.ltb_ge; lia).
    replace (i - 0 <? 8) with false by (symmetry; apply N.ltb_ge; lia).
    now rewrite !andb_false_r.
  - destruct (N.leb_spec 24 i); destruct (N.leb_spec 16 i);
      destruct (N.leb_spec 8 i); destruct (N.leb_spec 0 i); try lia;
      destruct (N.ltb_spec (i - 24) 8); destruct (N.ltb_spec (i - 16) 8);
      destruct (N.ltb_spec (i - 8) 8); destruct (N.ltb_spec (i - 0) 8);
      try lia; simpl; rewrite ?orb_false_r;
      f_equal; lia.
Qed.

(** ** ASCII text: one byte for each code point *)

Lemma is_ascii_app (s t : text) :
  is_ascii (s ++ t) = is_ascii s && is_ascii t.
Proof. unfold is_ascii. apply forallb_app. Qed.

Lemma encode_char_ascii (c : N) :
  c < 128 -> Utf8.encode_char c = Some [byte_of c].
Proof.
  intros Hc. unfold Utf8.encode_char.
  now replace (c <? 0x80) with true by (symmetry; apply N.ltb_lt; lia).
Qed.

Lemma encode_ascii (s : text) :
  is_ascii s = true -> Utf8.encode s = Ok (map byte_of s).
Proof.
  induction s as [|c s IH]; simpl; [reflexivity|].
  intros [Hc Hs]%andb_prop. apply N.ltb_lt in Hc.
  rewrite (encode_char_ascii c Hc), (IH Hs). reflexivity.
Qed.

Lemma decode_ascii (b : list byte) :
  Forall (fun x => Byte.to_N x < 128) b -> Utf8.decode b = Ok (map Byte.to_N b).
Proof.
  induction 1 as [|x b Hx Hb IH]; [reflexivity|].
  cbn [Utf8.decode map].
  replace (Byte.to_N x <? 0x80) with true by (symmetry; apply N.ltb_lt; lia).
  now rewrite IH.
Qed.

Lemma len_map {A B : Type} (f : A -> B) (l : list A) : len (map f l) = len l.
Proof. unfold len. now rewrite length_map. Qed.

(** The frame of an ASCII text: its prefix is the number of payload bytes. *)
Lemma text_frame_ascii (s : text) :
  is_ascii s = true -> len s < 2 ^ 32 ->
  exists prefix,
    Struct.pack_L (len s) = Ok prefix /\
    text_frame s = Ok (prefix ++ map byte_of s) /\
    Struct.unpack_L prefix = Ok (len (map byte_of s)).
Proof.
  intros Hs Hn. unfold text_frame.
  destruct (Struct.pack_L (len s)) as [prefix| |] eqn:Hp.
  - exists prefix. rewrite (encode_ascii s Hs). cbn.
    rewrite len_map. eauto using unpack_pack_L.
  - unfold Struct.pack_L in Hp.
    apply N.ltb_lt in Hn. now rewrite Hn in Hp.
  - unfold Struct.pack_L in Hp. now destruct (_ <? _).
Qed.

(** ** [json.dumps] writes ASCII only *)

(** Induction on a value through the lists and dicts nested in it. *)
Lemma value_nested_ind (P : value -> Prop) :
  P VNone -> (forall b, P (VBool b)) -> (forall b, P (VNpBool b)) ->
  (forall z, P (VInt z)) -> P VNaN -> (forall s, P (VStr s)) ->
  (forall l, Forall P l -> P (VList l)) ->
  (forall d, Forall (fun kv => P (snd kv)) d -> P (VDict d)) ->
  (forall f, P (VFrame f)) ->
  forall v, P v.
Proof.
  intros HNone HBool HNp HInt HNaN HStr HList HDict HFrame.
  fix IH 1. intros [|b|b|z| |s|l|d|f].
  - exact HNone.
  - apply HBool.
  - apply HNp.
  - apply HInt.
  - exact HNaN.
  - apply HStr.
  - apply HList. induction l as [|x l IHl]; constructor; [apply IH|exact IHl].
  - apply HDict.
    induction d as [|[k x] d IHd]; constructor; [apply IH|exact IHd].
  - apply HFrame.
Qed.

Lemma hex_digit_ascii (n : N) : n < 16 -> Json.hex_digit n < 128.
Proof. unfold Json.hex_digit. destruct (n <? 10); lia. Qed.

Lemma land_15_lt (n : N) : N.land n 15 < 16.
Proof.
  change 15 with (N.ones 4). rewrite N.land_ones.
  apply N.mod_upper_bound. discriminate.
Qed.

Lemma u_escape_ascii (n : N) : is_ascii (Json.u_escape n) = true.
Proof.
  unfold Json.u_escape, is_ascii. cbn [forallb].
  rewrite !andb_true_iff.
  repeat split; try reflexivity;
    apply N.ltb_lt, hex_digit_ascii, land_15_lt.
Qed.

Lemma escape_char_ascii (c : N) : is_ascii (Json.escape_char c) = true.
Proof.
  unfold Json.escape_char.
  repeat match goal with
         | |- context [if ?b then _ else _] => destruct b eqn:?
         end;
    try reflexivity;
    try (rewrite is_ascii_app, !u_escape_ascii; reflexivity);
    try apply u_escape_ascii.
  apply andb_prop in Heqb6 as [_ H%N.leb_le].
  cbn. rewrite andb_true_r. apply N.ltb_lt. lia.
Qed.

Lemma dumps_str_ascii (s : text) : is_ascii (Json.dumps_str s) = true.
Proof.
  unfold Json.dumps_str. rewrite !is_ascii_app. cbn.
  rewrite andb_true_r.
  induction s as [|c s IH]; [reflexivity|].
  cbn [flat_map]. now rewrite is_ascii_app, escape_char_ascii.
Qed.

Lemma string_of_uint_ascii (d : Decimal.uint) :
  is_ascii (str (NilZero.string_of_uint d)) = true.
Proof.
  assert (H : forall d, is_ascii (str (NilEmpty.string_of_uint d)) = true).
  { clear d. induction d; cbn; auto. }
  destruct d; cbn; auto; apply H.
Qed.

Lemma dumps_int_ascii (z : Z) : is_ascii (Json.dumps_int z) = true.
Proof.
  unfold Json.dumps_int. destruct (Z.to_int z) as [d|d]; cbn.
  - apply string_of_uint_ascii.
  - apply string_of_uint_ascii.
Qed.

Lemma join_ascii (items : list text) :
  Forall (fun t => is_ascii t = true) items -> is_ascii (Json.join items) = true.
Proof.
  induction 1 as [|x r Hx Hr IH]; [reflexivity|].
  destruct r as [|y r]; [exact Hx|].
  change (Json.join (x :: y :: r)) with (x ++ [44; 32] ++ Json.join (y :: r)).
  now rewrite !is_ascii_app, Hx, IH.
Qed.

Lemma dumps_ascii (v : value) (s : text) :
  Json.dumps v = Ok s -> is_ascii s = true.
Proof.
  revert s. induction v as [|b|b|z| |t|l IH|d IH|f] using value_nested_ind;
    intros s; cbn [Json.dumps].
  - now intros [= <-].
  - destruct b; now intros [= <-].
  - discriminate.
  - intros [= <-]. apply dumps_int_ascii.
  - now intros [= <-].
  - intros [= <-]. apply dumps_str_ascii.
  - match goal with |- context [?f l] =>
      assert (Hitems : forall ts, f l = Ok ts ->
                         Forall (fun t => is_ascii t = true) ts)
    end.
    { induction IH as [|x r Hx Hr IHr]; intros ts.
      - now intros [= <-].
      - destruct (Json.dumps x) as [t| |]; try discriminate.
        match goal with |- context [?f r] => destruct (f r) as [ts'| |] end;
          try discriminate.
        intros [= <-]. constructor; auto. }
    match goal with |- context [?f l] => destruct (f l) as [ts| |] end;
      try discriminate.
    intros [= <-].
    change (is_ascii ([91] ++ Json.join ts ++ [93]) = true).
    rewrite !is_ascii_app, join_ascii by auto. reflexivity.
  - match goal with |- context [?f d] =>
      assert (Hitems : forall ts, f d = Ok ts ->
                         Forall (fun t => is_ascii t = true) ts)
    end.
    { induction IH as [|[k x] r Hx Hr IHr]; intros ts.
      - now intros [= <-].
      - cbn [snd] in Hx.
        destruct (Json.dumps x) as [t| |]; try discriminate.
        match goal with |- context [?f r] => destruct (f r) as [ts'| |] end;
          try discriminate.
        intros [= <-]. constructor; [|auto].
        change (is_ascii (Json.dumps_str k ++ [58; 32] ++ t) = true).
        rewrite !is_ascii_app, dumps_str_ascii. cbn. now apply Hx. }
    match goal with |- context [?f d] => destruct (f d) as [ts| |] end;
      try discriminate.
    intros [= <-].
    change (is_ascii ([123] ++ Json.join ts ++ [125]) = true).
    rewrite !is_ascii_app, join_ascii by auto. reflexivity.
  - discriminate.
Qed.

(** ** The framing layer: [send_response] *)

(** A raw payload within the frame size is written as its frame. *)
Lemma send_response_text (s : text) (b : list byte) (w : world) :
  text_frame s = Ok b ->
  send_response (VStr s) false w = (Ok tt, set_conn_out (conn_out w ++ b) w).
Proof.
  unfold text_frame, send_response, bind, lift, ret, sendall, modify.
  cbn [py_len py_encode].
  destruct (Struct.pack_L (len s)) as [prefix| |]; try discriminate.
  destruct (Utf8.encode s) as [payload| |]; try discriminate.
  intros [= <-]. destruct w. cbn. now rewrite <- app_assoc.
Qed.

(** A document is sent as the raw frame of its serialization. *)
Lemma send_response_json (v : value) (b : list byte) (w : world) :
  json_frame v = Ok b ->
  send_response v true w = (Ok tt, set_conn_out (conn_out w ++ b) w).
Proof.
  unfold json_frame. intros H.
  destruct (Json.dumps v) as [s| |] eqn:Hs; try discriminate.
  cbn in H. rewrite <- (send_response_text s b w H).
  unfold send_response, bind, lift, ret. now rewrite Hs.
Qed.

(** The frame of a document that fits has a four-byte prefix equal to the
    number of payload bytes. *)
Lemma json_frame_prefix (v : value) (s : text) :
  Json.dumps v = Ok s -> len s < 2 ^ 32 ->
  exists prefix payload,
    json_frame v = Ok (prefix ++ payload) /\
    length prefix = 4%nat /\
    Struct.unpack_L prefix = Ok (len payload).
Proof.
  intros Hs Hn.
  destruct (text_frame_ascii s (dumps_ascii v s Hs) Hn) as (prefix & Hp & Hf & Hu).
  exists prefix, (map byte_of s). unfold json_frame. rewrite Hs. cbn.
  repeat split; try assumption.
  unfold Struct.pack_L in Hp. destruct (_ <? _); [|discriminate].
  now injection Hp as <-.
Qed.

(** What [send_response] writes for a structured payload whose
    serialization fits: four prefix bytes and then the UTF-8 bytes of the
    serialization, and nothing else; the prefix decodes to the number of
    those payload bytes, [json.dumps] writing ASCII only. *)
Theorem send_response_json_prefix_counts_bytes (v : value) (s : text)
    (w : world) :
  Json.dumps v = Ok s -> len s < 2 ^ 32 ->
  exists prefix payload,
    send_response v true w
    = (Ok tt, set_conn_out (conn_out w ++ prefix ++ payload) w) /\
    length prefix = 4%nat /\
    Utf8.encode s = Ok payload /\
    Struct.unpack_L prefix = Ok (len payload).
Proof.
  intros Hs Hn.
  pose proof (dumps_ascii v s Hs) as Ha.
  destruct (text_frame_ascii s Ha Hn) as (prefix & Hp & Hf & Hu).
  exists prefix, (map byte_of s).
  split.
  { apply send_response_json. unfold json_frame. rewrite Hs. exact Hf. }
  split.
  { unfold Struct.pack_L in Hp. destruct (_ <? _); [|discriminate].
    now injection Hp as <-. }
  split; [now apply encode_ascii|exact Hu].
Qed.

(** ** base64: decoding what was encoded *)

Lemma in_all_bytes (b : byte) : In b all_bytes.
Proof.
  unfold all_bytes. apply in_map_iff.
  exists (N.to_nat (Byte.to_N b)). split.
  - now rewrite N2Nat.id, byte_of_to_N.
  - apply in_seq. pose proof (Byte.to_N_bounded b). lia.
Qed.

Lemma forall_bytes (P : byte -> bool) :
  forallb P all_bytes = true -> forall b, P b = true.
Proof. intros H b. eapply forallb_forall in H; [exact H|apply in_all_bytes]. Qed.

Lemma forall_bytes2 (P : byte -> byte -> bool) :
  forallb (fun x => forallb (P x) all_bytes) all_bytes = true ->
  forall x y, P x y = true.
Proof.
  intros H x y. apply (forall_bytes (P x)).
  exact (forall_bytes (fun x => forallb (P x) all_bytes) H x).
Qed.



Lemma quad_ok_all (x y : byte) : B64.quad_ok x y = true.
Proof. apply (forall_bytes2 B64.quad_ok). vm_compute. reflexivity. Qed.

Lemma byte_eqb_eq (x y : byte) : Byte.eqb x y = true -> x = y.
Proof. apply Byte.byte_dec_bl. Qed.

Lemma a2b_base64_char (i : N) (rest : list byte) (quad_pos leftchar pads : N)
    (bin_data : list byte) :
  B64.char_ok i = true ->
  Base64.a2b_base64 (Base64.b2a i :: rest) quad_pos leftchar pads bin_data
  = if quad_pos =? 0 then Base64.a2b_base64 rest 1 i 0 bin_data
    else if quad_pos =? 1 then
      Base64.a2b_base64 rest 2 (N.land i 0x0f) 0
        (bin_data ++ [byte_of (N.lor (N.shiftl leftchar 2) (N.shiftr i 4))])
    else if quad_pos =? 2 then
      Base64.a2b_base64 rest 3 (N.land i 0x03) 0
        (bin_data ++ [byte_of (N.lor (N.shiftl leftchar 4) (N.shiftr i 2))])
    else
      Base64.a2b_base64 rest 0 0 0
        (bin_data ++ [byte_of (N.lor (N.shiftl leftchar 6) i)]).
Proof.
  unfold B64.char_ok. intros [Hpad Hi]%andb_prop.
  cbn [Base64.a2b_base64].
  apply negb_true_iff in Hpad. rewrite Hpad.
  destruct (Base64.a2b (Base64.b2a i)) as [j|]; [|discriminate].
  apply N.eqb_eq in Hi. now subst j.
Qed.

Lemma list_ind3 {A : Type} (P : list A -> Prop) :
  P [] -> (forall x, P [x]) -> (forall x y, P [x; y]) ->
  (forall x y z rest, P rest -> P (x :: y :: z :: rest)) ->
  forall l, P l.
Proof.
  intros H0 H1 H2 H3.
  fix IH 1. intros [|x [|y [|z rest]]].
  - exact H0.
  - apply H1.
  - apply H2.
  - apply H3, IH.
Qed.

Lemma a2b_base64_b64encode (s : list byte) (leftchar pads : N)
    (bin_data : list byte) :
  Base64.a2b_base64 (Base64.b64encode s) 0 leftchar pads bin_data
  = Ok (bin_data ++ s).
Proof.
  revert leftchar pads bin_data.
  induction s as [|x|x y|x y z rest IH] using list_ind3;
    intros leftchar pads bin_data.
  - cbn. now rewrite app_nil_r.
  - pose proof (quad_ok_all x x00) as H. unfold B64.quad_ok in H.
    rewrite !andb_true_iff in H.
    destruct H as ((((((((H0 & H1) & _) & _) & HA) & _) & _) & _) & _).
    change (Base64.b64encode [x])
      with [Base64.b2a (B64.c0 x);
            Base64.b2a (N.shiftl (N.land (Byte.to_N x) 3) 4);
            Base64.PAD; Base64.PAD].
    replace (N.shiftl (N.land (Byte.to_N x) 3) 4) with (B64.c1 x x00)
      by (unfold B64.c1; cbn; now rewrite N.lor_0_r).
    rewrite (a2b_base64_char _ _ _ _ _ _ H0). cbn [N.eqb].
    rewrite (a2b_base64_char _ _ _ _ _ _ H1). cbn [N.eqb Pos.eqb].
    apply byte_eqb_eq in HA. rewrite HA. reflexivity.
  - pose proof (quad_ok_all x y) as H. unfold B64.quad_ok in H.
    rewrite !andb_true_iff in H.
    destruct H as ((((((((H0 & H1) & _) & _) & HA) & HB1) & _) & _) & _).
    pose proof (quad_ok_all y x00) as H'. unfold B64.quad_ok in H'.
    rewrite !andb_true_iff in H'.
    destruct H' as ((((((((_ & _) & H2) & _) & _) & _) & HB2) & HB3) & _).
    change (Base64.b64encode [x; y])
      with [Base64.b2a (B64.c0 x); Base64.b2a (B64.c1 x y);
            Base64.b2a (N.shiftl (N.land (Byte.to_N y) 15) 2); Base64.PAD].
    replace (N.shiftl (N.land (Byte.to_N y) 15) 2) with (B64.c2 y x00)
      by (unfold B64.c2; cbn; now rewrite N.lor_0_r).
    rewrite (a2b_base64_char _ _ _ _ _ _ H0). cbn [N.eqb].
    rewrite (a2b_base64_char _ _ _ _ _ _ H1). cbn [N.eqb Pos.eqb].
    rewrite (a2b_base64_char _ _ _ _ _ _ H2). cbn [N.eqb Pos.eqb].
    apply byte_eqb_eq in HA, HB3. apply N.eqb_eq in HB1, HB2.
    rewrite HA, HB1, HB2, HB3. cbn. now rewrite <- app_assoc.
  - pose proof (quad_ok_all x y) as H. unfold B64.quad_ok in H.
    rewrite !andb_true_iff in H.
    destruct H as ((((((((H0 & H1) & _) & _) & HA) & HB1) & _) & _) & _).
    pose proof (quad_ok_all y z) as H'. unfold B64.quad_ok in H'.
    rewrite !andb_true_iff in H'.
    destruct H' as ((((((((_ & _) & H2) & _) & _) & _) & HB2) & HB3) & _).
    pose proof (quad_ok_all z y) as H''. unfold B64.quad_ok in H''.
    rewrite !andb_true_iff in H''.
    destruct H'' as ((((((((_ & _) & _) & H3) & _) & _) & _) & _) & HC).
    change (Base64.b64encode (x :: y :: z :: rest))
      with (Base64.b2a (B64.c0 x) :: Base64.b2a (B64.c1 x y)
            :: Base64.b2a (B64.c2 y z) :: Base64.b2a (B64.c3 z)
            :: Base64.b64encode rest).
    rewrite (a2b_base64_char _ _ _ _ _ _ H0). cbn [N.eqb].
    rewrite (a2b_base64_char _ _ _ _ _ _ H1). cbn [N.eqb Pos.eqb].
    rewrite (a2b_base64_char _ _ _ _ _ _ H2). cbn [N.eqb Pos.eqb].
    rewrite (a2b_base64_char _ _ _ _ _ _ H3). cbn [N.eqb Pos.eqb].
    apply byte_eqb_eq in HA, HB3, HC. apply N.eqb_eq in HB1, HB2.
    rewrite HA, HB1, HB2, HB3, HC, IH.
    now rewrite <- !app_assoc.
Qed.

(** Decoding inverts encoding. *)
Lemma b64decode_b64encode (s : list byte) :
  Base64.b64decode (Base64.b64encode s) = Ok s.
Proof. unfold Base64.b64decode. apply a2b_base64_b64encode. Qed.

Lemma b2a_ascii (i : N) : Byte.to_N (Base64.b2a i) < 128.
Proof.
  unfold Base64.b2a.
  destruct (N.ltb_spec i 26); [|destruct (N.ltb_spec i 52);
    [|destruct (N.ltb_spec i 62); [|destruct (i =? 62)]]];
    rewrite ?to_N_byte_of, ?N.mod_small by lia; try lia; cbn; lia.
Qed.

Lemma b64encode_ascii (s : list byte) :
  Forall (fun x => Byte.to_N x < 128) (Base64.b64encode s).
Proof.
  induction s as [|x|x y|x y z rest IH] using list_ind3; cbn [Base64.b64encode];
    repeat constructor; try apply b2a_ascii; try (cbn; lia); exact IH.
Qed.

(** The portable text of a byte string is its base64 characters, and
    decoding the text gives the byte string back. *)
Lemma base64_encode_ok (b : list byte) :
  base64_encode b = Ok (map Byte.to_N (Base64.b64encode b)).
Proof. unfold base64_encode. apply decode_ascii, b64encode_ascii. Qed.

Lemma is_ascii_to_N (b : list byte) :
  Forall (fun x => Byte.to_N x < 128) b -> is_ascii (map Byte.to_N b) = true.
Proof.
  induction 1 as [|x b Hx Hb IH]; [reflexivity|].
  unfold is_ascii in *. cbn [map forallb].
  rewrite IH, andb_true_r. now apply N.ltb_lt.
Qed.

Lemma base64_decode_encode (b : list byte) (t : text) :
  base64_encode b = Ok t -> base64_decode (VStr t) = Ok b.
Proof.
  rewrite base64_encode_ok. intros [= <-].
  unfold base64_decode. cbn [py_encode].
  rewrite encode_ascii by apply is_ascii_to_N, b64encode_ascii.
  rewrite map_map, (map_ext _ id), map_id by apply byte_of_to_N.
  cbn. apply b64decode_b64encode.
Qed.

(** [base64_encode] always gives a text, an ASCII one, and [base64_decode]
    of that text is the byte string that was encoded. *)
Theorem base64_text_round_trip (value : list byte) :
  exists b64s,
    base64_encode value = Ok b64s /\
    is_ascii b64s = true /\
    base64_decode (VStr b64s) = Ok value.
Proof.
  exists (map Byte.to_N (Base64.b64encode value)).
  pose proof (base64_encode_ok value) as He.
  split; [exact He|]. split.
  - apply is_ascii_to_N, b64encode_ascii.
  - now apply base64_decode_encode.
Qed.

(** ** Messages as dicts *)

Lemma py_in_present (k : text) (m : list (text * value)) (v : value) :
  dict_get k m = Some v -> py_in k (VDict m) = Ok true.
Proof. intros H. cbn. now rewrite H. Qed.

Lemma py_in_absent (k : text) (m : list (text * value)) :
  dict_get k m = None -> py_in k (VDict m) = Ok false.
Proof. intros H. cbn. now rewrite H. Qed.

Lemma py_getitem_present (k : text) (m : list (text * value)) (v : value) :
  dict_get k m = Some v -> py_getitem (VDict m) k = Ok v.
Proof. intros H. cbn. now rewrite H. Qed.

(** The [debug] flag of a received document always has a truth value. *)
Lemma dict_get_json (k : text) (m : list (text * value)) (v : value) :
  is_json (VDict m) = true -> dict_get k m = Some v -> is_json v = true.
Proof.
  cbn [is_json]. induction m as [|[k' v'] m IH]; [discriminate|].
  cbn [forallb dict_get snd]. intros [Hv Hm]%andb_prop.
  destruct (text_eqb k k'); [now intros [= <-]|now apply IH].
Qed.

Lemma message_debug_json (m : list (text * value)) :
  is_json (VDict m) = true ->
  exists d, message_debug (VDict m) = Ok d /\
            (exists b, truthy d = Ok b) /\ (exists b, eq_True d = Ok b).
Proof.
  intros Hm. unfold message_debug. cbn [py_in and_then py_getitem].
  destruct (dict_get (str "debug") m) as [d|] eqn:Hd.
  - exists d. split; [reflexivity|].
    pose proof (dict_get_json _ _ _ Hm Hd) as Hj.
    destruct d; try discriminate; cbn; eauto.
  - exists (VBool false). cbn. eauto.
Qed.

(** ** Reading touches the transport only *)


Lemma reads_only_refl (w : world) : reads_only w w.
Proof. now destruct w. Qed.

Lemma reads_only_trans (w1 w2 w3 : world) :
  reads_only w1 w2 -> reads_only w2 w3 -> reads_only w1 w3.
Proof. unfold reads_only. intros -> ->. now destruct w1. Qed.

Lemma recv_reads_only (n : N) (w w' : world) (r : result (list byte)) :
  recv n w = (r, w') -> reads_only w w'.
Proof.
  unfold recv. destruct (recv_from (conn_in w) n) as [[got rest]|].
  - intros [= <- <-]. now destruct w.
  - intros [= <- <-]. apply reads_only_refl.
Qed.

Lemma receive_length_reads_only (fuel : nat) (length : list byte)
    (w w' : world) (r : result (list byte)) :
  receive_length fuel length w = (r, w') -> reads_only w w'.
Proof.
  revert length w. induction fuel as [|fuel IH]; intros length w; cbn;
    destruct (len length <? 4); unfold ret, lift;
    try (intros [= <- <-]; apply reads_only_refl).
  unfold bind. destruct (recv 4 w) as [[chunk| |] w1] eqn:Hr;
    try (intros [= <- <-]; eapply recv_reads_only; eassumption).
  intros H. eapply reads_only_trans; [eapply recv_reads_only|eapply IH]; eassumption.
Qed.

Lemma receive_data_reads_only (fuel : nat) (size : N) (data : text)
    (w w' : world) (r : result text) :
  receive_data fuel size data w = (r, w') -> reads_only w w'.
Proof.
  revert data w. induction fuel as [|fuel IH]; intros data w; cbn;
    destruct (len data <? size); unfold ret, lift;
    try (intros [= <- <-]; apply reads_only_refl).
  unfold bind. destruct (recv size w) as [[chunk| |] w1] eqn:Hr;
    try (intros [= <- <-]; eapply recv_reads_only; eassumption).
  destruct (Utf8.decode chunk) as [s| |];
    try (intros [= <- <-]; eapply recv_reads_only; eassumption).
  intros H. eapply reads_only_trans; [eapply recv_reads_only|eapply IH]; eassumption.
Qed.

Lemma receive_message_reads_only `{Externals} (isJson : bool) (w w' : world)
    (r : result value) :
  receive_message isJson w = (r, w') -> reads_only w w'.
Proof.
  unfold receive_message, bind, lift, ret.
  destruct (receive_length _ _ w) as [[length| |] w1] eqn:H1;
    try (intros [= <- <-]; eapply receive_length_reads_only; eassumption).
  apply receive_length_reads_only in H1.
  destruct (Struct.unpack_L length) as [size| |];
    try (intros [= <- <-]; assumption).
  destruct (receive_data _ _ _ w1) as [[data| |] w2] eqn:H2;
    try (intros [= <- <-]; eapply reads_only_trans;
         [eassumption|eapply receive_data_reads_only; eassumption]).
  apply receive_data_reads_only in H2.
  destruct isJson; intros [= <- <-]; eapply reads_only_trans; eassumption.
Qed.

(** ** The dispatcher *)

Lemma dispatch_no_command `{Externals} (m : list (text * value)) (w : world) :
  dict_get (str "command") m = None ->
  dispatch (VDict m) w
  = startup_print (str "message did not contain a command field!") w.
Proof.
  intros Hm. unfold dispatch, bind, lift.
  now rewrite (py_in_absent _ _ Hm).
Qed.

Lemma startup_print_effect (s : text) (w : world) :
  exists out, startup_print s w = (Ok tt, set_sys_stdout out w).
Proof.
  unfold startup_print, bind, get, print, modify, ret.
  destruct (_global_startup_debug w); eexists; [reflexivity|].
  instantiate (1 := sys_stdout w). now destruct w.
Qed.

(** C9. A received message with no [command] field: the turn of the loop
    sends nothing, leaves the Environment (and the scripts' globals) as they
    were, and the loop goes on to its next receive. *)
Theorem no_command_no_response `{Externals} (m : list (text * value))
    (w w1 : world) (fuel : nat) :
  receive_message true w = (Ok (VDict m), w1) ->
  dict_get (str "command") m = None ->
  exists w2,
    server_cycle w = (Ok tt, w2) /\
    conn_out w2 = conn_out w /\
    _local_env w2 = _local_env w /\
    _global_env w2 = _global_env w /\
    conn_in w2 = conn_in w1 /\
    conn_closed w2 = conn_closed w /\
    server_loop (S fuel) w = server_loop fuel w2.
Proof.
  intros Hrecv Hm.
  destruct (startup_print_effect
              (str "message did not contain a command field!") w1) as [out Hp].
  exists (set_sys_stdout out w1).
  assert (Hcycle : server_cycle w = (Ok tt, set_sys_stdout out w1)).
  { unfold server_cycle, bind. rewrite Hrecv.
    now rewrite (dispatch_no_command m w1 Hm). }
  apply receive_message_reads_only in Hrecv. unfold reads_only in Hrecv.
  repeat split; try (rewrite Hrecv; now destruct w); try assumption.
  cbn [server_loop]. unfold bind at 1. now rewrite Hcycle.
Qed.

(** [shutdown]: the dispatcher raises [SystemExit] and writes nothing to the
    socket. *)
Lemma dispatch_shutdown `{Externals} (m : list (text * value)) (w : world) :
  dict_get (str "command") m = Some (VStr (str "shutdown")) ->
  exists out,
    dispatch (VDict m) w = (Raise SystemExit, set_sys_stdout out w).
Proof.
  intros Hm. unfold dispatch.
  unfold bind at 1. unfold lift at 1. rewrite (py_in_present _ _ _ Hm).
  unfold bind at 1. unfold lift at 1. rewrite (py_getitem_present _ _ _ Hm).
  destruct (startup_print_effect (str "Received shutdown command..." ++ nl) w)
    as [out Hout].
  exists out.
  change (bind (startup_print (str "Received shutdown command..." ++ nl))
            (fun _ => lift (@Raise unit SystemExit)) w
          = (Raise SystemExit, set_sys_stdout out w)).
  unfold bind. now rewrite Hout.
Qed.

(** A whole run: the handshake, one [shutdown] request, the connection
    closed by the [finally], and the handshake the only frame written. *)
Example runServer_shutdown :
  exists handshake,
    json_frame (VDict [(str "response", VStr (str "pid_response"));
                       (str "pid", VInt 4242)]) = Ok handshake /\
    runServer (E := Demo.externals)
      (World false ∅ ∅ [] [] (Demo.incoming Demo.shutdown) [] false)
    = (Raise SystemExit,
       World false ∅ (<[str "headers" := VDict []]> ∅) [] [] [] handshake true).
Proof. eexists. split; vm_compute; reflexivity. Qed.

(** ** The acknowledgements and the Environment *)

Lemma ack_command_err_doc (message : text) :
  ack_command_err message
  = send_response
      (VDict [(str "response", VStr (str "error"));
              (str "error_message", VStr message)]) true.
Proof. reflexivity. Qed.

Lemma ack_command_ok_doc :
  ack_command_ok = send_response (VDict [(str "response", VStr (str "ok"))]) true.
Proof. reflexivity. Qed.

Lemma get_variable_text (name : text) (w : world) :
  get_variable (VStr name) w
  = (Ok (match _local_env w !! name with Some v => v | None => VNone end), w).
Proof.
  unfold get_variable, bind, get, ret. now destruct (_local_env w !! name).
Qed.

(** What [send_response] leaves: the bytes it wrote, after those written
    before; nothing else changes. *)
Lemma send_response_writes (v : value) (isJson : bool) (w w' : world)
    (r : result unit) :
  send_response v isJson w = (r, w') ->
  exists b, w' = set_conn_out (conn_out w ++ b) w.
Proof.
  unfold send_response, bind, lift, ret, sendall, modify.
  assert (Hsame : w = set_conn_out (conn_out w ++ []) w)
    by (destruct w; cbn; now rewrite app_nil_r).
  destruct isJson.
  - destruct (Json.dumps v) as [s| |]; try (intros [= <- <-]; eauto).
    cbn [py_len py_encode].
    destruct (Struct.pack_L (len s)) as [prefix| |];
      try (intros [= <- <-]; eauto).
    destruct (Utf8.encode s) as [payload| |]; intros [= <- <-];
      try (exists prefix; reflexivity).
    exists (prefix ++ payload). destruct w; cbn. now rewrite <- app_assoc.
  - destruct (py_len v) as [n| |]; try (intros [= <- <-]; eauto).
    destruct (Struct.pack_L n) as [prefix| |];
      try (intros [= <- <-]; eauto).
    destruct (py_encode v) as [payload| |]; intros [= <- <-];
      try (exists prefix; reflexivity).
    exists (prefix ++ payload). destruct w; cbn. now rewrite <- app_assoc.
Qed.

Lemma send_response_local_env (v : value) (isJson : bool) (w w' : world)
    (r : result unit) :
  send_response v isJson w = (r, w') -> _local_env w' = _local_env w.
Proof. intros [b ->]%send_response_writes. now destruct w. Qed.

(** ** [get_instances] on a name that holds no table *)

Lemma len_index_not_a_frame (v : value) :
  is_DataFrame v = false ->
  len_index v = Raise AttributeError \/ len_index v = Raise TypeError.
Proof. destruct v; cbn; auto. discriminate. Qed.

(** What [get_instances] does, in general, where C4 is evaluated below. For
    a request that names a variable which is absent or holds no DataFrame,
    the handler writes one frame, the error acknowledgement, and then, there
    being no [return] after it, fails at [len(frame.index)] with an
    [AttributeError] or a [TypeError]: no header frame and no data frame
    follow. *)
Theorem get_instances_not_a_table `{Externals} (m : list (text * value))
    (name : text) (frame : value) (w : world) (b : list byte) :
  dict_get (str "frame_name") m = Some (VStr name) ->
  get_variable (VStr name) w = (Ok frame, w) ->
  is_DataFrame frame = false ->
  json_frame
    (VDict [(str "response", VStr (str "error"));
            (str "error_message",
             VStr (str "Variable " ++ name
                   ++ (if is_None frame then str " is not defined"
                       else str " is not a DataFrame object")))]) = Ok b ->
  exists e,
    (e = AttributeError \/ e = TypeError) /\
    send_instances (VDict m) w = (Raise e, set_conn_out (conn_out w ++ b) w).
Proof.
  intros Hm Hget Hframe Hb.
  unfold send_instances.
  unfold bind at 1. unfold lift at 1. rewrite (py_getitem_present _ _ _ Hm).
  unfold bind at 1. rewrite Hget.
  rewrite Hframe. cbn [negb as_str].
  unfold bind at 1. unfold bind at 1. unfold lift at 1.
  unfold bind at 1. rewrite ack_command_err_doc.
  replace ((if is_None frame
            then (str "Variable " ++ name) ++ str " is not defined"
            else (str "Variable " ++ name) ++ str " is not a DataFrame object"))
    with (str "Variable " ++ name
          ++ (if is_None frame then str " is not defined"
              else str " is not a DataFrame object"))
    by (destruct (is_None frame); now rewrite app_assoc).
  rewrite (send_response_json _ b w Hb). unfold ret.
  unfold bind at 1. unfold lift at 1.
  destruct (len_index_not_a_frame frame Hframe) as [-> | ->]; eauto.
Qed.

(** ** [set_variable_value] with an encoding other than [pickled] *)

(** With an encoding that is a text other than [pickled] the handler
    returns at once: nothing is sent and nothing is stored. *)
Lemma receive_variable_value_other_encoding `{Externals}
    (m : list (text * value)) (encoding : text) (w : world) :
  dict_get (str "variable_encoding") m = Some (VStr encoding) ->
  encoding <> str "pickled" ->
  receive_variable_value (VDict m) w = (Ok tt, w).
Proof.
  intros Hm Hne. unfold receive_variable_value, bind, lift, ret.
  rewrite (py_in_present _ _ _ Hm), (py_getitem_present _ _ _ Hm).
  cbn [eq_str]. unfold text_eqb. now rewrite bool_decide_eq_false_2.
Qed.

(** ** [execute_script] *)

(** The handler, for a request whose script is a text, by the way the
    script ends. *)
Lemma execute_script_run `{Externals} (m : list (text * value)) (s : text)
    (debug : bool) (w : world) :
  dict_get (str "script") m = Some (VStr s) ->
  (d <-? message_debug (VDict m) ;; truthy d) = Ok debug ->
  let r := exec (VStr s) (_global_env w) (_local_env w) in
  match exec_end r with
  | Ok _ =>
    execute_script (VDict m) w
    = send_response (script_response r) true (after_script r debug s w)
  | Raise e =>
    if is_Exception e then
      execute_script (VDict m) w
      = send_response (script_response r) true (after_script r debug s w)
    else
      exists w', execute_script (VDict m) w = (Raise e, w') /\
                 conn_out w' = conn_out w
  | Blocked =>
    exists w', execute_script (VDict m) w = (Blocked, w') /\
               conn_out w' = conn_out w
  end.
Proof.
  intros Hm Hd r.
  assert (Hline : (if debug
                   then (s0 <- lift (as_str (VStr s)) ;;
                         print (str "Executing script..." ++ nl ++ nl ++ s0))
                   else ret tt) w
                  = (Ok tt, set_sys_stdout (sys_stdout w ++ debug_line debug s) w)).
  { unfold debug_line. destruct debug.
    - unfold bind, lift, print, modify. cbn [as_str].
      now rewrite <- !app_assoc.
    - unfold ret. destruct w; cbn. now rewrite app_nil_r. }
  assert (Hrun : execute_script (VDict m) w
                 = (tOut <- get sys_stdout ;;
                    tErr <- get sys_stderr ;;
                    modify (set_sys_stdout []) ;;;
                    modify (set_sys_stderr []) ;;;
                    exec_guarded (VStr s) ;;;
                    output <- get sys_stdout ;;
                    error <- get sys_stderr ;;
                    modify (set_sys_stdout tOut) ;;;
                    modify (set_sys_stderr tErr) ;;;
                    send_response
                      (VDict (dict_set (str "script_error") (VStr error)
                                (dict_set (str "script_out") (VStr output)
                                   (dict_set (str "response") (VStr (str "ok")) []))))
                      true)
                     (set_sys_stdout (sys_stdout w ++ debug_line debug s) w)).
  { unfold execute_script.
    unfold bind at 1. unfold lift at 1. rewrite (py_in_present _ _ _ Hm).
    unfold bind at 1. unfold lift at 1. rewrite (py_getitem_present _ _ _ Hm).
    unfold bind at 1. unfold lift at 1. rewrite Hd.
    unfold bind at 1. now rewrite Hline. }
  rewrite Hrun. clear Hrun Hline.
  unfold bind, get, modify, exec_guarded, print, lift.
  unfold script_response, script_out, script_error, script_failed,
    after_script.
  subst r. destruct w as [dbg g l out err cin cout closed].
  cbn [_global_env _local_env set_sys_stdout set_sys_stderr set_envs
       sys_stdout sys_stderr _global_startup_debug conn_in conn_out
       conn_closed].
  destruct (exec_end (exec (VStr s) g l)) as [[]|e|].
  - reflexivity.
  - destruct (is_Exception e).
    + reflexivity.
    + eexists. split; reflexivity.
  - eexists. split; reflexivity.
Qed.

Lemma send_response_json_inv (v : value) (w w' : world) :
  send_response v true w = (Ok tt, w') ->
  exists b, json_frame v = Ok b /\ w' = set_conn_out (conn_out w ++ b) w.
Proof.
  unfold send_response, json_frame, text_frame, bind, lift, ret, sendall, modify.
  destruct (Json.dumps v) as [s| |]; try discriminate.
  cbn [py_len py_encode and_then].
  destruct (Struct.pack_L (len s)) as [prefix| |]; try discriminate.
  destruct (Utf8.encode s) as [payload| |]; try discriminate.
  intros [= <-]. exists (prefix ++ payload). split; [reflexivity|].
  destruct w; cbn. now rewrite <- app_assoc.
Qed.

Lemma dispatch_execute_script `{Externals} (m : list (text * value)) (w : world) :
  dict_get (str "command") m = Some (VStr (str "execute_script")) ->
  dispatch (VDict m) w = execute_script (VDict m) w.
Proof.
  intros Hm. unfold dispatch.
  unfold bind at 1. unfold lift at 1. rewrite (py_in_present _ _ _ Hm).
  unfold bind at 1. unfold lift at 1. rewrite (py_getitem_present _ _ _ Hm).
  reflexivity.
Qed.

Lemma script_error_of_failure (r : exec_result) :
  script_failed r = true -> script_error r <> [].
Proof.
  unfold script_error. intros ->. unfold traceback_heading.
  destruct (exec_stderr r); discriminate.
Qed.

(** C6, as the code has it. For a request whose script is a text and whose
    run ends, by returning or by raising an [Exception], the handler writes
    one frame, an [ok] response that carries [script_out] and
    [script_error], the second not empty when the script raised, and the
    loop goes on to its next receive. *)
Theorem execute_script_answers_ok `{Externals} (m : list (text * value))
    (s : text) (debug : bool) (r : exec_result) (w0 w : world)
    (b : list byte) (fuel : nat) :
  receive_message true w0 = (Ok (VDict m), w) ->
  dict_get (str "command") m = Some (VStr (str "execute_script")) ->
  dict_get (str "script") m = Some (VStr s) ->
  (d <-? message_debug (VDict m) ;; truthy d) = Ok debug ->
  r = exec (VStr s) (_global_env w) (_local_env w) ->
  (exec_end r = Ok tt \/ exists e, exec_end r = Raise e /\ is_Exception e = true) ->
  json_frame (script_response r) = Ok b ->
  exists w',
    dispatch (VDict m) w = (Ok tt, w') /\
    conn_out w' = conn_out w ++ b /\
    (script_failed r = true -> script_error r <> []) /\
    server_loop (S fuel) w0 = server_loop fuel w'.
Proof.
  intros Hrecv Hc Hs Hd Hr Hend Hb.
  pose proof (execute_script_run m s debug w Hs Hd) as Hrun.
  cbv zeta in Hrun. rewrite <- Hr in Hrun.
  assert (Hx : execute_script (VDict m) w
               = send_response (script_response r) true (after_script r debug s w)).
  { destruct Hend as [Hok | (e & He & Hexc)].
    - now rewrite Hok in Hrun.
    - now rewrite He, Hexc in Hrun. }
  rewrite (send_response_json _ b _ Hb) in Hx.
  eexists. rewrite (dispatch_execute_script m w Hc).
  split; [exact Hx|]. split; [now destruct w|].
  split; [apply script_error_of_failure|].
  cbn [server_loop]. unfold bind at 1. unfold server_cycle, bind.
  rewrite Hrecv. now rewrite (dispatch_execute_script m w Hc), Hx.
Qed.

(** C10, as the code has it. When the handler returns, the capture buffers
    installed before the call are installed again, the first with the line
    the [debug] branch printed (the script's source, none of its output), the
    second as it was; what the script wrote is in the response only, and a
    drain that follows answers with those two buffers. *)
Theorem execute_script_restores_buffers `{Externals} (m : list (text * value))
    (s : text) (debug : bool) (r : exec_result) (w w' : world) :
  dict_get (str "script") m = Some (VStr s) ->
  (d <-? message_debug (VDict m) ;; truthy d) = Ok debug ->
  r = exec (VStr s) (_global_env w) (_local_env w) ->
  execute_script (VDict m) w = (Ok tt, w') ->
  sys_stdout w' = sys_stdout w ++ debug_line debug s /\
  sys_stderr w' = sys_stderr w /\
  (exists b, json_frame (script_response r) = Ok b /\
             conn_out w' = conn_out w ++ b) /\
  send_debug_buffer w'
  = send_response
      (VDict [(str "response", VStr (str "ok"));
              (str "std_out", VStr (sys_stdout w ++ debug_line debug s));
              (str "std_err", VStr (sys_stderr w))]) true
      (set_sys_stderr [] (set_sys_stdout [] w')).
Proof.
  intros Hs Hd Hr Hrun'.
  pose proof (execute_script_run m s debug w Hs Hd) as Hrun.
  cbv zeta in Hrun. rewrite <- Hr in Hrun.
  assert (Hx : send_response (script_response r) true (after_script r debug s w)
               = (Ok tt, w')).
  { destruct (exec_end r) as [[]|e|].
    - now rewrite <- Hrun.
    - destruct (is_Exception e).
      + now rewrite <- Hrun.
      + destruct Hrun as (w2 & Hw2 & _). congruence.
    - destruct Hrun as (w2 & Hw2 & _). congruence. }
  apply send_response_json_inv in Hx as (b & Hb & ->).
  assert (Hout : sys_stdout (set_conn_out (conn_out (after_script r debug s w) ++ b)
                               (after_script r debug s w))
                 = sys_stdout w ++ debug_line debug s) by now destruct w.
  assert (Herr : sys_stderr (set_conn_out (conn_out (after_script r debug s w) ++ b)
                               (after_script r debug s w))
                 = sys_stderr w) by now destruct w.
  split; [exact Hout|]. split; [exact Herr|].
  split; [exists b; split; [exact Hb|now destruct w]|].
  unfold send_debug_buffer, bind, get, modify. rewrite Hout.
  cbn [sys_stderr set_sys_stdout]. 
  replace (sys_stderr (set_sys_stdout [] _)) with (sys_stderr w)
    by (now destruct w).
  reflexivity.
Qed.

(** ** Variable exchange *)

(** A [pickled] request whose text decodes to [v] binds the name to [v] and
    acknowledges. *)
Lemma receive_variable_value_pickled `{Externals} (m : list (text * value))
    (name : text) (t : value) (bytes : list byte) (v : value) (w : world) :
  dict_get (str "variable_encoding") m = Some (VStr (str "pickled")) ->
  dict_get (str "variable_name") m = Some (VStr name) ->
  dict_get (str "variable_value") m = Some t ->
  base64_decode t = Ok bytes ->
  pickle_loads bytes = Ok v ->
  receive_variable_value (VDict m) w
  = ack_command_ok (set_local_env (<[name := v]> (_local_env w)) w).
Proof.
  intros He Hn Hv Hb Hl.
  unfold receive_variable_value.
  unfold bind at 1. unfold lift at 1. rewrite (py_in_present _ _ _ He).
  unfold bind at 1. unfold lift at 1. rewrite (py_getitem_present _ _ _ He).
  unfold bind at 1. unfold lift at 1.
  replace (eq_str (VStr (str "pickled")) (str "pickled")) with (Ok true)
    by reflexivity.
  unfold receive_pickled_variable_value.
  unfold bind at 1. unfold lift at 1. rewrite (py_in_present _ _ _ Hn).
  unfold bind at 1. unfold lift at 1. rewrite (py_in_present _ _ _ Hv).
  unfold bind at 1. unfold lift at 1. rewrite (py_getitem_present _ _ _ Hn).
  unfold bind at 1. unfold lift at 1. rewrite (py_getitem_present _ _ _ Hv).
  unfold bind at 1. unfold lift at 1. rewrite Hb.
  unfold bind at 1. unfold lift at 1. rewrite Hl.
  unfold bind at 1. unfold set_variable, bind, lift, modify. cbn [as_key].
  reflexivity.
Qed.

Lemma send_variable_is_set_doc (m : list (text * value))
    (name : text) (w : world) :
  dict_get (str "variable_name") m = Some (VStr name) ->
  send_variable_is_set (VDict m) w
  = send_response
      (VDict [(str "response", VStr (str "ok"));
              (str "variable_name", VStr name);
              (str "variable_exists",
               VBool (match _local_env w !! name with
                      | Some v => negb (is_None v)
                      | None => false
                      end))]) true w.
Proof.
  intros Hn. unfold send_variable_is_set.
  unfold bind at 1. unfold lift at 1. rewrite (py_in_present _ _ _ Hn).
  unfold bind at 1. unfold lift at 1. rewrite (py_getitem_present _ _ _ Hn).
  unfold bind at 1. rewrite get_variable_text.
  destruct (_local_env w !! name) as [v|]; [destruct (is_None v)|]; reflexivity.
Qed.

Lemma is_None_false (v : value) : v <> VNone -> is_None v = false.
Proof. destruct v; try reflexivity. congruence. Qed.

(** C7, as the code has it. [variable_is_set] answers [false] for a name the
    Environment does not bind, and [true] directly after a [pickled]
    [set_variable_value] that stored, under that name, a value other than
    [None]. *)
Theorem variable_is_set_before_and_after `{Externals}
    (m_ask m_set : list (text * value)) (name : text) (t : value)
    (bytes : list byte) (v : value) (w w1 : world) :
  dict_get (str "variable_name") m_ask = Some (VStr name) ->
  dict_get (str "variable_encoding") m_set = Some (VStr (str "pickled")) ->
  dict_get (str "variable_name") m_set = Some (VStr name) ->
  dict_get (str "variable_value") m_set = Some t ->
  base64_decode t = Ok bytes ->
  pickle_loads bytes = Ok v ->
  v <> VNone ->
  receive_variable_value (VDict m_set) w = (Ok tt, w1) ->
  (_local_env w !! name = None ->
   send_variable_is_set (VDict m_ask) w
   = send_response
       (VDict [(str "response", VStr (str "ok"));
               (str "variable_name", VStr name);
               (str "variable_exists", VBool false)]) true w) /\
  _local_env w1 = <[name := v]> (_local_env w) /\
  send_variable_is_set (VDict m_ask) w1
  = send_response
      (VDict [(str "response", VStr (str "ok"));
              (str "variable_name", VStr name);
              (str "variable_exists", VBool true)]) true w1.
Proof.
  intros Hask He Hn Hv Hb Hl Hv' Hset.
  rewrite (receive_variable_value_pickled m_set name t bytes v w He Hn Hv Hb Hl)
    in Hset.
  rewrite ack_command_ok_doc in Hset.
  apply send_response_local_env in Hset.
  assert (Henv : _local_env w1 = <[name := v]> (_local_env w))
    by (rewrite Hset; now destruct w).
  split; [|split; [exact Henv|]].
  - intros Hnone. rewrite (send_variable_is_set_doc m_ask name w Hask).
    now rewrite Hnone.
  - rewrite (send_variable_is_set_doc m_ask name w1 Hask).
    rewrite Henv, lookup_insert_eq. now rewrite (is_None_false v Hv').
Qed.

(** The answer of [get_variable_value] with the [pickled] encoding for a
    name bound to a value other than [None]. *)
Lemma send_variable_value_pickled `{Externals} (m : list (text * value))
    (name : text) (v : value) (bytes : list byte) (t : text) (debug : bool)
    (w : world) :
  dict_get (str "variable_encoding") m = Some (VStr (str "pickled")) ->
  dict_get (str "variable_name") m = Some (VStr name) ->
  (d <-? message_debug (VDict m) ;; eq_True d) = Ok debug ->
  _local_env w !! name = Some v ->
  v <> VNone ->
  pickle_dumps v = Ok bytes ->
  base64_encode bytes = Ok t ->
  send_variable_value (VDict m) w
  = send_response
      (VDict [(str "response", VStr (str "ok"));
              (str "variable_name", VStr name);
              (str "variable_encoding", VStr (str "pickled"));
              (str "variable_value", VStr t)]) true
      (if debug
       then set_sys_stdout
              (sys_stdout w ++ str "Sending pickled value for var "
               ++ name ++ nl ++ nl) w
       else w).
Proof.
  intros He Hn Hd Hw Hv Hp Ht.
  unfold send_variable_value.
  unfold bind at 1. unfold lift at 1. rewrite (py_in_present _ _ _ He).
  unfold bind at 1. unfold lift at 1. rewrite (py_getitem_present _ _ _ He).
  unfold bind at 1. unfold lift at 1.
  replace (eq_str (VStr (str "pickled")) (str "pickled")) with (Ok true)
    by reflexivity.
  unfold bind at 1. unfold ret at 1. unfold bind at 1. unfold ret at 1.
  unfold send_encoded_variable_value.
  unfold bind at 1. unfold lift at 1. rewrite (py_in_present _ _ _ Hn).
  unfold bind at 1. unfold lift at 1. rewrite (py_getitem_present _ _ _ Hn).
  unfold bind at 1. rewrite get_variable_text, Hw.
  rewrite (is_None_false v Hv). cbn [negb].
  unfold bind at 1. unfold lift at 1. rewrite (py_getitem_present _ _ _ He).
  unfold bind at 1. unfold lift at 1.
  replace (eq_str (VStr (str "pickled")) (str "pickled")) with (Ok true)
    by reflexivity.
  unfold bind at 1. unfold bind at 1. unfold lift at 1. rewrite Hp.
  unfold bind at 1. unfold lift at 1. rewrite Ht. unfold ret at 1.
  unfold bind at 1. unfold lift at 1. rewrite Hd.
  unfold bind at 1.
  destruct debug.
  - unfold bind, lift, print, modify. cbn [as_str].
    replace (sys_stdout w ++
             (str "Sending " ++ str "pickled" ++ str " value for var " ++ name ++ nl) ++ nl)
      with (sys_stdout w ++ str "Sending pickled value for var " ++ name ++ nl ++ nl).
    + reflexivity.
    + change (str "Sending " ++ str "pickled" ++ str " value for var " ++ name ++ nl)
        with (str "Sending pickled value for var " ++ (name ++ nl)).
      now rewrite <- !app_assoc.
  - reflexivity.
Qed.

(** C8, as the code has it. A value other than [None] that the codec
    carries, sent as the base64 text of its pickle with [set_variable_value]
    and asked back with [get_variable_value], both [pickled]: the answer is
    an [ok] response whose [variable_value] is that same text, which decodes
    to the value sent. *)
Theorem pickled_round_trip `{Externals} (m_set m_get : list (text * value))
    (name : text) (v : value) (bytes : list byte) (t : text) (debug : bool)
    (w w1 : world) :
  v <> VNone ->
  pickle_dumps v = Ok bytes ->
  pickle_loads bytes = Ok v ->
  base64_encode bytes = Ok t ->
  dict_get (str "variable_encoding") m_set = Some (VStr (str "pickled")) ->
  dict_get (str "variable_name") m_set = Some (VStr name) ->
  dict_get (str "variable_value") m_set = Some (VStr t) ->
  dict_get (str "variable_encoding") m_get = Some (VStr (str "pickled")) ->
  dict_get (str "variable_name") m_get = Some (VStr name) ->
  (d <-? message_debug (VDict m_get) ;; eq_True d) = Ok debug ->
  receive_variable_value (VDict m_set) w = (Ok tt, w1) ->
  send_variable_value (VDict m_get) w1
  = send_response
      (VDict [(str "response", VStr (str "ok"));
              (str "variable_name", VStr name);
              (str "variable_encoding", VStr (str "pickled"));
              (str "variable_value", VStr t)]) true
      (if debug
       then set_sys_stdout
              (sys_stdout w1 ++ str "Sending pickled value for var "
               ++ name ++ nl ++ nl) w1
       else w1) /\
  (b <-? base64_decode (VStr t) ;; pickle_loads b) = Ok v.
Proof.
  intros Hv Hp Hl Ht Hse Hsn Hsv Hge Hgn Hd Hset.
  pose proof (base64_decode_encode bytes t Ht) as Hdec.
  rewrite (receive_variable_value_pickled m_set name (VStr t) bytes v w
             Hse Hsn Hsv Hdec Hl) in Hset.
  rewrite ack_command_ok_doc in Hset.
  apply send_response_local_env in Hset.
  assert (Henv : _local_env w1 !! name = Some v).
  { rewrite Hset. replace (_local_env (set_local_env _ w))
      with (<[name := v]> (_local_env w)) by now destruct w.
    apply lookup_insert_eq. }
  split.
  - exact (send_variable_value_pickled m_get name v bytes t debug w1
             Hge Hgn Hd Henv Hv Hp Ht).
  - rewrite Hdec. exact Hl.
Qed.

(** ** The header of a table *)

Lemma text_eqb_refl (s : text) : text_eqb s s = true.
Proof. unfold text_eqb. now apply bool_decide_eq_true_2. Qed.

Lemma text_eqb_ne (s t : text) : s <> t -> text_eqb s t = false.
Proof. unfold text_eqb. now apply bool_decide_eq_false_2. Qed.

(** With distinct labels, the column of a label is the column that carries
    it. *)
Lemma filter_by_label (cols : list column) (c : column) :
  NoDup (map col_name cols) -> In c cols ->
  List.filter (fun c' => text_eqb (col_name c') (col_name c)) cols = [c].
Proof.
  induction cols as [|c' cols IH]; [intros _ []|].
  cbn [map List.filter]. intros [Hnot Hnd]%NoDup_cons [-> | Hin].
  - rewrite text_eqb_refl. f_equal.
    clear IH Hnd. induction cols as [|c'' cols IH]; [reflexivity|].
    cbn [List.filter]. rewrite text_eqb_ne.
    + apply IH. intros Hc. apply Hnot. cbn [map]. now right.
    + intros Heq. apply Hnot. cbn [map]. rewrite Heq. left.
  - rewrite text_eqb_ne.
    + now apply IH.
    + intros Heq. apply Hnot. rewrite Heq.
      apply list_elem_of_In. apply in_map. exact Hin.
Qed.

Lemma frame_column_label (frame : DataFrame) (c : column) :
  NoDup (map col_name (columns frame)) -> In c (columns frame) ->
  frame_column frame (col_name c) = Ok c.
Proof.
  intros Hnd Hin. unfold frame_column.
  now rewrite (filter_by_label _ c Hnd Hin).
Qed.

Lemma attribute_of_total (frame : DataFrame) (n : N) (c : column) :
  frame_column frame (col_name c) = Ok c ->
  exists a, attribute_of frame n (col_name c) = Ok a.
Proof.
  intros Hc. unfold attribute_of. rewrite Hc. cbn [and_then].
  repeat match goal with
         | |- context [if ?b then _ else _] => destruct b
         end; eauto.
Qed.

Lemma header_attributes_each (frame : DataFrame) (n : N) (cols : list column) :
  (forall c, In c cols -> frame_column frame (col_name c) = Ok c) ->
  exists attributes,
    header_attributes frame n (map col_name cols) = Ok attributes /\
    Forall2 (fun c a => attribute_of frame n (col_name c) = Ok a) cols attributes.
Proof.
  induction cols as [|c cols IH]; intros Hall.
  - exists []. split; [reflexivity|constructor].
  - destruct (attribute_of_total frame n c (Hall c (or_introl eq_refl)))
      as [a Ha].
    destruct IH as (attributes & Hattrs & Hall2).
    { intros c' Hc'. apply Hall. now right. }
    exists (a :: attributes). cbn [map header_attributes].
    rewrite Ha, Hattrs. split; [reflexivity|now constructor].
Qed.

(** C3, as the code has it. In the header of a table whose labels are
    distinct, a column of dtype [object] or [bool] is NOMINAL exactly when
    the number of its distinct values, the missing-value marker counting as
    one when it occurs, is less than half the row count; its [values] are
    then the distinct values that are not missing, in [unique]'s order of
    first appearance. Otherwise it is STRING and has no [values]. *)
Theorem header_classifies_textual_column (frame_name : value)
    (frame : DataFrame) (i : nat) (c : column) :
  NoDup (map col_name (columns frame)) ->
  columns frame !! i = Some c ->
  col_dtype c = str "object" \/ col_dtype c = str "bool" ->
  exists attributes attribute,
    instances_to_header_message frame_name frame
    = Ok (VDict [(str "relation_name", frame_name);
                 (str "attributes", VList attributes)]) /\
    attributes !! i = Some (VDict attribute) /\
    dict_get (str "name") attribute = Some (VStr (col_name c)) /\
    (dict_get (str "type") attribute = Some (VStr (str "NOMINAL")) <->
     2 * len (unique (col_values c)) < index_len frame) /\
    (2 * len (unique (col_values c)) < index_len frame ->
     dict_get (str "values") attribute
     = Some (VList (map (cell_value (col_dtype c))
                      (non_missing (unique (col_values c)))))) /\
    (~ 2 * len (unique (col_values c)) < index_len frame ->
     dict_get (str "type") attribute = Some (VStr (str "STRING")) /\
     dict_get (str "values") attribute = None).
Proof.
  intros Hnd Hi Htype.
  assert (Hall : forall c', In c' (columns frame) ->
                   frame_column frame (col_name c') = Ok c')
    by (intros c' Hc'; now apply frame_column_label).
  destruct (header_attributes_each frame (index_len frame) (columns frame) Hall)
    as (attributes & Hattrs & Hall2).
  destruct (Forall2_lookup_l _ _ _ _ _ Hall2 Hi) as (a & Ha & Hattr).
  assert (Hc : frame_column frame (col_name c) = Ok c).
  { apply Hall. apply list_elem_of_In. eapply list_elem_of_lookup_2. exact Hi. }
  unfold attribute_of in Hattr. rewrite Hc in Hattr. cbn [and_then] in Hattr.
  replace (text_eqb (col_dtype c) (str "object")
           || text_eqb (col_dtype c) (str "bool")) with true in Hattr
    by (destruct Htype as [-> | ->]; reflexivity).
  destruct (N.ltb_spec (2 * len (unique (col_values c))) (index_len frame))
    as [Hlt|Hge]; injection Hattr as <-.
  - eexists attributes, _. split; [|split; [exact Ha|]].
    + unfold instances_to_header_message. now rewrite Hattrs.
    + repeat split; try reflexivity; try (intros; lia); try assumption.
  - eexists attributes, _. split; [|split; [exact Ha|]].
    + unfold instances_to_header_message. now rewrite Hattrs.
    + repeat split; try reflexivity; try (intros; lia); try discriminate.
Qed.

(** ** [unique]: each value once, in the order of first appearance *)

Lemma unique_from_sublist (seen values : list cell) :
  sublist (unique_from seen values) values.
Proof.
  revert seen. induction values as [|v r IH]; intros seen; cbn.
  - constructor.
  - destruct (existsb (cell_eqb v) seen).
    + apply sublist_cons, IH.
    + apply sublist_skip, IH.
Qed.

Lemma unique_from_fresh (seen values : list cell) (y : cell) :
  In y (unique_from seen values) -> existsb (cell_eqb y) seen = false.
Proof.
  revert seen. induction values as [|v r IH]; intros seen; cbn; [intros []|].
  destruct (existsb (cell_eqb v) seen) eqn:Hv.
  - apply IH.
  - intros [<- | Hy]; [exact Hv|].
    apply IH in Hy. cbn in Hy. now apply orb_false_elim in Hy as [_ Hy].
Qed.

Lemma unique_from_covers (seen values : list cell) (x : cell) :
  In x values ->
  existsb (cell_eqb x) seen = true \/ In x (unique_from seen values)
  \/ exists y, In y (unique_from seen values) /\ cell_eqb x y = true.
Proof.
  revert seen. induction values as [|v r IH]; intros seen; [intros []|].
  cbn [unique_from]. intros [-> | Hx].
  - destruct (existsb (cell_eqb x) seen); [now left|].
    right. left. now left.
  - destruct (existsb (cell_eqb v) seen) eqn:Hv.
    + now apply IH.
    + destruct (IH (v :: seen) Hx) as [Hs | [Hin | (y & Hy & Hxy)]].
      * cbn in Hs. apply orb_prop in Hs as [Hxv | Hs]; [|now left].
        right. right. exists v. split; [now left|exact Hxv].
      * right. left. now right.
      * right. right. exists y. split; [now right|exact Hxy].
Qed.

(** The distinct values are listed in the order of the column, none twice,
    and every value of the column is one of them up to [==]. *)
Lemma unique_first_seen (values : list cell) :
  sublist (unique values) values /\
  (forall i j x y, (i < j)%nat -> unique values !! i = Some x ->
     unique values !! j = Some y -> cell_eqb y x = false) /\
  (forall x, In x values ->
     exists y, In y (unique values) /\ (x = y \/ cell_eqb x y = true)).
Proof.
  split; [apply unique_from_sublist|]. split.
  - unfold unique. generalize (@nil cell) as seen.
    induction values as [|v r IH]; intros seen i j x y Hij; cbn [unique_from].
    + intros Hx. now rewrite lookup_nil in Hx.
    + destruct (existsb (cell_eqb v) seen) eqn:Hv; [now apply IH|].
      destruct i as [|i]; destruct j as [|j]; try lia; cbn.
      * intros [= <-] Hy.
        apply list_elem_of_lookup_2, list_elem_of_In, unique_from_fresh in Hy.
        cbn in Hy. now apply orb_false_elim in Hy as [Hy _].
      * apply IH. lia.
  - intros x Hx.
    destruct (unique_from_covers [] values x Hx) as [Hs | [Hin | (y & Hy & Hxy)]].
    + discriminate.
    + exists x. auto.
    + exists y. auto.
Qed.

(** ** Reading: every read takes a byte, and the fuel of the loops is
    enough *)


Lemma split_at_app {A : Type} (n : N) (l a b : list A) :
  split_at n l = (a, b) -> l = a ++ b.
Proof.
  revert n a b. induction l as [|x l IH]; intros n a b; cbn.
  - now intros [= <- <-].
  - destruct (n =? 0); [now intros [= <- <-]|].
    destruct (split_at (n - 1) l) as [a' b'] eqn:Hs.
    intros [= <- <-]. cbn. f_equal. now apply IH with (n := n - 1).
Qed.

Lemma split_at_nonempty {A : Type} (n : N) (x : A) (l a b : list A) :
  0 < n -> split_at n (x :: l) = (a, b) -> a <> [].
Proof.
  intros Hn. cbn. replace (n =? 0) with false by (symmetry; apply N.eqb_neq; lia).
  destruct (split_at (n - 1) l). now intros [= <- <-].
Qed.

Lemma recv_from_concat (pending : list (list byte)) (n : N) (got : list byte)
    (rest : list (list byte)) :
  recv_from pending n = Some (got, rest) ->
  concat pending = got ++ concat rest.
Proof.
  induction pending as [|seg pending IH]; [discriminate|].
  destruct seg as [|x seg]; [exact IH|].
  cbn [recv_from]. destruct (split_at n (x :: seg)) as [a b] eqn:Hs.
  intros [= <- <-]. apply split_at_app in Hs. cbn [concat].
  rewrite Hs, <- app_assoc. f_equal. now destruct b; cbn; rewrite ?app_nil_r.
Qed.

Lemma recv_from_nonempty (pending : list (list byte)) (n : N) (got : list byte)
    (rest : list (list byte)) :
  0 < n -> recv_from pending n = Some (got, rest) -> got <> [].
Proof.
  intros Hn. induction pending as [|seg pending IH]; [discriminate|].
  destruct seg as [|x seg]; [exact IH|].
  cbn [recv_from]. destruct (split_at n (x :: seg)) as [a b] eqn:Hs.
  intros [= <- <-]. eapply split_at_nonempty; eassumption.
Qed.

Lemma recv_from_none (pending : list (list byte)) (n : N) :
  concat pending = [] -> recv_from pending n = None.
Proof.
  induction pending as [|seg pending IH]; [reflexivity|].
  cbn [concat]. intros [-> Hp]%app_eq_nil. now apply IH.
Qed.

Lemma recv_pending (n : N) (w w' : world) (r : result (list byte)) :
  recv n w = (r, w') ->
  match r with
  | Ok got => pending_bytes w = (length got + pending_bytes w')%nat
  | _ => w' = w
  end.
Proof.
  unfold recv, pending_bytes.
  destruct (recv_from (conn_in w) n) as [[got rest]|] eqn:Hr.
  - intros [= <- <-]. rewrite (recv_from_concat _ _ _ _ Hr), length_app.
    now destruct w.
  - now intros [= <- <-].
Qed.

Lemma recv_takes (n : N) (w w' : world) (got : list byte) :
  0 < n -> recv n w = (Ok got, w') ->
  (pending_bytes w' < pending_bytes w)%nat.
Proof.
  intros Hn H. pose proof (recv_pending n w w' _ H) as Hp. cbn in Hp.
  assert (got <> []).
  { unfold recv in H.
    destruct (recv_from (conn_in w) n) as [[got' rest]|] eqn:Hr; [|discriminate].
    injection H as <- _. eapply recv_from_nonempty; eassumption. }
  destruct got; [contradiction|cbn in Hp; lia].
Qed.

Lemma recv_blocks (n : N) (w : world) :
  pending_bytes w = 0%nat -> recv n w = (Blocked, w).
Proof.
  unfold recv, pending_bytes. intros H%length_zero_iff_nil.
  now rewrite recv_from_none.
Qed.

Lemma recv_input_only (n : N) : input_only (recv n).
Proof.
  intros w r w' H. apply recv_pending in H.
  destruct r; [lia|now subst|now subst].
Qed.

Lemma receive_length_fuel (fuel : nat) (length : list byte) (w : world) :
  (pending_bytes w <= fuel)%nat ->
  receive_length fuel length w = receive_length (S fuel) length w.
Proof.
  revert length w. induction fuel as [|fuel IH]; intros length w Hw.
  - cbn. destruct (len length <? 4); [|reflexivity].
    unfold lift, bind. rewrite recv_blocks by lia. reflexivity.
  - change (receive_length (S (S fuel)) length)
      with (if len length <? 4
            then (chunk <- recv 4 ;; receive_length (S fuel) (length ++ chunk))
            else ret length).
    change (receive_length (S fuel) length)
      with (if len length <? 4
            then (chunk <- recv 4 ;; receive_length fuel (length ++ chunk))
            else ret length).
    destruct (len length <? 4); [|reflexivity].
    unfold bind. destruct (recv 4 w) as [[chunk| |] w1] eqn:Hr; try reflexivity.
    apply IH. apply recv_takes in Hr; lia.
Qed.

Lemma receive_data_fuel (fuel : nat) (size : N) (data : text) (w : world) :
  (pending_bytes w <= fuel)%nat ->
  receive_data fuel size data w = receive_data (S fuel) size data w.
Proof.
  revert data w. induction fuel as [|fuel IH]; intros data w Hw.
  - cbn. destruct (len data <? size); [|reflexivity].
    unfold lift, bind. rewrite recv_blocks by lia. reflexivity.
  - change (receive_data (S (S fuel)) size data)
      with (if len data <? size
            then (chunk <- recv size ;;
                  s <- lift (Utf8.decode chunk) ;;
                  receive_data (S fuel) size (data ++ s))
            else ret data).
    change (receive_data (S fuel) size data)
      with (if len data <? size
            then (chunk <- recv size ;;
                  s <- lift (Utf8.decode chunk) ;;
                  receive_data fuel size (data ++ s))
            else ret data).
    destruct (N.ltb_spec (len data) size) as [Hlt|]; [|reflexivity].
    unfold bind. destruct (recv size w) as [[chunk| |] w1] eqn:Hr; try reflexivity.
    unfold lift. destruct (Utf8.decode chunk) as [s| |]; try reflexivity.
    apply IH. apply recv_takes in Hr; lia.
Qed.

(** The loops of [receive_message] are not cut short: more fuel than the
    pending bytes changes nothing. *)
Lemma receive_length_enough (fuel : nat) (length : list byte) (w : world) :
  (pending_bytes w <= fuel)%nat ->
  receive_length fuel length w = receive_length (pending_bytes w) length w.
Proof.
  induction 1 as [|fuel Hle IH]; [reflexivity|].
  now rewrite <- receive_length_fuel.
Qed.

Lemma receive_data_enough (fuel : nat) (size : N) (data : text) (w : world) :
  (pending_bytes w <= fuel)%nat ->
  receive_data fuel size data w = receive_data (pending_bytes w) size data w.
Proof.
  induction 1 as [|fuel Hle IH]; [reflexivity|].
  now rewrite <- receive_data_fuel.
Qed.

Lemma receive_length_pending (fuel : nat) (length : list byte) (w w' : world)
    (r : result (list byte)) :
  receive_length fuel length w = (r, w') ->
  (pending_bytes w' <= pending_bytes w)%nat /\
  (forall got, r = Ok got -> len length < 4 ->
     (pending_bytes w' < pending_bytes w)%nat).
Proof.
  revert length w. induction fuel as [|fuel IH]; intros length w; cbn;
    destruct (N.ltb_spec (len length) 4) as [Hlt|Hge]; unfold ret, lift.
  - intros [= <- <-]. split; [lia|discriminate].
  - intros [= <- <-]. split; [lia|intros; lia].
  - unfold bind. destruct (recv 4 w) as [[chunk| |] w1] eqn:Hr.
    + intros H. apply IH in H as [Hle _]. apply recv_takes in Hr; [|lia].
      split; [lia|intros; lia].
    + apply recv_input_only in Hr. intros [= <- <-]. split; [lia|discriminate].
    + apply recv_input_only in Hr. intros [= <- <-]. split; [lia|discriminate].
  - intros [= <- <-]. split; [lia|intros; lia].
Qed.

Lemma receive_data_input_only (fuel : nat) (size : N) (data : text) :
  input_only (receive_data fuel size data).
Proof.
  revert data. induction fuel as [|fuel IH]; intros data w r w'; cbn;
    destruct (len data <? size); unfold ret, lift;
    try (intros [= <- <-]; lia).
  unfold bind. destruct (recv size w) as [[chunk| |] w1] eqn:Hr;
    apply recv_input_only in Hr; try (intros [= <- <-]; lia).
  destruct (Utf8.decode chunk) as [s| |]; try (intros [= <- <-]; lia).
  intros H. apply IH in H. lia.
Qed.

(** A message that was received took bytes from the transport. *)
Lemma receive_message_takes `{Externals} (isJson : bool) (w w' : world)
    (r : result value) :
  receive_message isJson w = (r, w') ->
  (pending_bytes w' <= pending_bytes w)%nat /\
  (forall v, r = Ok v -> (pending_bytes w' < pending_bytes w)%nat).
Proof.
  unfold receive_message, bind, lift, ret.
  destruct (receive_length _ _ w) as [[length| |] w1] eqn:H1;
    apply receive_length_pending in H1 as [Hle Hlt];
    try (intros [= <- <-]; split; [lia|discriminate]).
  specialize (Hlt length eq_refl ltac:(reflexivity)).
  destruct (Struct.unpack_L length) as [size| |];
    try (intros [= <- <-]; split; [lia|discriminate]).
  destruct (receive_data _ _ _ w1) as [[data| |] w2] eqn:H2;
    apply receive_data_input_only in H2;
    try (intros [= <- <-]; split; [lia|discriminate]).
  destruct isJson; intros [= <- <-]; split; intros; lia.
Qed.

Lemma receive_message_blocks `{Externals} (isJson : bool) (w : world) :
  pending_bytes w = 0%nat -> receive_message isJson w = (Blocked, w).
Proof.
  intros Hw. unfold receive_message, bind. rewrite Hw. reflexivity.
Qed.

(** ** No handler puts bytes back on the transport *)

Create HintDb input discriminated.

Lemma input_only_ret {A : Type} (a : A) : input_only (ret a).
Proof. intros w r w' [= <- <-]. lia. Qed.

Lemma input_only_lift {A : Type} (x : result A) : input_only (lift x).
Proof. intros w r w' [= <- <-]. lia. Qed.

Lemma input_only_get {A : Type} (f : world -> A) : input_only (get f).
Proof. intros w r w' [= <- <-]. lia. Qed.

Lemma input_only_modify (f : world -> world) :
  (forall w, conn_in (f w) = conn_in w) -> input_only (modify f).
Proof.
  intros Hf w r w' [= <- <-]. unfold pending_bytes. rewrite Hf. lia.
Qed.

Lemma input_only_bind {A B : Type} (m : M A) (k : A -> M B) :
  input_only m -> (forall a, input_only (k a)) -> input_only (bind m k).
Proof.
  intros Hm Hk w r w'. unfold bind.
  destruct (m w) as [[a| |] w1] eqn:H1; apply Hm in H1.
  - intros H2. apply Hk in H2. lia.
  - intros [= <- <-]. lia.
  - intros [= <- <-]. lia.
Qed.

Lemma input_only_if {A : Type} (b : bool) (m1 m2 : M A) :
  input_only m1 -> input_only m2 -> input_only (if b then m1 else m2).
Proof. now destruct b. Qed.

#[local] Hint Resolve input_only_ret input_only_lift input_only_get
  input_only_bind input_only_if recv_input_only receive_data_input_only
  : input.

Ltac input_modify :=
  apply input_only_modify; intros w; destruct w; reflexivity.

#[local] Hint Extern 1 (input_only (modify _)) => input_modify : input.
#[local] Hint Extern 1 (input_only (print _)) => unfold print : input.
#[local] Hint Extern 1 (input_only (sendall _)) => unfold sendall : input.

Lemma send_response_input_only (v : value) (isJson : bool) :
  input_only (send_response v isJson).
Proof. unfold send_response. destruct isJson; auto 12 with input. Qed.

#[local] Hint Resolve send_response_input_only : input.

Lemma receive_message_input_only `{Externals} (isJson : bool) :
  input_only (receive_message isJson).
Proof. intros w r w' H0. now apply receive_message_takes in H0. Qed.

#[local] Hint Resolve receive_message_input_only : input.

Lemma get_variable_input_only (var_name : value) :
  input_only (get_variable var_name).
Proof.
  destruct var_name; cbn; auto with input.
  apply input_only_bind; [auto with input|].
  intros env. destruct (env !! s); auto with input.
Qed.

Lemma set_variable_input_only (var_name object : value) :
  input_only (set_variable var_name object).
Proof. unfold set_variable. auto with input. Qed.

Lemma exec_guarded_input_only `{Externals} (script : value) :
  input_only (exec_guarded script).
Proof.
  intros w r w'. unfold exec_guarded, bind, print, modify.
  destruct (exec_end _) as [[]|e|]; [|destruct (is_Exception e)|];
    intros [= <- <-]; destruct w; cbn; lia.
Qed.

#[local] Hint Resolve get_variable_input_only set_variable_input_only
  exec_guarded_input_only : input.
#[local] Hint Extern 1 (input_only (ack_command_err _)) =>
  unfold ack_command_err : input.
#[local] Hint Extern 1 (input_only ack_command_ok) =>
  unfold ack_command_ok : input.
#[local] Hint Extern 1 (input_only (startup_print _)) =>
  unfold startup_print : input.
#[local] Hint Extern 2 (input_only (match ?x with _ => _ end)) =>
  destruct x : input.

Lemma dispatch_input_only `{Externals} (message : value) :
  input_only (dispatch message).
Proof.
  unfold dispatch, receive_instances, send_instances, execute_script,
    send_variable_value, send_encoded_variable_value, send_variable_is_set,
    receive_variable_value, receive_pickled_variable_value, send_debug_buffer.
  repeat first
    [ apply receive_message_input_only
    | apply input_only_bind; [|intros ?]
    | apply input_only_if
    | progress auto 6 with input ].
Qed.

(** ** The loop of [runServer] *)

Lemma server_cycle_takes `{Externals} (w w' : world) :
  server_cycle w = (Ok tt, w') -> (pending_bytes w' < pending_bytes w)%nat.
Proof.
  unfold server_cycle, bind.
  destruct (receive_message true w) as [[message| |] w1] eqn:H1; try discriminate.
  apply receive_message_takes in H1 as [_ Hlt].
  specialize (Hlt message eq_refl).
  intros H2. apply dispatch_input_only in H2. lia.
Qed.

(** More fuel than the pending bytes changes nothing: the loop is not cut
    short. *)
Lemma server_loop_fuel `{Externals} (fuel : nat) (w : world) :
  (pending_bytes w <= fuel)%nat ->
  server_loop fuel w = server_loop (S fuel) w.
Proof.
  revert w. induction fuel as [|fuel IH]; intros w Hw.
  - cbn. unfold bind, server_cycle, bind.
    now rewrite receive_message_blocks by lia.
  - change (server_loop (S (S fuel))) with (server_cycle ;;; server_loop (S fuel)).
    change (server_loop (S fuel)) with (server_cycle ;;; server_loop fuel).
    unfold bind. destruct (server_cycle w) as [[[]| |] w1] eqn:Hc; try reflexivity.
    apply IH. apply server_cycle_takes in Hc. lia.
Qed.

Lemma server_loop_any_fuel `{Externals} (fuel : nat) (w : world) :
  (pending_bytes w < fuel)%nat ->
  server_loop fuel w = server_loop (S (pending_bytes w)) w.
Proof.
  intros Hfuel.
  replace fuel with (S (pending_bytes w) + (fuel - S (pending_bytes w)))%nat
    by lia.
  generalize (fuel - S (pending_bytes w))%nat as k. clear Hfuel.
  induction k as [|k IH]; [now rewrite Nat.add_0_r|].
  rewrite Nat.add_succ_r, <- IH. symmetry. apply server_loop_fuel. lia.
Qed.


(** ** Receiving a frame whose prefix arrives in one piece *)

Lemma split_at_length {A : Type} (n : N) (l a b : list A) :
  split_at n l = (a, b) -> n <= len l -> len a = n.
Proof.
  unfold len. revert n a b. induction l as [|x l IH]; intros n a b; cbn.
  - intros [= <- <-]. cbn. lia.
  - destruct (N.eqb_spec n 0) as [->|Hn]; [now intros [= <- <-]|].
    destruct (split_at (n - 1) l) as [a' b'] eqn:Hs.
    intros [= <- <-] Hle. cbn [length].
    specialize (IH (n - 1) a' b' Hs). lia.
Qed.

Lemma app_eq_length {A : Type} (a b c d : list A) :
  a ++ b = c ++ d -> length a = length c -> a = c /\ b = d.
Proof.
  revert c. induction a as [|x a IH]; intros [|y c]; cbn; try discriminate.
  - auto.
  - intros [= -> H] [= Hl]. destruct (IH c H Hl) as [-> ->]. auto.
Qed.

Lemma to_N_byte_of_ascii (s : text) :
  is_ascii s = true -> map Byte.to_N (map byte_of s) = s.
Proof.
  induction s as [|c s IH]; [reflexivity|].
  cbn. intros [Hc Hs]%andb_prop. apply N.ltb_lt in Hc.
  rewrite to_N_byte_of, N.mod_small, IH by (assumption || lia). reflexivity.
Qed.

Lemma byte_of_ascii (s : text) :
  is_ascii s = true -> Forall (fun x => Byte.to_N x < 128) (map byte_of s).
Proof.
  induction s as [|c s IH]; [constructor|].
  cbn. intros [Hc Hs]%andb_prop. apply N.ltb_lt in Hc. constructor; [|auto].
  rewrite to_N_byte_of, N.mod_small; lia.
Qed.

Lemma recv_from_some (pending : list (list byte)) (n : N) :
  concat pending <> [] ->
  exists got rest, recv_from pending n = Some (got, rest).
Proof.
  induction pending as [|seg pending IH]; [now intros []|].
  destruct seg as [|x seg]; [exact IH|].
  intros _. cbn [recv_from]. destruct (split_at n (x :: seg)). eauto.
Qed.

(** The payload loop, on a transport that holds the rest of an ASCII
    payload and nothing else, however it is cut into segments. *)
Lemma receive_data_ascii (fuel : nat) (s data t : text) (w : world) :
  is_ascii t = true ->
  s = data ++ t ->
  concat (conn_in w) = map byte_of t ->
  (pending_bytes w <= fuel)%nat ->
  exists w',
    receive_data fuel (len s) data w = (Ok s, w') /\
    concat (conn_in w') = [] /\ reads_only w w'.
Proof.
  revert data t w. induction fuel as [|fuel IH]; intros data t w Ht Hs Hc Hf.
  - assert (t = []) as ->.
    { unfold pending_bytes in Hf. rewrite Hc, length_map in Hf.
      destruct t; [reflexivity|cbn in Hf; lia]. }
    rewrite app_nil_r in Hs. subst data. cbn.
    rewrite N.ltb_irrefl. exists w. auto using reads_only_refl.
  - cbn [receive_data].
    destruct t as [|c t].
    + rewrite app_nil_r in Hs. subst data. rewrite N.ltb_irrefl.
      exists w. auto using reads_only_refl.
    + replace (len data <? len s) with true.
      2:{ symmetry. apply N.ltb_lt. subst s. unfold len.
          rewrite length_app. cbn. lia. }
      unfold bind.
      destruct (recv (len s) w) as [[got| |] w1] eqn:Hr.
      * pose proof (recv_reads_only _ _ _ _ Hr) as Hro.
        assert (Hlt : (pending_bytes w1 < pending_bytes w)%nat).
        { eapply recv_takes; [|exact Hr]. subst s. unfold len.
          rewrite length_app. cbn. lia. }
        assert (Hgot : concat (conn_in w) = got ++ concat (conn_in w1)).
        { unfold recv in Hr.
          destruct (recv_from (conn_in w) (len s)) as [[g rest]|] eqn:Hrf;
            [|discriminate].
          injection Hr as <- <-. rewrite (recv_from_concat _ _ _ _ Hrf).
          now destruct w. }
        rewrite Hc in Hgot.
        apply map_eq_app in Hgot as (t1 & t2 & Ht12 & Hg & Hrest).
        rewrite Ht12, is_ascii_app in Ht. apply andb_prop in Ht as [Ht1 Ht2].
        unfold lift. rewrite <- Hg.
        rewrite (decode_ascii _ (byte_of_ascii t1 Ht1)).
        rewrite (to_N_byte_of_ascii t1 Ht1).
        destruct (IH (data ++ t1) t2 w1 Ht2) as (w' & Hrd & Hempty & Hro').
        -- rewrite Hs, Ht12. now rewrite app_assoc.
        -- now symmetry.
        -- lia.
        -- exists w'. repeat split; try assumption.
           eapply reads_only_trans; eassumption.
      * unfold recv in Hr.
        destruct (recv_from (conn_in w) (len s)) as [[g rest]|]; discriminate.
      * exfalso. unfold recv in Hr.
        destruct (recv_from_some (conn_in w) (len s)) as (g & rest & Hrf).
        { rewrite Hc. discriminate. }
        rewrite Hrf in Hr. discriminate.
Qed.

Lemma pack_L_length (n : N) (prefix : list byte) :
  Struct.pack_L n = Ok prefix -> length prefix = 4%nat.
Proof.
  unfold Struct.pack_L. destruct (n <? 2 ^ 32); [|discriminate].
  now intros [= <-].
Qed.

Lemma receive_length_full (fuel : nat) (length : list byte) (w : world) :
  len length = 4 -> receive_length fuel length w = (Ok length, w).
Proof. intros Hl. destruct fuel; cbn; now rewrite Hl. Qed.

(** A frame with an ASCII payload, alone on the transport, whose first
    segment holds the four prefix bytes at least: [receive_message] returns
    the payload, whatever the segments of the rest are, and leaves the
    transport empty. *)
Theorem receive_message_ascii_frame `{Externals} (s : text)
    (prefix first : list byte) (rest : list (list byte)) (w : world) :
  is_ascii s = true ->
  Struct.pack_L (len s) = Ok prefix ->
  conn_in w = first :: rest ->
  (4 <= length first)%nat ->
  concat (first :: rest) = prefix ++ map byte_of s ->
  exists w',
    receive_message false w = (Ok (VStr s), w') /\
    concat (conn_in w') = [] /\ reads_only w w'.
Proof.
  intros Hs Hp Hin Hfirst Hcat.
  pose proof (pack_L_length _ _ Hp) as Hplen.
  destruct (split_at 4 first) as [got left] eqn:Hsplit.
  pose proof (split_at_app _ _ _ _ Hsplit) as Hfl.
  assert (Hgl : len got = 4)
    by (apply (split_at_length _ _ _ _ Hsplit); unfold len; lia).
  assert (Hgot : got = prefix /\ left ++ concat rest = map byte_of s).
  { apply app_eq_length.
    - rewrite <- Hcat. cbn [concat]. now rewrite Hfl, <- app_assoc.
    - unfold len in Hgl. lia. }
  destruct Hgot as [-> Hpayload].
  set (w1 := set_conn_in (match left with [] => rest | _ => left :: rest end) w).
  assert (Hrecv : recv 4 w = (Ok prefix, w1)).
  { unfold recv. rewrite Hin. destruct first as [|x first]; [cbn in Hfirst; lia|].
    cbn [recv_from]. now rewrite Hsplit. }
  assert (Hc1 : concat (conn_in w1) = map byte_of s).
  { subst w1. replace (conn_in (set_conn_in _ w))
      with (match left with [] => rest | _ => left :: rest end)
      by now destruct w.
    rewrite <- Hpayload. now destruct left. }
  destruct (receive_data_ascii (pending_bytes w1) s [] s w1 Hs eq_refl Hc1
              (le_n _)) as (w' & Hdata & Hempty & Hro).
  exists w'. split; [|split; [exact Hempty|]].
  - unfold receive_message.
    unfold bind at 1.
    assert (Hlen : receive_length (pending_bytes w) [] w = (Ok prefix, w1)).
    { assert (Hpos : (0 < pending_bytes w)%nat).
      { unfold pending_bytes. rewrite Hin, Hcat, length_app. lia. }
      destruct (pending_bytes w) as [|k]; [lia|].
      cbn [receive_length]. replace (len [] <? 4) with true by reflexivity.
      unfold bind. rewrite Hrecv. cbn [app].
      apply receive_length_full. exact Hgl. }
    rewrite Hlen. unfold bind at 1. unfold lift at 1.
    rewrite (unpack_pack_L _ _ Hp).
    unfold bind. rewrite Hdata. reflexivity.
  - eapply reads_only_trans; [|exact Hro].
    subst w1. now destruct w.
Qed.

(** ** The prefix of a raw payload against its bytes *)

Lemma encode_char_length (c : N) (b : list byte) :
  Utf8.encode_char c = Some b ->
  (1 <= length b)%nat /\ (length b = 1%nat <-> c < 128).
Proof.
  unfold Utf8.encode_char.
  destruct (N.ltb_spec c 0x80); [intros [= <-]; cbn; split; [lia|split; auto; lia]|].
  destruct (c <? 0x800); [intros [= <-]; cbn; split; [lia|split; lia]|].
  destruct (c <? 0x10000).
  - destruct (_ && _); [discriminate|].
    intros [= <-]; cbn; split; [lia|split; lia].
  - destruct (c <? 0x110000); [|discriminate].
    intros [= <-]; cbn; split; [lia|split; lia].
Qed.

(** A text has as many code points as bytes exactly when it is ASCII,
    and fewer otherwise. *)
Lemma utf8_length (s : text) (b : list byte) :
  Utf8.encode s = Ok b ->
  len s <= len b /\ (len s = len b <-> is_ascii s = true).
Proof.
  unfold len. revert b. induction s as [|c s IH]; intros b; cbn [Utf8.encode].
  - intros [= <-]. cbn. split; [lia|split; auto].
  - destruct (Utf8.encode_char c) as [bc|] eqn:Hc; [|discriminate].
    destruct (Utf8.encode s) as [bs| |]; try discriminate.
    intros [= <-]. destruct (IH bs eq_refl) as [Hle Hiff].
    destruct (encode_char_length c bc Hc) as [H1 Hone].
    rewrite length_app. cbn [length is_ascii forallb].
    split; [lia|]. rewrite andb_true_iff, N.ltb_lt.
    unfold is_ascii in Hiff. split.
    + intros Heq. assert (length bc = 1%nat) by lia.
      split; [now apply Hone|]. apply Hiff. lia.
    + intros [Hlt Hs]. apply Hone in Hlt. apply Hiff in Hs. lia.
Qed.

(** A raw payload that fits a frame: the prefix written is the number of
    its code points, and that is the number of payload bytes exactly when
    the payload is ASCII. *)
Theorem raw_prefix_is_byte_length_iff_ascii (s : text) (prefix payload : list byte)
    (w : world) :
  Struct.pack_L (len s) = Ok prefix ->
  Utf8.encode s = Ok payload ->
  send_response (VStr s) false w
  = (Ok tt, set_conn_out (conn_out w ++ prefix ++ payload) w) /\
  Struct.unpack_L prefix = Ok (len s) /\
  (len s = len payload <-> is_ascii s = true).
Proof.
  intros Hp Hb. split; [|split].
  - apply send_response_text. unfold text_frame. now rewrite Hp, Hb.
  - now apply unpack_pack_L.
  - now apply utf8_length.
Qed.

(** ** The distinct values of a column and its missing-value marker *)

Lemma existsb_cell_eqb_NaN (seen : list cell) :
  existsb (cell_eqb CNaN) seen = existsb is_nan seen.
Proof.
  induction seen as [|x seen IH]; [reflexivity|].
  cbn [existsb]. rewrite IH. now destruct x.
Qed.

Lemma unique_from_count (seen values : list cell) :
  length (unique_from seen values)
  = (length (non_missing (unique_from seen values))
     + (if existsb is_nan values && negb (existsb is_nan seen) then 1 else 0))%nat.
Proof.
  unfold non_missing. revert seen.
  induction values as [|v r IH]; intros seen; [reflexivity|].
  cbn [unique_from existsb].
  destruct (existsb (cell_eqb v) seen) eqn:Hv.
  - rewrite IH. destruct v; cbn [is_nan math_isnan orb]; try reflexivity.
    rewrite existsb_cell_eqb_NaN in Hv. rewrite Hv. cbn.
    now rewrite andb_false_r.
  - cbn [length List.filter]. rewrite IH. cbn [existsb].
    destruct v; cbn [is_nan math_isnan orb negb length]; try lia.
    rewrite existsb_cell_eqb_NaN in Hv. rewrite Hv. cbn.
    rewrite andb_false_r. lia.
Qed.

(** The number the source compares with half the row count: the distinct
    values that are not missing, and one more when a value is missing. *)
Lemma unique_count (values : list cell) :
  len (unique values)
  = len (non_missing (unique values))
    + (if existsb is_nan values then 1 else 0).
Proof.
  unfold unique, len. rewrite unique_from_count. cbn [existsb negb].
  rewrite andb_true_r. destruct (existsb is_nan values); lia.
Qed.

(** ** The program on concrete inputs *)

(** C1, at the raw payload [é] (one code point, U+00E9): the prefix written
    is [1], the length of the [str], and two payload bytes follow it. *)
Theorem send_response_prefix_counts_code_points :
  send_response (VStr [233]) false (Demo.started [])
  = (Ok tt, set_conn_out [x00; x00; x00; x01; xc3; xa9] (Demo.started [])) /\
  Struct.unpack_L [x00; x00; x00; x01] = Ok 1 /\
  Utf8.encode [233] = Ok [xc3; xa9].
Proof. repeat split. Qed.

(** C2, at the frame [00 00 00 01 61] delivered as [00 00 00] and then
    [01 61]: the second [recv(4)] takes both remaining bytes, the length
    buffer holds five, and [struct.unpack] raises. *)
Theorem receive_message_split_prefix :
  receive_message (E := Demo.externals) false
    (Demo.started [[x00; x00; x00]; [x01; x61]])
  = (Raise struct_error, Demo.started []) /\
  text_frame [97] = Ok ([x00; x00; x00] ++ [x01; x61]).
Proof. split; vm_compute; reflexivity. Qed.

(** C5, at a request with [variable_encoding] [json]: the handler returns
    with nothing written. *)
Theorem set_variable_value_json_no_response :
  receive_variable_value (E := Demo.externals) (VDict Demo.set_x_json)
    (Demo.started [])
  = (Ok tt, Demo.started []) /\
  conn_out (Demo.started []) = [].
Proof. split; vm_compute; reflexivity. Qed.

(** C3 fails where a value is missing: of four rows, one distinct value that
    is not missing (fewer than half), yet the column is STRING, the marker
    having been counted. *)
Lemma header_counts_the_missing_marker :
  instances_to_header_message (VStr (str "r")) Demo.gappy
  = Ok (VDict [(str "relation_name", VStr (str "r"));
               (str "attributes",
                VList [VDict [(str "name", VStr (str "grade"));
                              (str "type", VStr (str "STRING"))]])]) /\
  non_missing (unique [CStr (str "a"); CNaN; CStr (str "a"); CStr (str "a")])
  = [CStr (str "a")] /\
  2 * 1 < index_len Demo.gappy.
Proof. repeat split. Qed.

(** C4, at a [get_instances] request for the name [nope], which nothing
    binds: the handler writes the error acknowledgement, does not return
    after it, and raises [AttributeError] at [len(frame.index)] with [frame]
    [None]. The acknowledgement is all that was written, and the exception
    leaves the handler, where [variable_is_set] and [get_variable_value]
    answer an absent name and go on. *)
Lemma get_instances_absent_raises :
  exists b,
    json_frame
      (VDict [(str "response", VStr (str "error"));
              (str "error_message", VStr (str "Variable nope is not defined"))])
    = Ok b /\
    send_instances (E := Demo.externals) (VDict Demo.get_absent) (Demo.started [])
    = (Raise AttributeError, set_conn_out b (Demo.started [])).
Proof. eexists. split; vm_compute; reflexivity. Qed.

(** C6 fails for a script that raises [SystemExit]: the exception leaves the
    dispatcher and nothing was written. *)
Lemma execute_script_system_exit :
  dispatch (E := Demo.externals) (VDict Demo.run_exit) (Demo.started [])
  = (Raise SystemExit, Demo.started []) /\
  conn_out (Demo.started []) = [] /\
  is_Exception SystemExit = false.
Proof. repeat split; vm_compute; reflexivity. Qed.

(** C7 fails for the value [None]: the set is acknowledged, and
    [variable_is_set] then answers [false]. *)
Lemma variable_is_set_after_none :
  Demo.dumps VNone = Ok ["N"%byte; "."%byte] /\
  base64_encode ["N"%byte; "."%byte] = Ok Demo.none_text /\
  fst (receive_variable_value (E := Demo.externals)
         (VDict (Demo.set_x Demo.none_text)) (Demo.started [])) = Ok tt /\
  send_variable_is_set (VDict Demo.ask_x)
    (snd (receive_variable_value (E := Demo.externals)
            (VDict (Demo.set_x Demo.none_text)) (Demo.started [])))
  = send_response
      (VDict [(str "response", VStr (str "ok"));
              (str "variable_name", VStr (str "x"));
              (str "variable_exists", VBool false)]) true
      (snd (receive_variable_value (E := Demo.externals)
              (VDict (Demo.set_x Demo.none_text)) (Demo.started []))).
Proof. repeat split; vm_compute; reflexivity. Qed.

(** C8 fails for the value [None]: the set is acknowledged, and
    [get_variable_value] then answers with an error. *)
Lemma pickled_none_does_not_come_back :
  Demo.dumps VNone = Ok ["N"%byte; "."%byte] /\
  base64_encode ["N"%byte; "."%byte] = Ok Demo.none_text /\
  fst (receive_variable_value (E := Demo.externals)
         (VDict (Demo.set_x Demo.none_text)) (Demo.started [])) = Ok tt /\
  send_variable_value (E := Demo.externals) (VDict Demo.get_x)
    (snd (receive_variable_value (E := Demo.externals)
            (VDict (Demo.set_x Demo.none_text)) (Demo.started [])))
  = ack_command_err (str "x does not exist!")
      (snd (receive_variable_value (E := Demo.externals)
              (VDict (Demo.set_x Demo.none_text)) (Demo.started []))).
Proof. repeat split; vm_compute; reflexivity. Qed.

(** C10 fails with the [debug] flag: the capture buffer that is put back
    holds a line more than it held. *)
Lemma execute_script_debug_line_stays :
  sys_stdout (Demo.started []) = [] /\
  fst (execute_script (E := Demo.externals) (VDict Demo.run_print_debug)
         (Demo.started [])) = Ok tt /\
  sys_stdout (snd (execute_script (E := Demo.externals)
                     (VDict Demo.run_print_debug) (Demo.started [])))
  = str "Executing script..." ++ nl ++ nl ++ str "print('hi')" ++ nl.
Proof. repeat split; vm_compute; reflexivity. Qed.

(** ** The theorems at concrete inputs *)

Lemma header_classifies_textual_column_witness :
  exists attributes attribute,
    instances_to_header_message (VStr (str "r")) Demo.graded
    = Ok (VDict [(str "relation_name", VStr (str "r"));
                 (str "attributes", VList attributes)]) /\
    attributes !! 0%nat = Some (VDict attribute) /\
    dict_get (str "name") attribute = Some (VStr (str "grade")) /\
    (dict_get (str "type") attribute = Some (VStr (str "NOMINAL")) <->
     2 * len (unique [CStr (str "a"); CStr (str "b"); CStr (str "a"); CNaN;
                      CStr (str "a"); CStr (str "b"); CStr (str "a")])
     < index_len Demo.graded) /\
    (2 * len (unique [CStr (str "a"); CStr (str "b"); CStr (str "a"); CNaN;
                      CStr (str "a"); CStr (str "b"); CStr (str "a")])
     < index_len Demo.graded ->
     dict_get (str "values") attribute
     = Some (VList (map (cell_value (str "object"))
                      (non_missing
                         (unique [CStr (str "a"); CStr (str "b"); CStr (str "a");
                                  CNaN; CStr (str "a"); CStr (str "b");
                                  CStr (str "a")]))))) /\
    (~ 2 * len (unique [CStr (str "a"); CStr (str "b"); CStr (str "a"); CNaN;
                        CStr (str "a"); CStr (str "b"); CStr (str "a")])
       < index_len Demo.graded ->
     dict_get (str "type") attribute = Some (VStr (str "STRING")) /\
     dict_get (str "values") attribute = None).
Proof.
  apply (header_classifies_textual_column (VStr (str "r")) Demo.graded 0
           (Column (str "grade") (str "object")
              [CStr (str "a"); CStr (str "b"); CStr (str "a"); CNaN;
               CStr (str "a"); CStr (str "b"); CStr (str "a")])).
  - apply NoDup_singleton.
  - reflexivity.
  - left. reflexivity.
Defined.

Lemma get_instances_not_a_table_witness :
  exists e,
    (e = AttributeError \/ e = TypeError) /\
    send_instances (E := Demo.externals) (VDict Demo.get_absent) (Demo.started [])
    = (Raise e,
       set_conn_out
         (conn_out (Demo.started [])
          ++ [x00; x00; x00; x46]
          ++ map byte_of
               ([123; 34] ++ str "response" ++ [34; 58; 32; 34] ++ str "error"
                ++ [34; 44; 32; 34] ++ str "error_message" ++ [34; 58; 32; 34]
                ++ str "Variable nope is not defined" ++ [34; 125]))
         (Demo.started [])).
Proof.
  apply (get_instances_not_a_table (H := Demo.externals) Demo.get_absent
           (str "nope") VNone (Demo.started [])).
  - reflexivity.
  - reflexivity.
  - reflexivity.
  - vm_compute. reflexivity.
Defined.

Lemma execute_script_answers_ok_witness :
  exists w',
    dispatch (E := Demo.externals) (VDict Demo.run_failing) (Demo.started [])
    = (Ok tt, w') /\
    conn_out w'
    = conn_out (Demo.started [])
      ++ match json_frame
                 (script_response
                    (Demo.run (VStr (str "1/0")) ∅
                       (<[str "headers" := VDict []]> ∅))) with
         | Ok b => b
         | _ => []
         end /\
    (script_failed (Demo.run (VStr (str "1/0")) ∅
                      (<[str "headers" := VDict []]> ∅)) = true ->
     script_error (Demo.run (VStr (str "1/0")) ∅
                     (<[str "headers" := VDict []]> ∅)) <> []) /\
    server_loop (E := Demo.externals) 1
      (Demo.started (Demo.incoming Demo.run_failing))
    = server_loop (E := Demo.externals) 0 w'.
Proof.
  apply (execute_script_answers_ok (H := Demo.externals) Demo.run_failing
           (str "1/0") false
           (Demo.run (VStr (str "1/0")) ∅ (<[str "headers" := VDict []]> ∅))
           (Demo.started (Demo.incoming Demo.run_failing)) (Demo.started [])).
  - vm_compute. reflexivity.
  - reflexivity.
  - reflexivity.
  - reflexivity.
  - reflexivity.
  - right. exists ScriptError. split; reflexivity.
  - vm_compute. reflexivity.
Defined.

Lemma variable_is_set_before_and_after_witness :
  (_local_env (Demo.started []) !! str "x" = None ->
   send_variable_is_set (VDict Demo.ask_x) (Demo.started [])
   = send_response
       (VDict [(str "response", VStr (str "ok"));
               (str "variable_name", VStr (str "x"));
               (str "variable_exists", VBool false)]) true (Demo.started [])) /\
  _local_env
    (snd (receive_variable_value (E := Demo.externals)
            (VDict (Demo.set_x Demo.nested_text)) (Demo.started [])))
  = <[str "x" := Demo.nested]> (_local_env (Demo.started [])) /\
  send_variable_is_set (VDict Demo.ask_x)
    (snd (receive_variable_value (E := Demo.externals)
            (VDict (Demo.set_x Demo.nested_text)) (Demo.started [])))
  = send_response
      (VDict [(str "response", VStr (str "ok"));
              (str "variable_name", VStr (str "x"));
              (str "variable_exists", VBool true)]) true
      (snd (receive_variable_value (E := Demo.externals)
              (VDict (Demo.set_x Demo.nested_text)) (Demo.started []))).
Proof.
  apply (variable_is_set_before_and_after (H := Demo.externals) Demo.ask_x
           (Demo.set_x Demo.nested_text) (str "x") (VStr Demo.nested_text)
           (match Demo.dumps Demo.nested with Ok b => b | _ => [] end)
           Demo.nested (Demo.started [])).
  - reflexivity.
  - reflexivity.
  - reflexivity.
  - reflexivity.
  - vm_compute. reflexivity.
  - vm_compute. reflexivity.
  - discriminate.
  - vm_compute. reflexivity.
Defined.

Lemma pickled_round_trip_witness :
  send_variable_value (E := Demo.externals) (VDict Demo.get_x)
    (snd (receive_variable_value (E := Demo.externals)
            (VDict (Demo.set_x Demo.nested_text)) (Demo.started [])))
  = send_response
      (VDict [(str "response", VStr (str "ok"));
              (str "variable_name", VStr (str "x"));
              (str "variable_encoding", VStr (str "pickled"));
              (str "variable_value", VStr Demo.nested_text)]) true
      (snd (receive_variable_value (E := Demo.externals)
              (VDict (Demo.set_x Demo.nested_text)) (Demo.started []))) /\
  (b <-? base64_decode (VStr Demo.nested_text) ;; Demo.loads b) = Ok Demo.nested.
Proof.
  apply (pickled_round_trip (H := Demo.externals)
           (Demo.set_x Demo.nested_text) Demo.get_x (str "x") Demo.nested
           (match Demo.dumps Demo.nested with Ok b => b | _ => [] end)
           Demo.nested_text false (Demo.started [])).
  - discriminate.
  - vm_compute. reflexivity.
  - vm_compute. reflexivity.
  - vm_compute. reflexivity.
  - reflexivity.
  - reflexivity.
  - reflexivity.
  - reflexivity.
  - reflexivity.
  - reflexivity.
  - vm_compute. reflexivity.
Defined.

Lemma no_command_no_response_witness :
  exists w2,
    server_cycle (E := Demo.externals)
      (Demo.started (Demo.incoming Demo.no_command)) = (Ok tt, w2) /\
    conn_out w2 = conn_out (Demo.started (Demo.incoming Demo.no_command)) /\
    _local_env w2 = _local_env (Demo.started (Demo.incoming Demo.no_command)) /\
    _global_env w2 = _global_env (Demo.started (Demo.incoming Demo.no_command)) /\
    conn_in w2 = conn_in (Demo.started []) /\
    conn_closed w2 = conn_closed (Demo.started (Demo.incoming Demo.no_command)) /\
    server_loop (E := Demo.externals) 1
      (Demo.started (Demo.incoming Demo.no_command))
    = server_loop (E := Demo.externals) 0 w2.
Proof.
  apply (no_command_no_response (H := Demo.externals) Demo.no_command
           (Demo.started (Demo.incoming Demo.no_command)) (Demo.started []) 0).
  - vm_compute. reflexivity.
  - reflexivity.
Defined.

Lemma execute_script_restores_buffers_witness :
  sys_stdout (snd (execute_script (E := Demo.externals)
                     (VDict Demo.run_print_debug) (Demo.started [])))
  = sys_stdout (Demo.started []) ++ debug_line true (str "print('hi')") /\
  sys_stderr (snd (execute_script (E := Demo.externals)
                     (VDict Demo.run_print_debug) (Demo.started [])))
  = sys_stderr (Demo.started []) /\
  (exists b,
     json_frame
       (script_response
          (Demo.run (VStr (str "print('hi')")) ∅
             (<[str "headers" := VDict []]> ∅))) = Ok b /\
     conn_out (snd (execute_script (E := Demo.externals)
                      (VDict Demo.run_print_debug) (Demo.started [])))
     = conn_out (Demo.started []) ++ b) /\
  send_debug_buffer
    (snd (execute_script (E := Demo.externals)
            (VDict Demo.run_print_debug) (Demo.started [])))
  = send_response
      (VDict [(str "response", VStr (str "ok"));
              (str "std_out",
               VStr (sys_stdout (Demo.started [])
                     ++ debug_line true (str "print('hi')")));
              (str "std_err", VStr (sys_stderr (Demo.started [])))]) true
      (set_sys_stderr []
         (set_sys_stdout []
            (snd (execute_script (E := Demo.externals)
                    (VDict Demo.run_print_debug) (Demo.started []))))).
Proof.
  apply (execute_script_restores_buffers (H := Demo.externals)
           Demo.run_print_debug (str "print('hi')") true
           (Demo.run (VStr (str "print('hi')")) ∅
              (<[str "headers" := VDict []]> ∅))
           (Demo.started [])).
  - reflexivity.
  - reflexivity.
  - reflexivity.
  - vm_compute. reflexivity.
Defined.

Lemma send_response_json_prefix_counts_bytes_witness :
  exists prefix payload,
    send_response (VDict [(str "response", VStr (str "ok"))]) true
      (Demo.started [])
    = (Ok tt,
       set_conn_out (conn_out (Demo.started []) ++ prefix ++ payload)
         (Demo.started [])) /\
    length prefix = 4%nat /\
    Utf8.encode ([123; 34] ++ str "response" ++ [34; 58; 32; 34] ++ str "ok"
                 ++ [34; 125]) = Ok payload /\
    Struct.unpack_L prefix = Ok (len payload).
Proof.
  apply (send_response_json_prefix_counts_bytes
           (VDict [(str "response", VStr (str "ok"))])
           ([123; 34] ++ str "response" ++ [34; 58; 32; 34] ++ str "ok"
            ++ [34; 125])
           (Demo.started [])).
  - reflexivity.
  - reflexivity.
Defined.

Lemma raw_prefix_is_byte_length_iff_ascii_witness :
  send_response (VStr [233]) false (Demo.started [])
  = (Ok tt,
     set_conn_out (conn_out (Demo.started []) ++ [x00; x00; x00; x01] ++ [xc3; xa9])
       (Demo.started [])) /\
  Struct.unpack_L [x00; x00; x00; x01] = Ok (len [233]) /\
  (len [233] = len [xc3; xa9] <-> is_ascii [233] = true).
Proof.
  apply (raw_prefix_is_byte_length_iff_ascii [233] [x00; x00; x00; x01]
           [xc3; xa9] (Demo.started [])).
  - reflexivity.
  - reflexivity.
Defined.

Lemma receive_message_ascii_frame_witness :
  exists w',
    receive_message (E := Demo.externals) false
      (Demo.started [[x00; x00; x00; x03; x61]; [x62]; [x63]])
    = (Ok (VStr (str "abc")), w') /\
    concat (conn_in w') = [] /\
    reads_only (Demo.started [[x00; x00; x00; x03; x61]; [x62]; [x63]]) w'.
Proof.
  apply (receive_message_ascii_frame (H := Demo.externals) (str "abc")
           [x00; x00; x00; x03] [x00; x00; x00; x03; x61] [[x62]; [x63]]).
  - reflexivity.
  - reflexivity.
  - reflexivity.
  - cbn. lia.
  - reflexivity.
Defined.

Lemma receive_variable_value_other_encoding_witness :
  receive_variable_value (E := Demo.externals) (VDict Demo.set_x_json)
    (Demo.started [])
  = (Ok tt, Demo.started []).
Proof.
  apply (receive_variable_value_other_encoding (H := Demo.externals)
           Demo.set_x_json (str "json")).
  - reflexivity.
  - discriminate.
Defined.

(** * Further lemmas *)

(** ** Relations every step of a computation keeps *)

Section Preserves.
Context (R : world -> world -> Prop).
Hypothesis R_refl : forall w, R w w.
Hypothesis R_trans : forall w1 w2 w3, R w1 w2 -> R w2 w3 -> R w1 w3.

Lemma preserves_ret {A : Type} (a : A) : preserves R (ret a).
Proof. intros w r w' [= <- <-]. apply R_refl. Qed.

Lemma preserves_lift {A : Type} (x : result A) : preserves R (lift x).
Proof. intros w r w' [= <- <-]. apply R_refl. Qed.

Lemma preserves_get {A : Type} (f : world -> A) : preserves R (get f).
Proof. intros w r w' [= <- <-]. apply R_refl. Qed.

Lemma preserves_modify (f : world -> world) :
  (forall w, R w (f w)) -> preserves R (modify f).
Proof. intros Hf w r w' [= <- <-]. apply Hf. Qed.

Lemma preserves_bind {A B : Type} (m : M A) (k : A -> M B) :
  preserves R m -> (forall a, preserves R (k a)) -> preserves R (bind m k).
Proof.
  intros Hm Hk w r w'. unfold bind.
  destruct (m w) as [[a| |] w1] eqn:H1; apply Hm in H1.
  - intros H2. apply Hk in H2. eauto.
  - now intros [= <- <-].
  - now intros [= <- <-].
Qed.

Lemma preserves_finally {A : Type} (m : M A) (f : M unit) :
  preserves R m -> preserves R f -> preserves R (finally m f).
Proof.
  intros Hm Hf w r w'. unfold finally.
  destruct (m w) as [[a| |] w1] eqn:H1; apply Hm in H1.
  - destruct (f w1) as [[[]| |] w2] eqn:H2; apply Hf in H2;
      intros [= <- <-]; eauto.
  - destruct (f w1) as [[[]| |] w2] eqn:H2; apply Hf in H2;
      intros [= <- <-]; eauto.
  - now intros [= <- <-].
Qed.

Lemma preserves_reads (m : M (list byte)) :
  (forall w w', reads_only w w' -> R w w') ->
  (forall w r w', m w = (r, w') -> reads_only w w') -> preserves R m.
Proof. intros HR Hm w r w' H. eapply HR, Hm, H. Qed.

End Preserves.

Lemma preserves_if {A : Type} (R : world -> world -> Prop) (b : bool)
    (m1 m2 : M A) :
  preserves R m1 -> preserves R m2 -> preserves R (if b then m1 else m2).
Proof. now destruct b. Qed.

Lemma appends_only_refl (w : world) : appends_only w w.
Proof. split; [exists []; now rewrite app_nil_r|reflexivity]. Qed.

Lemma appends_only_trans (w1 w2 w3 : world) :
  appends_only w1 w2 -> appends_only w2 w3 -> appends_only w1 w3.
Proof.
  intros [[b1 H1] C1] [[b2 H2] C2]. split; [|congruence].
  exists (b1 ++ b2). now rewrite H2, H1, app_assoc.
Qed.

Lemma same_env_refl (w : world) : same_env w w.
Proof. now split. Qed.

Lemma same_env_trans (w1 w2 w3 : world) :
  same_env w1 w2 -> same_env w2 w3 -> same_env w1 w3.
Proof. intros [L1 G1] [L2 G2]. split; congruence. Qed.

Lemma reads_only_appends (w w' : world) : reads_only w w' -> appends_only w w'.
Proof.
  unfold reads_only. intros ->. destruct w; cbn.
  split; [exists []; now rewrite app_nil_r|reflexivity].
Qed.

Lemma reads_only_same_env (w w' : world) : reads_only w w' -> same_env w w'.
Proof. unfold reads_only. intros ->. now destruct w. Qed.

(** One setter applied to the state. *)
Ltac setter_appends :=
  let w := fresh "w" in
  intros w; destruct w; cbn; split;
  [ first [ eexists; reflexivity | exists []; now rewrite app_nil_r ]
  | reflexivity ].

Ltac setter_same_env :=
  let w := fresh "w" in intros w; destruct w; now split.

Ltac frame_steps refl trans setter leaf :=
  repeat first
    [ leaf
    | apply (preserves_bind _ trans); [|intros ?]
    | apply preserves_if
    | apply (preserves_ret _ refl)
    | apply (preserves_lift _ refl)
    | apply (preserves_get _ refl)
    | apply preserves_modify; setter
    | match goal with
      | |- preserves _ (match ?x with _ => _ end) => destruct x
      end ].

Lemma send_response_appends (v : value) (isJson : bool) :
  preserves appends_only (send_response v isJson).
Proof.
  intros w r w' [b ->]%send_response_writes. destruct w; cbn.
  split; [now exists b|reflexivity].
Qed.

Lemma send_response_same_env (v : value) (isJson : bool) :
  preserves same_env (send_response v isJson).
Proof. intros w r w' [b ->]%send_response_writes. now destruct w. Qed.

Lemma receive_message_appends `{Externals} (isJson : bool) :
  preserves appends_only (receive_message isJson).
Proof.
  intros w r w' H0. eapply reads_only_appends, receive_message_reads_only, H0.
Qed.

Lemma exec_guarded_appends `{Externals} (script : value) :
  preserves appends_only (exec_guarded script).
Proof.
  intros w r w'. unfold exec_guarded, bind, print, modify.
  destruct (exec_end _) as [[]|e|]; [|destruct (is_Exception e)|];
    intros [= <- <-]; destruct w; cbn;
    (split; [exists []; now rewrite app_nil_r|reflexivity]).
Qed.

Lemma get_variable_same (var_name : value) (w w' : world) (r : result value) :
  get_variable var_name w = (r, w') -> w' = w.
Proof.
  destruct var_name; cbn; unfold ret, lift, bind, get;
    try (now intros [= <- <-]).
  destruct (_local_env w !! s); now intros [= <- <-].
Qed.

(** No handler changes what was written before it, and none closes the
    connection. *)
Lemma dispatch_appends `{Externals} (message : value) :
  preserves appends_only (dispatch message).
Proof.
  unfold dispatch, receive_instances, send_instances, execute_script,
    send_variable_value, send_encoded_variable_value, send_variable_is_set,
    receive_variable_value, receive_pickled_variable_value, send_debug_buffer,
    ack_command_err, ack_command_ok, startup_print, print, set_variable.
  frame_steps appends_only_refl appends_only_trans setter_appends
    ltac:(first
            [ apply send_response_appends
            | apply receive_message_appends
            | apply exec_guarded_appends
            | match goal with
              | |- preserves _ (get_variable ?v) =>
                let H := fresh in
                intros ? ? ? H; apply get_variable_same in H; subst;
                apply appends_only_refl
              end ]).
Qed.

(** ** The run of the server *)

Lemma server_loop_appends `{Externals} (fuel : nat) :
  preserves appends_only (server_loop fuel).
Proof.
  induction fuel as [|fuel IH]; cbn [server_loop].
  - apply (preserves_lift _ appends_only_refl).
  - apply (preserves_bind _ appends_only_trans); [|intros _; exact IH].
    unfold server_cycle.
    apply (preserves_bind _ appends_only_trans);
      [apply receive_message_appends|intros m; apply dispatch_appends].
Qed.

Lemma server_loop_ends `{Externals} (fuel : nat) (w w' : world)
    (r : result unit) :
  server_loop fuel w = (r, w') -> r = Blocked \/ exists e, r = Raise e.
Proof.
  revert w. induction fuel as [|fuel IH]; intros w; cbn [server_loop].
  - intros [= <- <-]. now left.
  - unfold bind. destruct (server_cycle w) as [[[]| |] w1].
    + apply IH.
    + intros [= <- <-]. eauto.
    + intros [= <- <-]. now left.
Qed.

(** [runServer], from connect to the end: the handshake is the first thing
    written and what is written after it stays after it; the function does
    not return; when it ends by an exception ([SystemExit] on [shutdown], or
    any error a handler let through) the [finally] has closed the
    connection, and while it is blocked in a receive the connection is as it
    was. *)
Theorem runServer_handshake_then_close `{Externals} (w w' : world)
    (r : result unit) (handshake : list byte) :
  json_frame (VDict [(str "response", VStr (str "pid_response"));
                     (str "pid", VInt getpid)]) = Ok handshake ->
  runServer w = (r, w') ->
  r <> Ok tt /\
  (exists rest, conn_out w' = conn_out w ++ handshake ++ rest) /\
  (forall e, r = Raise e -> conn_closed w' = true) /\
  (r = Blocked -> conn_closed w' = conn_closed w).
Proof.
  intros Hh. unfold runServer.
  destruct (startup_print_effect (str "Python server starting..." ++ nl) w)
    as [out Hout].
  unfold bind at 1. rewrite Hout.
  unfold bind at 1. unfold set_variable at 1. cbn [as_key].
  unfold bind at 1. unfold lift at 1. unfold modify at 1.
  unfold bind at 1.
  change (dict_set (str "pid") (VInt getpid)
            (dict_set (str "response") (VStr (str "pid_response")) []))
    with [(str "response", VStr (str "pid_response")); (str "pid", VInt getpid)].
  rewrite (send_response_json _ handshake _ Hh).
  set (w3 := set_conn_out _ _).
  assert (H3 : conn_out w3 = conn_out w ++ handshake /\
               conn_closed w3 = conn_closed w)
    by (subst w3; now destruct w).
  destruct H3 as [Hout3 Hclosed3].
  unfold finally, modify.
  destruct (server_loop (S (pending_bytes w3)) w3) as [r0 w4] eqn:Hloop.
  pose proof (server_loop_ends _ _ _ _ Hloop) as Hend.
  apply server_loop_appends in Hloop as [[rest Hrest] Hclosed4].
  destruct Hend as [-> | [e ->]]; intros [= <- <-].
  - repeat split; try discriminate.
    + exists rest. now rewrite Hrest, Hout3, <- app_assoc.
    + congruence.
  - replace (conn_out (set_conn_closed true w4)) with (conn_out w4)
      by now destruct w4.
    repeat split; try discriminate.
    exists rest. now rewrite Hrest, Hout3, <- app_assoc.
Qed.

(** ** Commands the dispatcher does not know *)

Lemma text_eqb_false_of_not_in (c name : text) (names : list text) :
  ~ In c names -> In name names -> text_eqb c name = false.
Proof. intros Hc Hn. apply text_eqb_ne. intros ->. contradiction. Qed.

(** A request whose [command] is a text that is none of the eight names
    falls through the chain of [elif]: nothing is sent and nothing changes. *)
Theorem dispatch_unknown_command `{Externals} (m : list (text * value))
    (command : text) (w : world) :
  dict_get (str "command") m = Some (VStr command) ->
  ~ In command command_names ->
  dispatch (VDict m) w = (Ok tt, w).
Proof.
  intros Hm Hc. unfold dispatch.
  unfold bind at 1. unfold lift at 1. rewrite (py_in_present _ _ _ Hm).
  unfold bind at 1. unfold lift at 1. rewrite (py_getitem_present _ _ _ Hm).
  cbn [eq_str].
  repeat (unfold bind at 1; unfold lift at 1;
          rewrite (text_eqb_false_of_not_in command _ command_names Hc)
            by (cbn; tauto)).
  reflexivity.
Qed.

(** ** [json.dumps]: which objects it serializes *)

Lemma dumps_of_json (v : value) :
  if is_json v then exists s, Json.dumps v = Ok s
  else Json.dumps v = Raise TypeError.
Proof.
  induction v as [|b|b|z| |t|l IH|d IH|f] using value_nested_ind;
    cbn [is_json Json.dumps]; eauto.
  - destruct b; eauto.
  - match goal with |- context [?f l] =>
      assert (Hitems : if forallb is_json l then exists ts, f l = Ok ts
                       else f l = Raise TypeError)
    end.
    { induction IH as [|x r Hx Hr IHr]; cbn [forallb]; [eauto|].
      destruct (is_json x); cbn [andb].
      - destruct Hx as [t ->].
        destruct (forallb is_json r); [destruct IHr as [ts ->]; eauto|].
        now rewrite IHr.
      - now rewrite Hx. }
    destruct (forallb is_json l).
    + destruct Hitems as [ts ->]. eauto.
    + now rewrite Hitems.
  - match goal with |- context [?f d] =>
      assert (Hitems : if forallb (fun kv => is_json (snd kv)) d
                       then exists ts, f d = Ok ts
                       else f d = Raise TypeError)
    end.
    { induction IH as [|[k x] r Hx Hr IHr]; cbn [forallb snd]; [eauto|].
      cbn [snd] in Hx. destruct (is_json x); cbn [andb].
      - destruct Hx as [t ->].
        destruct (forallb _ r); [destruct IHr as [ts ->]; eauto|].
        now rewrite IHr.
      - now rewrite Hx. }
    destruct (forallb _ d).
    + destruct Hitems as [ts ->]. eauto.
    + now rewrite Hitems.
Qed.

Lemma dumps_not_json (v : value) :
  is_json v = false -> Json.dumps v = Raise TypeError.
Proof. intros H. pose proof (dumps_of_json v) as Hv. now rewrite H in Hv. Qed.

Lemma send_response_not_json (v : value) (w : world) :
  is_json v = false -> send_response v true w = (Raise TypeError, w).
Proof.
  intros Hv. unfold send_response, bind, lift. now rewrite (dumps_not_json v Hv).
Qed.

(** ** [get_debug_buffer] *)

(** A drain answers with what the two capture buffers hold and installs
    empty ones, whether or not the answer could be sent; it leaves the two
    scopes alone, and a drain that follows at once answers with two empty
    texts. *)
Theorem get_debug_buffer_drains (w w1 : world) (r : result unit) :
  send_debug_buffer w = (r, w1) ->
  send_debug_buffer w
  = send_response
      (VDict [(str "response", VStr (str "ok"));
              (str "std_out", VStr (sys_stdout w));
              (str "std_err", VStr (sys_stderr w))]) true
      (set_sys_stderr [] (set_sys_stdout [] w)) /\
  sys_stdout w1 = [] /\ sys_stderr w1 = [] /\ same_env w w1 /\
  send_debug_buffer w1
  = send_response
      (VDict [(str "response", VStr (str "ok"));
              (str "std_out", VStr []);
              (str "std_err", VStr [])]) true w1.
Proof.
  assert (Heq : forall w0,
             send_debug_buffer w0
             = send_response
                 (VDict [(str "response", VStr (str "ok"));
                         (str "std_out", VStr (sys_stdout w0));
                         (str "std_err", VStr (sys_stderr w0))]) true
                 (set_sys_stderr [] (set_sys_stdout [] w0)))
    by (intros w0; unfold send_debug_buffer, bind, get, modify; now destruct w0).
  intros Hrun. split; [apply Heq|].
  rewrite Heq in Hrun. apply send_response_writes in Hrun as [b ->].
  assert (Hout : sys_stdout (set_conn_out
                   (conn_out (set_sys_stderr [] (set_sys_stdout [] w)) ++ b)
                   (set_sys_stderr [] (set_sys_stdout [] w))) = [])
    by now destruct w.
  assert (Herr : sys_stderr (set_conn_out
                   (conn_out (set_sys_stderr [] (set_sys_stdout [] w)) ++ b)
                   (set_sys_stderr [] (set_sys_stdout [] w))) = [])
    by now destruct w.
  split; [exact Hout|]. split; [exact Herr|]. split; [now destruct w|].
  rewrite Heq, Hout, Herr. reflexivity.
Qed.

(** ** [get_variable_value]: the requests it refuses *)

Lemma eq_str_in (e : text) (names : list text) (name : text) :
  ~ In e names -> In name names -> eq_str (VStr e) name = Ok false.
Proof. intros He Hn. cbn. now rewrite (text_eqb_false_of_not_in e name names). Qed.

Lemma send_variable_value_known `{Externals} (m : list (text * value))
    (e : text) (w : world) :
  dict_get (str "variable_encoding") m = Some (VStr e) ->
  In e encoding_names ->
  send_variable_value (VDict m) w = send_encoded_variable_value (VDict m) w.
Proof.
  intros Hm He. unfold send_variable_value.
  unfold bind at 1. unfold lift at 1. rewrite (py_in_present _ _ _ Hm).
  unfold bind at 1. unfold lift at 1. rewrite (py_getitem_present _ _ _ Hm).
  cbn in He. destruct He as [<- | [<- | [<- | []]]]; reflexivity.
Qed.

(** The encoding is checked first, then the name, then the binding: a
    request without [variable_encoding], with an encoding that is none of
    [pickled], [json], [string], without [variable_name], or for a name that
    is unbound or bound to [None], is answered with an error
    acknowledgement that says which, and with nothing else. *)
Theorem get_variable_value_errors `{Externals} (m : list (text * value))
    (w : world) :
  (dict_get (str "variable_encoding") m = None ->
   send_variable_value (VDict m) w
   = ack_command_err
       (str "send variable value message does not contain an encoding field") w) /\
  (forall e,
     dict_get (str "variable_encoding") m = Some (VStr e) ->
     ~ In e encoding_names ->
     send_variable_value (VDict m) w
     = ack_command_err
         (str "Unknown encoding type for send variable value message") w) /\
  (forall e,
     dict_get (str "variable_encoding") m = Some (VStr e) ->
     In e encoding_names ->
     dict_get (str "variable_name") m = None ->
     send_variable_value (VDict m) w
     = ack_command_err
         (str "get variable value json message does not contain a variable_name entry!") w) /\
  (forall e name,
     dict_get (str "variable_encoding") m = Some (VStr e) ->
     In e encoding_names ->
     dict_get (str "variable_name") m = Some (VStr name) ->
     _local_env w !! name = None \/ _local_env w !! name = Some VNone ->
     send_variable_value (VDict m) w
     = ack_command_err (name ++ str " does not exist!") w).
Proof.
  repeat split.
  - intros Hm. unfold send_variable_value, bind, lift.
    now rewrite (py_in_absent _ _ Hm).
  - intros e Hm He. unfold send_variable_value.
    unfold bind at 1. unfold lift at 1. rewrite (py_in_present _ _ _ Hm).
    unfold bind at 1. unfold lift at 1. rewrite (py_getitem_present _ _ _ Hm).
    unfold bind at 1. unfold lift at 1.
    rewrite (eq_str_in e encoding_names) by (assumption || cbn; tauto).
    unfold bind at 1. unfold lift at 1.
    rewrite (eq_str_in e encoding_names) by (assumption || cbn; tauto).
    unfold bind at 1. unfold lift at 1.
    rewrite (eq_str_in e encoding_names) by (assumption || cbn; tauto).
    reflexivity.
  - intros e Hm He Hn. rewrite (send_variable_value_known m e w Hm He).
    unfold send_encoded_variable_value, bind, lift.
    now rewrite (py_in_absent _ _ Hn).
  - intros e name Hm He Hn Hw. rewrite (send_variable_value_known m e w Hm He).
    unfold send_encoded_variable_value.
    unfold bind at 1. unfold lift at 1. rewrite (py_in_present _ _ _ Hn).
    unfold bind at 1. unfold lift at 1. rewrite (py_getitem_present _ _ _ Hn).
    unfold bind at 1. rewrite get_variable_text.
    destruct Hw as [-> | ->]; reflexivity.
Qed.

(** ** [get_variable_value] with the [json] encoding *)

Lemma is_json_dict_get (k : text) (m : list (text * value)) (v : value) :
  dict_get k m = Some v -> is_json v = false -> is_json (VDict m) = false.
Proof.
  intros Hk Hv. destruct (is_json (VDict m)) eqn:Hm; [|reflexivity].
  now rewrite (dict_get_json k m v Hm Hk) in Hv.
Qed.

(** With the [json] encoding the bound object goes into the response as it
    is, and the response as a whole is serialized. An object [json.dumps]
    does not serialize (a DataFrame, a numpy scalar, or a container that
    holds one) makes the handler raise [TypeError] before a byte is written:
    the client gets no reply, not an error acknowledgement. *)
Theorem get_variable_value_json `{Externals} (m : list (text * value))
    (name : text) (v : value) (w : world) :
  dict_get (str "variable_encoding") m = Some (VStr (str "json")) ->
  dict_get (str "variable_name") m = Some (VStr name) ->
  (d <-? message_debug (VDict m) ;; eq_True d) = Ok false ->
  _local_env w !! name = Some v ->
  v <> VNone ->
  send_variable_value (VDict m) w
  = send_response
      (VDict [(str "response", VStr (str "ok"));
              (str "variable_name", VStr name);
              (str "variable_encoding", VStr (str "json"));
              (str "variable_value", v)]) true w /\
  (is_json v = false -> send_variable_value (VDict m) w = (Raise TypeError, w)).
Proof.
  intros He Hn Hd Hw Hv.
  assert (Heq : send_variable_value (VDict m) w
                = send_response
                    (VDict [(str "response", VStr (str "ok"));
                            (str "variable_name", VStr name);
                            (str "variable_encoding", VStr (str "json"));
                            (str "variable_value", v)]) true w).
  { rewrite (send_variable_value_known m (str "json") w He)
      by (cbn; tauto).
    unfold send_encoded_variable_value.
    unfold bind at 1. unfold lift at 1. rewrite (py_in_present _ _ _ Hn).
    unfold bind at 1. unfold lift at 1. rewrite (py_getitem_present _ _ _ Hn).
    unfold bind at 1. rewrite get_variable_text, Hw.
    rewrite (is_None_false v Hv). cbn [negb].
    unfold bind at 1. unfold lift at 1. rewrite (py_getitem_present _ _ _ He).
    unfold bind at 1. unfold lift at 1.
    change (eq_str (VStr (str "json")) (str "pickled")) with (Ok false).
    unfold bind at 1. unfold bind at 1. unfold lift at 1.
    change (eq_str (VStr (str "json")) (str "json")) with (Ok true).
    unfold ret at 1.
    unfold bind at 1. unfold lift at 1. rewrite Hd.
    unfold bind at 1. unfold ret at 1. reflexivity. }
  split; [exact Heq|].
  intros Hj. rewrite Heq. apply send_response_not_json.
  cbn [is_json forallb snd]. now rewrite Hj.
Qed.

(** ** [set_variable_value]: a value that does not decode *)

(** When the text is not base64 of the length the decoder accepts, or the
    bytes are no pickle, the handler raises what the decoder raised: nothing
    is bound, and nothing is written, not even an error acknowledgement. *)
Theorem set_variable_value_undecodable `{Externals} (m : list (text * value))
    (name : value) (t : value) (e : exn) (w : world) :
  dict_get (str "variable_encoding") m = Some (VStr (str "pickled")) ->
  dict_get (str "variable_name") m = Some name ->
  dict_get (str "variable_value") m = Some t ->
  (b <-? base64_decode t ;; pickle_loads b) = Raise e ->
  receive_variable_value (VDict m) w = (Raise e, w).
Proof.
  intros He Hn Ht Hbad. unfold receive_variable_value.
  unfold bind at 1. unfold lift at 1. rewrite (py_in_present _ _ _ He).
  unfold bind at 1. unfold lift at 1. rewrite (py_getitem_present _ _ _ He).
  unfold bind at 1. unfold lift at 1.
  change (eq_str (VStr (str "pickled")) (str "pickled")) with (Ok true).
  unfold receive_pickled_variable_value.
  unfold bind at 1. unfold lift at 1. rewrite (py_in_present _ _ _ Hn).
  unfold bind at 1. unfold lift at 1. rewrite (py_in_present _ _ _ Ht).
  unfold bind at 1. unfold lift at 1. rewrite (py_getitem_present _ _ _ Hn).
  unfold bind at 1. unfold lift at 1. rewrite (py_getitem_present _ _ _ Ht).
  unfold bind at 1. unfold lift at 1.
  destruct (base64_decode t) as [b|e'|]; cbn [and_then] in Hbad.
  - unfold bind at 1. unfold lift at 1. now rewrite Hbad.
  - now injection Hbad as ->.
  - discriminate.
Qed.

(** ** Requests that lack a field *)

(** Five handlers answer a request that lacks a field they need with an
    error acknowledgement that names the field, and do nothing else;
    [get_instances] does not look before it reads [frame_name]: it raises
    [KeyError] and writes nothing. *)
Theorem missing_field_errors `{Externals} (m : list (text * value))
    (w : world) :
  (dict_get (str "header") m = None ->
   receive_instances (VDict m) w
   = ack_command_err
       (str "put instances json message does not contain a header entry!") w) /\
  (dict_get (str "script") m = None ->
   execute_script (VDict m) w
   = ack_command_err
       (str "execute script json message does not contain a script entry!") w) /\
  (dict_get (str "variable_name") m = None ->
   send_variable_is_set (VDict m) w
   = ack_command_err
       (str "object exists json message does not contain a variable_name entry!") w) /\
  (dict_get (str "variable_encoding") m = None ->
   receive_variable_value (VDict m) w
   = ack_command_err
       (str "receive variable value message does not contain an encoding field") w) /\
  (dict_get (str "variable_encoding") m = Some (VStr (str "pickled")) ->
   dict_get (str "variable_name") m = None \/
   dict_get (str "variable_value") m = None ->
   receive_variable_value (VDict m) w
   = ack_command_err
       (str "put variable value json message does not contain a variable_name or variable_value entry!") w) /\
  (dict_get (str "frame_name") m = None ->
   send_instances (VDict m) w = (Raise KeyError, w)).
Proof.
  repeat split.
  - intros Hm. unfold receive_instances, bind, lift.
    now rewrite (py_in_absent _ _ Hm).
  - intros Hm. unfold execute_script, bind, lift.
    now rewrite (py_in_absent _ _ Hm).
  - intros Hm. unfold send_variable_is_set, bind, lift.
    now rewrite (py_in_absent _ _ Hm).
  - intros Hm. unfold receive_variable_value, bind, lift.
    now rewrite (py_in_absent _ _ Hm).
  - intros He Hm. unfold receive_variable_value.
    unfold bind at 1. unfold lift at 1. rewrite (py_in_present _ _ _ He).
    unfold bind at 1. unfold lift at 1. rewrite (py_getitem_present _ _ _ He).
    unfold bind at 1. unfold lift at 1.
    change (eq_str (VStr (str "pickled")) (str "pickled")) with (Ok true).
    unfold receive_pickled_variable_value.
    unfold bind at 1. unfold lift at 1.
    destruct (dict_get (str "variable_name") m) as [n|] eqn:Hn.
    + destruct Hm as [Hm|Hm]; [discriminate|].
      rewrite (py_in_present _ _ _ Hn).
      unfold bind at 1. unfold lift at 1. now rewrite (py_in_absent _ _ Hm).
    + rewrite (py_in_absent _ _ Hn). reflexivity.
  - intros Hm. unfold send_instances, bind, lift. cbn [py_getitem].
    now rewrite Hm.
Qed.

(** ** What a script binds *)

(** The two scopes are what the script left, also when it raised an
    [Exception] half way; a name it left bound to something other than
    [None] is reported as set by the next [variable_is_set]. *)
Theorem script_bindings_persist `{Externals} (m m_ask : list (text * value))
    (s name : text) (v : value) (debug : bool) (w w1 : world) :
  dict_get (str "script") m = Some (VStr s) ->
  (d <-? message_debug (VDict m) ;; truthy d) = Ok debug ->
  execute_script (VDict m) w = (Ok tt, w1) ->
  exec_locals (exec (VStr s) (_global_env w) (_local_env w)) !! name = Some v ->
  v <> VNone ->
  dict_get (str "variable_name") m_ask = Some (VStr name) ->
  _local_env w1 = exec_locals (exec (VStr s) (_global_env w) (_local_env w)) /\
  _global_env w1 = exec_globals (exec (VStr s) (_global_env w) (_local_env w)) /\
  send_variable_is_set (VDict m_ask) w1
  = send_response
      (VDict [(str "response", VStr (str "ok"));
              (str "variable_name", VStr name);
              (str "variable_exists", VBool true)]) true w1.
Proof.
  intros Hs Hd Hrun Hbound Hv Hask.
  pose proof (execute_script_run m s debug w Hs Hd) as Hx. cbn zeta in Hx.
  set (r := exec (VStr s) (_global_env w) (_local_env w)) in *.
  assert (Hsent : send_response (script_response r) true
                    (after_script r debug s w) = (Ok tt, w1)).
  { destruct (exec_end r) as [[]|e|].
    - now rewrite <- Hx.
    - destruct (is_Exception e).
      + now rewrite <- Hx.
      + destruct Hx as (w' & Hx & _). rewrite Hx in Hrun. discriminate.
    - destruct Hx as (w' & Hx & _). rewrite Hx in Hrun. discriminate. }
  apply send_response_writes in Hsent as [b ->].
  assert (Hl : _local_env (set_conn_out (conn_out (after_script r debug s w) ++ b)
                             (after_script r debug s w)) = exec_locals r)
    by now destruct w.
  assert (Hg : _global_env (set_conn_out (conn_out (after_script r debug s w) ++ b)
                              (after_script r debug s w)) = exec_globals r)
    by now destruct w.
  split; [exact Hl|]. split; [exact Hg|].
  rewrite (send_variable_is_set_doc m_ask name _ Hask), Hl, Hbound.
  now rewrite (is_None_false v Hv).
Qed.

(** ** The handlers that only read the Environment *)

(** [variable_is_set], [get_variable_value], [get_instances] and
    [get_debug_buffer] leave both scopes as they were, however they end. *)
Theorem read_handlers_keep_env `{Externals} (message : value) :
  preserves same_env (send_variable_is_set message) /\
  preserves same_env (send_variable_value message) /\
  preserves same_env (send_instances message) /\
  preserves same_env send_debug_buffer.
Proof.
  split; [|split; [|split]];
    unfold send_instances, send_variable_value, send_encoded_variable_value,
      send_variable_is_set, send_debug_buffer, ack_command_err, ack_command_ok,
      print;
    frame_steps same_env_refl same_env_trans setter_same_env
      ltac:(first
              [ apply send_response_same_env
              | match goal with
                | |- preserves _ (get_variable ?v) =>
                  let H := fresh in
                  intros ? ? ? H; apply get_variable_same in H; subst;
                  apply same_env_refl
                end ]).
Qed.

(** ** Receiving depends on the transport alone *)

Lemma set_conn_in_twice (a b : list (list byte)) (w : world) :
  set_conn_in a (set_conn_in b w) = set_conn_in a w.
Proof. now destruct w. Qed.

Lemma conn_in_set_conn_in (a : list (list byte)) (w : world) :
  conn_in (set_conn_in a w) = a.
Proof. now destruct w. Qed.

Lemma reads_input_lift {A : Type} (x : result A) : reads_input (lift x).
Proof.
  intros w0 w r w0' Hin [= <- <-]. unfold lift. rewrite Hin.
  f_equal. now destruct w.
Qed.

Lemma reads_input_ret {A : Type} (a : A) : reads_input (ret a).
Proof. apply (reads_input_lift (Ok a)). Qed.

Lemma reads_input_bind {A B : Type} (m : M A) (k : A -> M B) :
  reads_input m -> (forall a, reads_input (k a)) -> reads_input (bind m k).
Proof.
  intros Hm Hk w0 w r w0' Hin. unfold bind.
  destruct (m w0) as [[a| |] w1] eqn:H1; rewrite (Hm _ _ _ _ Hin H1).
  - intros H2.
    rewrite (Hk a w1 (set_conn_in (conn_in w1) w) r w0'
               (eq_sym (conn_in_set_conn_in _ _)) H2).
    now rewrite set_conn_in_twice.
  - now intros [= <- <-].
  - now intros [= <- <-].
Qed.

Lemma reads_input_recv (n : N) : reads_input (recv n).
Proof.
  intros w0 w r w0' Hin. unfold recv. rewrite <- Hin.
  destruct (recv_from (conn_in w0) n) as [[got rest]|].
  - intros [= <- <-]. now rewrite conn_in_set_conn_in.
  - intros [= <- <-]. rewrite Hin. f_equal. now destruct w.
Qed.

Lemma reads_input_fuel {A : Type} (f : nat -> M A) :
  (forall fuel, reads_input (f fuel)) ->
  reads_input (fun w => f (pending_bytes w) w).
Proof.
  intros Hf w0 w r w0' Hin H0.
  replace (pending_bytes w) with (pending_bytes w0)
    by (unfold pending_bytes; now rewrite Hin).
  now apply (Hf _ w0).
Qed.

Lemma receive_length_reads_input (fuel : nat) (length : list byte) :
  reads_input (receive_length fuel length).
Proof.
  revert length. induction fuel as [|fuel IH]; intros length;
    cbn [receive_length]; destruct (len length <? 4);
    try apply reads_input_lift; try apply reads_input_ret.
  apply reads_input_bind; [apply reads_input_recv|intros chunk; apply IH].
Qed.

Lemma receive_data_reads_input (fuel : nat) (size : N) (data : text) :
  reads_input (receive_data fuel size data).
Proof.
  revert data. induction fuel as [|fuel IH]; intros data;
    cbn [receive_data]; destruct (len data <? size);
    try apply reads_input_lift; try apply reads_input_ret.
  apply reads_input_bind; [apply reads_input_recv|intros chunk].
  apply reads_input_bind; [apply reads_input_lift|intros s; apply IH].
Qed.

Lemma receive_message_reads_input `{Externals} (isJson : bool) :
  reads_input (receive_message isJson).
Proof.
  unfold receive_message.
  apply reads_input_bind;
    [apply (reads_input_fuel (fun fuel => receive_length fuel []));
     intros fuel; apply receive_length_reads_input|intros l].
  apply reads_input_bind; [apply reads_input_lift|intros size].
  apply reads_input_bind;
    [apply (reads_input_fuel (fun fuel => receive_data fuel size []));
     intros fuel; apply receive_data_reads_input|intros data].
  destruct isJson; [apply reads_input_lift|apply reads_input_ret].
Qed.

(** ** [put_instances] *)

(** The handler up to the test of [num_instances]: the header is recorded
    under the frame's name. *)
Lemma receive_instances_header `{Externals} (m h d : list (text * value))
    (name : text) (n : Z) (w : world) :
  dict_get (str "header") m = Some (VDict h) ->
  dict_get (str "frame_name") h = Some (VStr name) ->
  dict_get (str "num_instances") m = Some (VInt n) ->
  _local_env w !! str "headers" = Some (VDict d) ->
  receive_instances (VDict m) w
  = ((if (0 <? n)%Z then
        csv_data <- receive_message false ;;
        csv_data <- lift (as_str csv_data) ;;
        frame <- lift (read_csv csv_data) ;;
        set_variable (VStr name) (VFrame frame) ;;;
        debug <- lift (d <-? message_debug (VDict m) ;; eq_True d) ;;
        if debug then
          modify (fun w => set_sys_stdout (sys_stdout w ++ frame_info frame) w) ;;;
          print (str "None " ++ nl)
        else ret tt
      else ret tt) ;;;
     ack_command_ok)
      (set_local_env
         (<[str "headers" := VDict (dict_set name (VDict h) d)]> (_local_env w)) w).
Proof.
  intros Hh Hname Hn Hd. unfold receive_instances.
  unfold bind at 1. unfold lift at 1. rewrite (py_in_present _ _ _ Hh).
  unfold bind at 1. unfold lift at 1. rewrite (py_getitem_present _ _ _ Hh).
  unfold bind at 1. unfold lift at 1. rewrite (py_getitem_present _ _ _ Hname).
  unfold bind at 1. unfold get at 1.
  unfold bind at 1. unfold lift at 1. rewrite Hd.
  unfold bind at 1. unfold lift at 1. cbn [as_key and_then].
  unfold bind at 1. unfold set_variable at 1. cbn [as_key].
  unfold bind at 1. unfold lift at 1. unfold modify at 1.
  unfold bind at 1. unfold lift at 1. rewrite (py_getitem_present _ _ _ Hn).
  unfold bind at 1. unfold lift at 1. cbn [gt_0].
  reflexivity.
Qed.

Lemma receive_instances_stores `{Externals} (m h d : list (text * value))
    (name csv : text) (n : Z) (frame : DataFrame) (debug : bool)
    (w w2 : world) :
  dict_get (str "header") m = Some (VDict h) ->
  dict_get (str "frame_name") h = Some (VStr name) ->
  dict_get (str "num_instances") m = Some (VInt n) ->
  (0 < n)%Z ->
  (d <-? message_debug (VDict m) ;; eq_True d) = Ok debug ->
  _local_env w !! str "headers" = Some (VDict d) ->
  receive_message false w = (Ok (VStr csv), w2) ->
  read_csv csv = Ok frame ->
  exists w' ack,
    receive_instances (VDict m) w = (Ok tt, w') /\
    _local_env w'
    = <[name := VFrame frame]>
        (<[str "headers" := VDict (dict_set name (VDict h) d)]> (_local_env w)) /\
    _global_env w' = _global_env w /\
    conn_in w' = conn_in w2 /\
    json_frame (VDict [(str "response", VStr (str "ok"))]) = Ok ack /\
    conn_out w' = conn_out w ++ ack /\
    sys_stdout w'
    = sys_stdout w
      ++ (if debug then frame_info frame ++ str "None " ++ nl ++ nl else []).
Proof.
  intros Hh Hname Hn Hpos Hdebug Hd Hrecv Hcsv.
  rewrite (receive_instances_header m h d name n w Hh Hname Hn Hd).
  apply Z.ltb_lt in Hpos. rewrite Hpos.
  set (w1 := set_local_env _ w).
  assert (Hrecv1 : receive_message false w1
                   = (Ok (VStr csv), set_conn_in (conn_in w2) w1))
    by (apply (receive_message_reads_input false w w1); [now destruct w|exact Hrecv]).
  apply receive_message_reads_only in Hrecv. unfold reads_only in Hrecv.
  assert (Hack : exists ack,
             json_frame (VDict [(str "response", VStr (str "ok"))]) = Ok ack)
    by (eexists; vm_compute; reflexivity).
  destruct Hack as [ack Hack].
  unfold bind at 1. unfold bind at 1. rewrite Hrecv1.
  unfold bind at 1. unfold lift at 1. cbn [as_str].
  unfold bind at 1. unfold lift at 1. rewrite Hcsv.
  unfold bind at 1. unfold set_variable at 1. cbn [as_key].
  unfold bind at 1. unfold lift at 1. unfold modify at 1.
  unfold bind at 1. unfold lift at 1. rewrite Hdebug.
  rewrite ack_command_ok_doc.
  destruct debug.
  - unfold bind at 1. unfold modify at 1. unfold print, modify.
    rewrite (send_response_json _ ack _ Hack).
    eexists _, ack. split; [reflexivity|].
    subst w1.
    split; [now destruct w|]. split; [now destruct w|].
    split; [now destruct w|]. split; [exact Hack|].
    split; [now destruct w|].
    destruct w; cbn. now rewrite <- !app_assoc.
  - unfold ret at 1.
    rewrite (send_response_json _ ack _ Hack).
    eexists _, ack. split; [reflexivity|].
    subst w1.
    split; [now destruct w|]. split; [now destruct w|].
    split; [now destruct w|]. split; [exact Hack|].
    split; [now destruct w|].
    destruct w; cbn. now rewrite app_nil_r.
Qed.

(** With a positive [num_instances] the handler reads one raw frame and
    hands its text to [read_csv]. When that gives a table, the header is
    recorded under the frame's name in [headers], then the table is bound to
    the name, and the acknowledgement is the one frame written; the two
    bindings are the only change to the Environment. *)
Theorem put_instances_stores_table `{Externals} (m h d : list (text * value))
    (name csv : text) (n : Z) (frame : DataFrame) (debug : bool)
    (w w2 : world) :
  dict_get (str "header") m = Some (VDict h) ->
  dict_get (str "frame_name") h = Some (VStr name) ->
  dict_get (str "num_instances") m = Some (VInt n) ->
  (0 < n)%Z ->
  (d <-? message_debug (VDict m) ;; eq_True d) = Ok debug ->
  _local_env w !! str "headers" = Some (VDict d) ->
  receive_message false w = (Ok (VStr csv), w2) ->
  read_csv csv = Ok frame ->
  exists w' ack,
    receive_instances (VDict m) w = (Ok tt, w') /\
    _local_env w'
    = <[name := VFrame frame]>
        (<[str "headers" := VDict (dict_set name (VDict h) d)]> (_local_env w)) /\
    _global_env w' = _global_env w /\
    conn_in w' = conn_in w2 /\
    json_frame (VDict [(str "response", VStr (str "ok"))]) = Ok ack /\
    conn_out w' = conn_out w ++ ack /\
    sys_stdout w'
    = sys_stdout w
      ++ (if debug then frame_info frame ++ str "None " ++ nl ++ nl else []).
Proof. apply receive_instances_stores. Qed.

(** When [read_csv] rejects the text, its exception leaves the handler: the
    header stays recorded, the name keeps whatever it was bound to, the
    frame has been consumed, and nothing is written: the client gets no
    reply. *)
Theorem put_instances_unparsable `{Externals} (m h d : list (text * value))
    (name csv : text) (n : Z) (e : exn) (w w2 : world) :
  dict_get (str "header") m = Some (VDict h) ->
  dict_get (str "frame_name") h = Some (VStr name) ->
  dict_get (str "num_instances") m = Some (VInt n) ->
  (0 < n)%Z ->
  _local_env w !! str "headers" = Some (VDict d) ->
  receive_message false w = (Ok (VStr csv), w2) ->
  read_csv csv = Raise e ->
  receive_instances (VDict m) w
  = (Raise e,
     set_local_env
       (<[str "headers" := VDict (dict_set name (VDict h) d)]> (_local_env w)) w2).
Proof.
  intros Hh Hname Hn Hpos Hd Hrecv Hcsv.
  rewrite (receive_instances_header m h d name n w Hh Hname Hn Hd).
  apply Z.ltb_lt in Hpos. rewrite Hpos.
  set (w1 := set_local_env _ w).
  assert (Hrecv1 : receive_message false w1
                   = (Ok (VStr csv), set_conn_in (conn_in w2) w1))
    by (apply (receive_message_reads_input false w w1); [now destruct w|exact Hrecv]).
  apply receive_message_reads_only in Hrecv. unfold reads_only in Hrecv.
  unfold bind at 1. unfold bind at 1. rewrite Hrecv1.
  unfold bind at 1. unfold lift at 1. cbn [as_str].
  unfold bind at 1. unfold lift at 1. rewrite Hcsv.
  f_equal. subst w1. rewrite Hrecv at 2. now destruct w.
Qed.

(** With a [num_instances] that is not positive the handler records the
    header and acknowledges: it reads nothing from the transport, and the
    name keeps the table it was bound to, if any. *)
Theorem put_instances_header_only `{Externals} (m h d : list (text * value))
    (name : text) (n : Z) (w : world) :
  dict_get (str "header") m = Some (VDict h) ->
  dict_get (str "frame_name") h = Some (VStr name) ->
  dict_get (str "num_instances") m = Some (VInt n) ->
  (n <= 0)%Z ->
  _local_env w !! str "headers" = Some (VDict d) ->
  name <> str "headers" ->
  exists w' ack,
    receive_instances (VDict m) w = (Ok tt, w') /\
    _local_env w' !! str "headers" = Some (VDict (dict_set name (VDict h) d)) /\
    _local_env w' !! name = _local_env w !! name /\
    conn_in w' = conn_in w /\
    json_frame (VDict [(str "response", VStr (str "ok"))]) = Ok ack /\
    conn_out w' = conn_out w ++ ack.
Proof.
  intros Hh Hname Hn Hpos Hd Hne.
  rewrite (receive_instances_header m h d name n w Hh Hname Hn Hd).
  replace (0 <? n)%Z with false by (symmetry; apply Z.ltb_ge; exact Hpos).
  assert (Hack : exists ack,
             json_frame (VDict [(str "response", VStr (str "ok"))]) = Ok ack)
    by (eexists; vm_compute; reflexivity).
  destruct Hack as [ack Hack].
  unfold bind at 1. unfold ret at 1. rewrite ack_command_ok_doc.
  rewrite (send_response_json _ ack _ Hack).
  eexists _, ack. split; [reflexivity|].
  match goal with |- _local_env ?w1 !! _ = _ /\ _ =>
    replace (_local_env w1)
      with (<[str "headers" := VDict (dict_set name (VDict h) d)]> (_local_env w))
      by now destruct w
  end.
  split; [apply lookup_insert_eq|].
  split; [apply lookup_insert_ne; congruence|].
  split; [now destruct w|]. split; [exact Hack|]. now destruct w.
Qed.

(** ** [get_instances] *)

(** The handler once the name is known to hold a table. *)
Lemma send_instances_table `{Externals} (m : list (text * value))
    (name : text) (f : DataFrame) (w : world) :
  dict_get (str "frame_name") m = Some (VStr name) ->
  _local_env w !! name = Some (VFrame f) ->
  send_instances (VDict m) w
  = (ack_command_ok ;;;
     header <- lift (instances_to_header_message (VStr name) f) ;;
     debug <- lift (d <-? message_debug (VDict m) ;; eq_True d) ;;
     (if debug then
        print (py_str (VDict [(str "response", VStr (str "instances_header"));
                              (str "num_instances", VInt (Z.of_N (index_len f)));
                              (str "header", header)]))
      else ret tt) ;;;
     send_response (VDict [(str "response", VStr (str "instances_header"));
                           (str "num_instances", VInt (Z.of_N (index_len f)));
                           (str "header", header)]) true ;;;
     send_response (VStr (to_csv f)) false) w.
Proof.
  intros Hm Hw. unfold send_instances.
  unfold bind at 1. unfold lift at 1. rewrite (py_getitem_present _ _ _ Hm).
  unfold bind at 1. rewrite get_variable_text, Hw. cbn [is_DataFrame negb].
  unfold bind, lift, ret.
  destruct (ack_command_ok w) as [[[]| |] w1]; reflexivity.
Qed.

Lemma send_instances_frames `{Externals} (m : list (text * value))
    (name : text) (f : DataFrame) (header : value) (debug : bool)
    (b2 b3 : list byte) (w : world) :
  dict_get (str "frame_name") m = Some (VStr name) ->
  _local_env w !! name = Some (VFrame f) ->
  (d <-? message_debug (VDict m) ;; eq_True d) = Ok debug ->
  instances_to_header_message (VStr name) f = Ok header ->
  json_frame (VDict [(str "response", VStr (str "instances_header"));
                     (str "num_instances", VInt (Z.of_N (index_len f)));
                     (str "header", header)]) = Ok b2 ->
  text_frame (to_csv f) = Ok b3 ->
  exists w' ack,
    send_instances (VDict m) w = (Ok tt, w') /\
    json_frame (VDict [(str "response", VStr (str "ok"))]) = Ok ack /\
    conn_out w' = conn_out w ++ ack ++ b2 ++ b3 /\
    same_env w w' /\ conn_in w' = conn_in w.
Proof.
  intros Hm Hw Hdebug Hheader Hb2 Hb3.
  rewrite (send_instances_table m name f w Hm Hw).
  assert (Hack : exists ack,
             json_frame (VDict [(str "response", VStr (str "ok"))]) = Ok ack)
    by (eexists; vm_compute; reflexivity).
  destruct Hack as [ack Hack].
  unfold bind at 1. rewrite ack_command_ok_doc, (send_response_json _ ack _ Hack).
  unfold bind at 1. unfold lift at 1. rewrite Hheader.
  unfold bind at 1. unfold lift at 1. rewrite Hdebug.
  destruct debug.
  - unfold bind at 1. unfold print, modify.
    unfold bind at 1. rewrite (send_response_json _ b2 _ Hb2).
    rewrite (send_response_text _ b3 _ Hb3).
    eexists _, ack. split; [reflexivity|]. split; [exact Hack|].
    split; [destruct w; cbn; now rewrite <- !app_assoc|].
    split; now destruct w.
  - unfold bind at 1. unfold ret at 1.
    unfold bind at 1. rewrite (send_response_json _ b2 _ Hb2).
    rewrite (send_response_text _ b3 _ Hb3).
    eexists _, ack. split; [reflexivity|]. split; [exact Hack|].
    split; [destruct w; cbn; now rewrite <- !app_assoc|].
    split; now destruct w.
Qed.

(** For a name bound to a table whose header can be built, the handler
    writes three frames and nothing else: the acknowledgement, the
    [instances_header] document with the row count and the header, and the
    raw frame of the text [to_csv] gives. *)
Theorem get_instances_sends_table `{Externals} (m : list (text * value))
    (name : text) (f : DataFrame) (header : value) (debug : bool)
    (b2 b3 : list byte) (w : world) :
  dict_get (str "frame_name") m = Some (VStr name) ->
  _local_env w !! name = Some (VFrame f) ->
  (d <-? message_debug (VDict m) ;; eq_True d) = Ok debug ->
  instances_to_header_message (VStr name) f = Ok header ->
  json_frame (VDict [(str "response", VStr (str "instances_header"));
                     (str "num_instances", VInt (Z.of_N (index_len f)));
                     (str "header", header)]) = Ok b2 ->
  text_frame (to_csv f) = Ok b3 ->
  exists w' ack,
    send_instances (VDict m) w = (Ok tt, w') /\
    json_frame (VDict [(str "response", VStr (str "ok"))]) = Ok ack /\
    conn_out w' = conn_out w ++ ack ++ b2 ++ b3 /\
    same_env w w' /\ conn_in w' = conn_in w.
Proof. apply send_instances_frames. Qed.

(** The table a [put_instances] stored is the table the next
    [get_instances] of that name sends: its header is built from the table
    as [read_csv] gave it, not from the header the client sent, and the data
    frame is what [to_csv] makes of it. The transport then holds the two
    acknowledgements, the header document and the data, in that order. *)
Theorem put_then_get_instances `{Externals}
    (m_put h d m_get : list (text * value)) (name csv : text) (n : Z)
    (frame : DataFrame) (debug debug' : bool) (header : value)
    (b2 b3 : list byte) (w w1 w2 : world) :
  dict_get (str "header") m_put = Some (VDict h) ->
  dict_get (str "frame_name") h = Some (VStr name) ->
  dict_get (str "num_instances") m_put = Some (VInt n) ->
  (0 < n)%Z ->
  (d <-? message_debug (VDict m_put) ;; eq_True d) = Ok debug ->
  _local_env w !! str "headers" = Some (VDict d) ->
  receive_message false w = (Ok (VStr csv), w2) ->
  read_csv csv = Ok frame ->
  receive_instances (VDict m_put) w = (Ok tt, w1) ->
  dict_get (str "frame_name") m_get = Some (VStr name) ->
  (d <-? message_debug (VDict m_get) ;; eq_True d) = Ok debug' ->
  instances_to_header_message (VStr name) frame = Ok header ->
  json_frame (VDict [(str "response", VStr (str "instances_header"));
                     (str "num_instances", VInt (Z.of_N (index_len frame)));
                     (str "header", header)]) = Ok b2 ->
  text_frame (to_csv frame) = Ok b3 ->
  exists w3 ack,
    send_instances (VDict m_get) w1 = (Ok tt, w3) /\
    json_frame (VDict [(str "response", VStr (str "ok"))]) = Ok ack /\
    conn_out w3 = conn_out w ++ ack ++ ack ++ b2 ++ b3.
Proof.
  intros Hh Hname Hn Hpos Hdebug Hd Hrecv Hcsv Hput Hm Hdebug' Hheader Hb2 Hb3.
  destruct (receive_instances_stores m_put h d name csv n frame debug w w2
              Hh Hname Hn Hpos Hdebug Hd Hrecv Hcsv)
    as (w' & ack & Hput' & Henv & _ & _ & Hack & Hout & _).
  rewrite Hput in Hput'. injection Hput' as <-.
  assert (Hbound : _local_env w1 !! name = Some (VFrame frame))
    by (rewrite Henv; apply lookup_insert_eq).
  destruct (send_instances_frames m_get name frame header debug' b2 b3 w1
              Hm Hbound Hdebug' Hheader Hb2 Hb3)
    as (w3 & ack' & Hget & Hack' & Hout' & _).
  rewrite Hack in Hack'. injection Hack' as <-.
  exists w3, ack. split; [exact Hget|]. split; [exact Hack|].
  now rewrite Hout', Hout, <- app_assoc.
Qed.

(** A header that [json.dumps] does not serialize, or that cannot be built:
    the acknowledgement has gone out, and the exception leaves the handler
    with no second frame written. *)
Lemma send_instances_header_not_json `{Externals} (m : list (text * value))
    (name : text) (f : DataFrame) (header : value) (ack : list byte)
    (w : world) :
  dict_get (str "frame_name") m = Some (VStr name) ->
  _local_env w !! name = Some (VFrame f) ->
  (d <-? message_debug (VDict m) ;; eq_True d) = Ok false ->
  instances_to_header_message (VStr name) f = Ok header ->
  is_json header = false ->
  json_frame (VDict [(str "response", VStr (str "ok"))]) = Ok ack ->
  send_instances (VDict m) w
  = (Raise TypeError, set_conn_out (conn_out w ++ ack) w).
Proof.
  intros Hm Hw Hdebug Hheader Hj Hack.
  rewrite (send_instances_table m name f w Hm Hw).
  unfold bind at 1. rewrite ack_command_ok_doc, (send_response_json _ ack _ Hack).
  unfold bind at 1. unfold lift at 1. rewrite Hheader.
  unfold bind at 1. unfold lift at 1. rewrite Hdebug.
  unfold bind at 1. unfold ret at 1.
  unfold bind at 1. rewrite send_response_not_json; [reflexivity|].
  cbn [is_json forallb snd]. now rewrite Hj.
Qed.

Lemma send_instances_no_header `{Externals} (m : list (text * value))
    (name : text) (f : DataFrame) (e : exn) (ack : list byte) (w : world) :
  dict_get (str "frame_name") m = Some (VStr name) ->
  _local_env w !! name = Some (VFrame f) ->
  instances_to_header_message (VStr name) f = Raise e ->
  json_frame (VDict [(str "response", VStr (str "ok"))]) = Ok ack ->
  send_instances (VDict m) w = (Raise e, set_conn_out (conn_out w ++ ack) w).
Proof.
  intros Hm Hw Hheader Hack.
  rewrite (send_instances_table m name f w Hm Hw).
  unfold bind at 1. rewrite ack_command_ok_doc, (send_response_json _ ack _ Hack).
  unfold bind at 1. unfold lift at 1. now rewrite Hheader.
Qed.

(** ** The header of a table *)

Lemma header_of_frame (frame_name : value) (frame : DataFrame) :
  NoDup (map col_name (columns frame)) ->
  exists attributes,
    instances_to_header_message frame_name frame
    = Ok (VDict [(str "relation_name", frame_name);
                 (str "attributes", VList attributes)]) /\
    Forall2 (fun c a => attribute_of frame (index_len frame) (col_name c) = Ok a)
      (columns frame) attributes.
Proof.
  intros Hnd.
  assert (Hall : forall c', In c' (columns frame) ->
                   frame_column frame (col_name c') = Ok c')
    by (intros c' Hc'; now apply frame_column_label).
  destruct (header_attributes_each frame (index_len frame) (columns frame) Hall)
    as (attributes & Hattrs & Hall2).
  exists attributes. split; [|exact Hall2].
  unfold instances_to_header_message. now rewrite Hattrs.
Qed.

Lemma header_lookup (frame : DataFrame) (attributes : list value) (i : nat)
    (c : column) :
  NoDup (map col_name (columns frame)) ->
  Forall2 (fun c a => attribute_of frame (index_len frame) (col_name c) = Ok a)
    (columns frame) attributes ->
  columns frame !! i = Some c ->
  exists a, attributes !! i = Some a /\
    frame_column frame (col_name c) = Ok c /\
    attribute_of frame (index_len frame) (col_name c) = Ok a.
Proof.
  intros Hnd Hall2 Hi.
  destruct (Forall2_lookup_l _ _ _ _ _ Hall2 Hi) as (a & Ha & Hattr).
  exists a. split; [exact Ha|]. split; [|exact Hattr].
  apply frame_column_label; [exact Hnd|].
  apply list_elem_of_In. eapply list_elem_of_lookup_2. exact Hi.
Qed.

Lemma forallb_is_json_lookup (l : list value) (i : nat) (a : value) :
  l !! i = Some a -> is_json a = false -> forallb is_json l = false.
Proof.
  intros Hi Ha. destruct (forallb is_json l) eqn:Hall; [|reflexivity].
  rewrite forallb_forall in Hall.
  rewrite (Hall a) in Ha; [discriminate|].
  apply list_elem_of_In. eapply list_elem_of_lookup_2. exact Hi.
Qed.

(** In the header of a table whose labels are distinct there is one
    attribute for each column, in the order of the columns; a column whose
    dtype is neither [object] nor [bool] is DATE when the name of the dtype
    starts with [datetime] and NUMERIC otherwise, and its attribute holds
    the name and the type only. *)
Theorem header_numeric_and_date_columns (frame_name : value)
    (frame : DataFrame) (i : nat) (c : column) :
  NoDup (map col_name (columns frame)) ->
  columns frame !! i = Some c ->
  col_dtype c <> str "object" ->
  col_dtype c <> str "bool" ->
  exists attributes,
    instances_to_header_message frame_name frame
    = Ok (VDict [(str "relation_name", frame_name);
                 (str "attributes", VList attributes)]) /\
    length attributes = length (columns frame) /\
    attributes !! i
    = Some (VDict [(str "name", VStr (col_name c));
                   (str "type",
                    VStr (if is_prefix (str "datetime") (col_dtype c)
                          then str "DATE" else str "NUMERIC"))]).
Proof.
  intros Hnd Hi Hobj Hbool.
  destruct (header_of_frame frame_name frame Hnd) as (attributes & Hh & Hall2).
  exists attributes. split; [exact Hh|].
  split; [symmetry; eapply Forall2_length, Hall2|].
  destruct (header_lookup frame attributes i c Hnd Hall2 Hi)
    as (a & Ha & Hc & Hattr).
  rewrite Ha. f_equal.
  unfold attribute_of in Hattr. rewrite Hc in Hattr. cbn [and_then] in Hattr.
  rewrite (text_eqb_ne _ _ Hobj), (text_eqb_ne _ _ Hbool) in Hattr.
  cbn [orb] in Hattr.
  destruct (is_prefix (str "datetime") (col_dtype c));
    now injection Hattr as <-.
Qed.

(** The number [instances_to_header_message] compares with half the row
    count, for a column of dtype [object] or [bool]: the number of values it
    would list, and one more when a value of the column is missing. The
    attribute it builds is NOMINAL exactly when twice that number is below
    the row count, and the [values] it then lists are as many as the
    distinct values that are not missing. *)
Theorem header_nominal_counts_missing (frame_name : value)
    (frame : DataFrame) (i : nat) (c : column) :
  NoDup (map col_name (columns frame)) ->
  columns frame !! i = Some c ->
  col_dtype c = str "object" \/ col_dtype c = str "bool" ->
  exists attributes attribute,
    instances_to_header_message frame_name frame
    = Ok (VDict [(str "relation_name", frame_name);
                 (str "attributes", VList attributes)]) /\
    attributes !! i = Some (VDict attribute) /\
    (dict_get (str "type") attribute = Some (VStr (str "NOMINAL")) <->
     2 * (len (non_missing (unique (col_values c)))
          + (if existsb is_nan (col_values c) then 1 else 0))
     < index_len frame) /\
    (dict_get (str "type") attribute = Some (VStr (str "NOMINAL")) ->
     exists values,
       dict_get (str "values") attribute = Some (VList values) /\
       len values = len (non_missing (unique (col_values c)))).
Proof.
  intros Hnd Hi Htype.
  destruct (header_of_frame frame_name frame Hnd) as (attributes & Hh & Hall2).
  destruct (header_lookup frame attributes i c Hnd Hall2 Hi)
    as (a & Ha & Hc & Hattr).
  unfold attribute_of in Hattr. rewrite Hc in Hattr. cbn [and_then] in Hattr.
  replace (text_eqb (col_dtype c) (str "object")
           || text_eqb (col_dtype c) (str "bool")) with true in Hattr
    by (destruct Htype as [-> | ->]; reflexivity).
  rewrite <- (unique_count (col_values c)).
  destruct (N.ltb_spec (2 * len (unique (col_values c))) (index_len frame))
    as [Hlt|Hge]; injection Hattr as <-.
  - eexists attributes, _. split; [exact Hh|]. split; [exact Ha|]. split.
    + split; [intros _; exact Hlt|intros _; reflexivity].
    + intros _. eexists. split; [reflexivity|]. apply len_map.
  - eexists attributes, _. split; [exact Hh|]. split; [exact Ha|]. split.
    + split; [intros Ht; vm_compute in Ht; discriminate Ht|intros Hlt; lia].
    + intros Ht. vm_compute in Ht. discriminate Ht.
Qed.

(** What [get_instances] does with a [bool] column that comes out NOMINAL
    (every [bool] column of five rows or more does: it has two distinct
    values at most): the values listed are numpy booleans, which
    [json.dumps] refuses. The acknowledgement is written, then the handler
    raises [TypeError]: neither the header nor the data follow. *)
Theorem get_instances_nominal_bool `{Externals} (m : list (text * value))
    (name : text) (f : DataFrame) (i : nat) (c : column) (w : world) :
  dict_get (str "frame_name") m = Some (VStr name) ->
  _local_env w !! name = Some (VFrame f) ->
  (d <-? message_debug (VDict m) ;; eq_True d) = Ok false ->
  NoDup (map col_name (columns f)) ->
  columns f !! i = Some c ->
  col_dtype c = str "bool" ->
  col_values c <> [] ->
  Forall (fun x => is_bool x = true) (col_values c) ->
  2 * len (unique (col_values c)) < index_len f ->
  exists ack,
    json_frame (VDict [(str "response", VStr (str "ok"))]) = Ok ack /\
    send_instances (VDict m) w
    = (Raise TypeError, set_conn_out (conn_out w ++ ack) w).
Proof.
  intros Hm Hw Hdebug Hnd Hi Hdtype Hne Hbools Hfew.
  assert (Hack : exists ack,
             json_frame (VDict [(str "response", VStr (str "ok"))]) = Ok ack)
    by (eexists; vm_compute; reflexivity).
  destruct Hack as [ack Hack]. exists ack. split; [exact Hack|].
  destruct (header_of_frame (VStr name) f Hnd) as (attributes & Hh & Hall2).
  apply (send_instances_header_not_json m name f _ ack w Hm Hw Hdebug Hh);
    [|exact Hack].
  destruct (header_lookup f attributes i c Hnd Hall2 Hi)
    as (a & Ha & Hc & Hattr).
  unfold attribute_of in Hattr. rewrite Hc in Hattr. cbn [and_then] in Hattr.
  rewrite Hdtype in Hattr.
  change (text_eqb (str "bool") (str "object") || text_eqb (str "bool") (str "bool"))
    with true in Hattr.
  apply N.ltb_lt in Hfew. rewrite Hfew in Hattr.
  assert (Hvalues : is_json
            (VList (map (cell_value (str "bool"))
                      (List.filter (fun val => negb (is_nan val))
                         (unique (col_values c))))) = false).
  { destruct (col_values c) as [|x r]; [congruence|].
    apply Forall_cons in Hbools as [Hx _].
    destruct x as [|b| |]; try discriminate. reflexivity. }
  assert (Ha_json : is_json a = false).
  { injection Hattr as <-.
    eapply (is_json_dict_get (str "values")); [reflexivity|exact Hvalues]. }
  cbn [is_json forallb snd].
  rewrite (forallb_is_json_lookup attributes i a Ha Ha_json).
  now destruct (is_json (VStr name)).
Qed.

(** ** A table in which two columns carry one label *)

Lemma filter_label_head (cols : list column) (a : text) (c : column) :
  List.filter (fun c' => text_eqb (col_name c') a) cols = [c] ->
  col_name c = a /\ In c cols.
Proof.
  intros Hf.
  assert (Hin : In c (List.filter (fun c' => text_eqb (col_name c') a) cols))
    by (rewrite Hf; now left).
  apply filter_In in Hin as [Hin Heq]. split; [|exact Hin].
  unfold text_eqb in Heq. now apply bool_decide_eq_true_1 in Heq.
Qed.

Lemma frame_column_ends (frame : DataFrame) (a : text) :
  In a (map col_name (columns frame)) ->
  (exists c, frame_column frame a = Ok c /\
             List.filter (fun c' => text_eqb (col_name c') a) (columns frame) = [c])
  \/ frame_column frame a = Raise ValueError.
Proof.
  intros Hin. unfold frame_column.
  destruct (List.filter _ (columns frame)) as [|c [|c' l]] eqn:Hf; eauto.
  apply in_map_iff in Hin as (c & <- & Hc).
  assert (Hin : In c (List.filter (fun c' => text_eqb (col_name c') (col_name c))
                        (columns frame)))
    by (apply filter_In; split; [exact Hc|apply text_eqb_refl]).
  rewrite Hf in Hin. destruct Hin.
Qed.

Lemma attribute_of_ends (frame : DataFrame) (n : N) (a : text) :
  In a (map col_name (columns frame)) ->
  (exists c x, attribute_of frame n a = Ok x /\
               List.filter (fun c' => text_eqb (col_name c') a) (columns frame) = [c])
  \/ attribute_of frame n a = Raise ValueError.
Proof.
  intros Hin. destruct (frame_column_ends frame a Hin) as [(c & Hc & Hf)|Hc].
  - left. exists c.
    destruct (filter_label_head _ _ _ Hf) as [<- _].
    destruct (attribute_of_total frame n c Hc) as [x Hx]. eauto.
  - right. unfold attribute_of. now rewrite Hc.
Qed.

Lemma header_attributes_ends (frame : DataFrame) (n : N) (names : list text) :
  (forall a, In a names -> In a (map col_name (columns frame))) ->
  (exists attributes, header_attributes frame n names = Ok attributes /\
     forall a, In a names ->
       exists c, List.filter (fun c' => text_eqb (col_name c') a) (columns frame) = [c])
  \/ header_attributes frame n names = Raise ValueError.
Proof.
  induction names as [|a names IH]; intros Hsub; cbn [header_attributes].
  - left. exists []. split; [reflexivity|intros a []].
  - destruct (attribute_of_ends frame n a (Hsub a (or_introl eq_refl)))
      as [(c & x & -> & Hf)| ->]; [|now right].
    cbn [and_then].
    destruct IH as [(attributes & -> & Hall)| ->];
      [intros b Hb; apply Hsub; now right| |now right].
    left. eexists. split; [reflexivity|].
    intros b [<- | Hb]; eauto.
Qed.

Lemma single_columns_distinct (cols : list column) :
  (forall c, In c cols ->
     exists c', List.filter (fun x => text_eqb (col_name x) (col_name c)) cols = [c']) ->
  NoDup (map col_name cols).
Proof.
  induction cols as [|c cols IH]; intros Hall; cbn [map]; [constructor|].
  assert (Hhead : List.filter (fun x => text_eqb (col_name x) (col_name c)) cols = []).
  { destruct (Hall c (or_introl eq_refl)) as [c' Hc'].
    cbn [List.filter] in Hc'. rewrite text_eqb_refl in Hc'.
    now injection Hc' as _ Hc'. }
  assert (Hfresh : forall c2, In c2 cols -> col_name c2 <> col_name c).
  { intros c2 Hc2 Heq.
    assert (Hin : In c2 (List.filter (fun x => text_eqb (col_name x) (col_name c)) cols))
      by (apply filter_In; split; [exact Hc2|rewrite Heq; apply text_eqb_refl]).
    rewrite Hhead in Hin. destruct Hin. }
  apply NoDup_cons. split.
  - intros Hin%list_elem_of_In. apply in_map_iff in Hin as (c2 & Heq & Hc2).
    now apply (Hfresh c2).
  - apply IH. intros c2 Hc2.
    destruct (Hall c2 (or_intror Hc2)) as [c' Hc'].
    cbn [List.filter] in Hc'.
    rewrite (text_eqb_ne (col_name c) (col_name c2)) in Hc'
      by (intros Heq; now apply (Hfresh c2)).
    eauto.
Qed.

Lemma header_duplicate_labels (frame_name : value) (frame : DataFrame) :
  ~ NoDup (map col_name (columns frame)) ->
  instances_to_header_message frame_name frame = Raise ValueError.
Proof.
  intros Hdup. unfold instances_to_header_message.
  destruct (header_attributes_ends frame (index_len frame)
              (map col_name (columns frame)) (fun a Ha => Ha))
    as [(attributes & _ & Hall)| ->]; [|reflexivity].
  destruct Hdup. apply single_columns_distinct.
  intros c Hc. apply Hall. now apply in_map.
Qed.

(** For a table in which two columns carry the same label no header is
    built: the lookup by label gives a table where the loop expects a
    column, and the comparison of its dtype has no truth value. In
    [get_instances] the acknowledgement has been written by then; the
    handler raises [ValueError] and sends neither header nor data. *)
Theorem get_instances_duplicate_labels `{Externals} (m : list (text * value))
    (name : text) (f : DataFrame) (w : world) :
  dict_get (str "frame_name") m = Some (VStr name) ->
  _local_env w !! name = Some (VFrame f) ->
  ~ NoDup (map col_name (columns f)) ->
  instances_to_header_message (VStr name) f = Raise ValueError /\
  exists ack,
    json_frame (VDict [(str "response", VStr (str "ok"))]) = Ok ack /\
    send_instances (VDict m) w
    = (Raise ValueError, set_conn_out (conn_out w ++ ack) w).
Proof.
  intros Hm Hw Hdup.
  pose proof (header_duplicate_labels (VStr name) f Hdup) as Hh.
  split; [exact Hh|].
  assert (Hack : exists ack,
             json_frame (VDict [(str "response", VStr (str "ok"))]) = Ok ack)
    by (eexists; vm_compute; reflexivity).
  destruct Hack as [ack Hack]. exists ack. split; [exact Hack|].
  now apply (send_instances_no_header m name f ValueError ack w).
Qed.

(** * The further statements on concrete inputs *)

Lemma dispatch_unknown_command_witness :
  dispatch (E := Demo.externals) (VDict Tables.reboot) (Demo.started [])
  = (Ok tt, Demo.started []).
Proof.
  apply (dispatch_unknown_command (H := Demo.externals) Tables.reboot
           (str "reboot") (Demo.started [])).
  - reflexivity.
  - intros Hin. vm_compute in Hin. intuition discriminate.
Defined.

Lemma runServer_handshake_then_close_witness :
  fst (runServer (E := Demo.externals)
         (Tables.fresh (Demo.incoming Demo.shutdown))) <> Ok tt /\
  (exists rest,
     conn_out (snd (runServer (E := Demo.externals)
                      (Tables.fresh (Demo.incoming Demo.shutdown))))
     = conn_out (Tables.fresh (Demo.incoming Demo.shutdown))
       ++ Tables.bytes_of
            (json_frame (VDict [(str "response", VStr (str "pid_response"));
                                (str "pid", VInt 4242)]))
       ++ rest) /\
  (forall e,
     fst (runServer (E := Demo.externals)
            (Tables.fresh (Demo.incoming Demo.shutdown))) = Raise e ->
     conn_closed (snd (runServer (E := Demo.externals)
                         (Tables.fresh (Demo.incoming Demo.shutdown)))) = true) /\
  (fst (runServer (E := Demo.externals)
          (Tables.fresh (Demo.incoming Demo.shutdown))) = Blocked ->
   conn_closed (snd (runServer (E := Demo.externals)
                       (Tables.fresh (Demo.incoming Demo.shutdown))))
   = conn_closed (Tables.fresh (Demo.incoming Demo.shutdown))).
Proof.
  apply (runServer_handshake_then_close (H := Demo.externals)
           (Tables.fresh (Demo.incoming Demo.shutdown))).
  - vm_compute. reflexivity.
  - apply surjective_pairing.
Defined.

Lemma get_debug_buffer_drains_witness :
  send_debug_buffer (set_sys_stdout (str "hi" ++ nl) (Demo.started []))
  = send_response
      (VDict [(str "response", VStr (str "ok"));
              (str "std_out",
               VStr (sys_stdout (set_sys_stdout (str "hi" ++ nl) (Demo.started []))));
              (str "std_err",
               VStr (sys_stderr (set_sys_stdout (str "hi" ++ nl) (Demo.started []))))])
      true
      (set_sys_stderr []
         (set_sys_stdout [] (set_sys_stdout (str "hi" ++ nl) (Demo.started [])))) /\
  sys_stdout (snd (send_debug_buffer
                     (set_sys_stdout (str "hi" ++ nl) (Demo.started [])))) = [] /\
  sys_stderr (snd (send_debug_buffer
                     (set_sys_stdout (str "hi" ++ nl) (Demo.started [])))) = [] /\
  same_env (set_sys_stdout (str "hi" ++ nl) (Demo.started []))
    (snd (send_debug_buffer (set_sys_stdout (str "hi" ++ nl) (Demo.started [])))) /\
  send_debug_buffer
    (snd (send_debug_buffer (set_sys_stdout (str "hi" ++ nl) (Demo.started []))))
  = send_response
      (VDict [(str "response", VStr (str "ok"));
              (str "std_out", VStr []);
              (str "std_err", VStr [])]) true
      (snd (send_debug_buffer (set_sys_stdout (str "hi" ++ nl) (Demo.started [])))).
Proof.
  apply (get_debug_buffer_drains
           (set_sys_stdout (str "hi" ++ nl) (Demo.started []))
           (snd (send_debug_buffer
                   (set_sys_stdout (str "hi" ++ nl) (Demo.started []))))
           (fst (send_debug_buffer
                   (set_sys_stdout (str "hi" ++ nl) (Demo.started []))))).
  apply surjective_pairing.
Defined.

Lemma get_variable_value_errors_witness :
  send_variable_value (E := Demo.externals) (VDict Demo.get_x) (Demo.started [])
  = ack_command_err (str "x" ++ str " does not exist!") (Demo.started []).
Proof.
  apply (proj2 (proj2 (proj2
           (get_variable_value_errors (H := Demo.externals) Demo.get_x
              (Demo.started []))))
           (str "pickled") (str "x")).
  - reflexivity.
  - vm_compute. tauto.
  - reflexivity.
  - left. reflexivity.
Defined.

Lemma get_variable_value_json_witness :
  send_variable_value (E := Tables.externals) (VDict Tables.get_grades_json)
    (Tables.loaded Demo.gappy)
  = send_response
      (VDict [(str "response", VStr (str "ok"));
              (str "variable_name", VStr (str "grades"));
              (str "variable_encoding", VStr (str "json"));
              (str "variable_value", VFrame Demo.gappy)]) true
      (Tables.loaded Demo.gappy) /\
  (is_json (VFrame Demo.gappy) = false ->
   send_variable_value (E := Tables.externals) (VDict Tables.get_grades_json)
     (Tables.loaded Demo.gappy)
   = (Raise TypeError, Tables.loaded Demo.gappy)).
Proof.
  apply (get_variable_value_json (H := Tables.externals) Tables.get_grades_json
           (str "grades") (VFrame Demo.gappy) (Tables.loaded Demo.gappy)).
  - reflexivity.
  - reflexivity.
  - reflexivity.
  - reflexivity.
  - discriminate.
Defined.

Lemma set_variable_value_undecodable_witness :
  receive_variable_value (E := Demo.externals) (VDict (Demo.set_x (str "A")))
    (Demo.started [])
  = (Raise binascii_Error, Demo.started []).
Proof.
  apply (set_variable_value_undecodable (H := Demo.externals)
           (Demo.set_x (str "A")) (VStr (str "x")) (VStr (str "A"))
           binascii_Error (Demo.started [])).
  - reflexivity.
  - reflexivity.
  - reflexivity.
  - vm_compute. reflexivity.
Defined.

Lemma missing_field_errors_witness :
  send_instances (E := Demo.externals) (VDict Demo.no_command) (Demo.started [])
  = (Raise KeyError, Demo.started []).
Proof.
  apply (proj2 (proj2 (proj2 (proj2 (proj2
           (missing_field_errors (H := Demo.externals) Demo.no_command
              (Demo.started []))))))).
  reflexivity.
Defined.

Lemma script_bindings_persist_witness :
  _local_env (snd (execute_script (E := Demo.externals) (VDict Tables.run_assign)
                     (Demo.started [])))
  = exec_locals (exec (Externals := Demo.externals) (VStr (str "x = 1"))
                   (_global_env (Demo.started []))
                   (_local_env (Demo.started []))) /\
  _global_env (snd (execute_script (E := Demo.externals) (VDict Tables.run_assign)
                      (Demo.started [])))
  = exec_globals (exec (Externals := Demo.externals) (VStr (str "x = 1"))
                    (_global_env (Demo.started []))
                    (_local_env (Demo.started []))) /\
  send_variable_is_set (VDict Demo.ask_x)
    (snd (execute_script (E := Demo.externals) (VDict Tables.run_assign)
            (Demo.started [])))
  = send_response
      (VDict [(str "response", VStr (str "ok"));
              (str "variable_name", VStr (str "x"));
              (str "variable_exists", VBool true)]) true
      (snd (execute_script (E := Demo.externals) (VDict Tables.run_assign)
              (Demo.started []))).
Proof.
  apply (script_bindings_persist (H := Demo.externals) Tables.run_assign
           Demo.ask_x (str "x = 1") (str "x") (VInt 1) false (Demo.started [])).
  - reflexivity.
  - reflexivity.
  - vm_compute. reflexivity.
  - vm_compute. reflexivity.
  - discriminate.
  - reflexivity.
Defined.

Lemma put_instances_stores_table_witness :
  exists w' ack,
    receive_instances (E := Tables.externals) (VDict (Tables.put_grades 4))
      (Demo.started [Tables.bytes_of (text_frame Tables.sheet)]) = (Ok tt, w') /\
    _local_env w'
    = <[str "grades" := VFrame Demo.gappy]>
        (<[str "headers" :=
             VDict (dict_set (str "grades") (VDict Tables.grades_header) [])]>
           (_local_env (Demo.started [Tables.bytes_of (text_frame Tables.sheet)]))) /\
    _global_env w'
    = _global_env (Demo.started [Tables.bytes_of (text_frame Tables.sheet)]) /\
    conn_in w'
    = conn_in (snd (receive_message (E := Tables.externals) false
                      (Demo.started [Tables.bytes_of (text_frame Tables.sheet)]))) /\
    json_frame (VDict [(str "response", VStr (str "ok"))]) = Ok ack /\
    conn_out w'
    = conn_out (Demo.started [Tables.bytes_of (text_frame Tables.sheet)]) ++ ack /\
    sys_stdout w'
    = sys_stdout (Demo.started [Tables.bytes_of (text_frame Tables.sheet)]) ++ [].
Proof.
  apply (put_instances_stores_table (H := Tables.externals) (Tables.put_grades 4)
           Tables.grades_header [] (str "grades") Tables.sheet 4 Demo.gappy false
           (Demo.started [Tables.bytes_of (text_frame Tables.sheet)])
           (snd (receive_message (E := Tables.externals) false
                   (Demo.started [Tables.bytes_of (text_frame Tables.sheet)])))).
  - reflexivity.
  - reflexivity.
  - reflexivity.
  - reflexivity.
  - reflexivity.
  - reflexivity.
  - vm_compute. reflexivity.
  - reflexivity.
Defined.

Lemma put_instances_unparsable_witness :
  receive_instances (E := Tables.externals) (VDict (Tables.put_grades 4))
    (Demo.started [Tables.bytes_of (text_frame (str "oops"))])
  = (Raise ParserError,
     set_local_env
       (<[str "headers" :=
            VDict (dict_set (str "grades") (VDict Tables.grades_header) [])]>
          (_local_env (Demo.started [Tables.bytes_of (text_frame (str "oops"))])))
       (snd (receive_message (E := Tables.externals) false
               (Demo.started [Tables.bytes_of (text_frame (str "oops"))])))).
Proof.
  apply (put_instances_unparsable (H := Tables.externals) (Tables.put_grades 4)
           Tables.grades_header [] (str "grades") (str "oops") 4 ParserError
           (Demo.started [Tables.bytes_of (text_frame (str "oops"))])).
  - reflexivity.
  - reflexivity.
  - reflexivity.
  - reflexivity.
  - reflexivity.
  - vm_compute. reflexivity.
  - reflexivity.
Defined.

Lemma put_instances_header_only_witness :
  exists w' ack,
    receive_instances (E := Tables.externals) (VDict (Tables.put_grades 0))
      (Tables.loaded Demo.gappy) = (Ok tt, w') /\
    _local_env w' !! str "headers"
    = Some (VDict (dict_set (str "grades") (VDict Tables.grades_header) [])) /\
    _local_env w' !! str "grades"
    = _local_env (Tables.loaded Demo.gappy) !! str "grades" /\
    conn_in w' = conn_in (Tables.loaded Demo.gappy) /\
    json_frame (VDict [(str "response", VStr (str "ok"))]) = Ok ack /\
    conn_out w' = conn_out (Tables.loaded Demo.gappy) ++ ack.
Proof.
  apply (put_instances_header_only (H := Tables.externals) (Tables.put_grades 0)
           Tables.grades_header [] (str "grades") 0 (Tables.loaded Demo.gappy)).
  - reflexivity.
  - reflexivity.
  - reflexivity.
  - reflexivity.
  - vm_compute. reflexivity.
  - discriminate.
Defined.

Lemma get_instances_sends_table_witness :
  exists w' ack,
    send_instances (E := Tables.externals) (VDict Tables.get_grades)
      (Tables.loaded Demo.gappy) = (Ok tt, w') /\
    json_frame (VDict [(str "response", VStr (str "ok"))]) = Ok ack /\
    conn_out w'
    = conn_out (Tables.loaded Demo.gappy) ++ ack
      ++ Tables.bytes_of
           (json_frame
              (VDict [(str "response", VStr (str "instances_header"));
                      (str "num_instances", VInt (Z.of_N (index_len Demo.gappy)));
                      (str "header",
                       VDict [(str "relation_name", VStr (str "grades"));
                              (str "attributes",
                               VList [VDict [(str "name", VStr (str "grade"));
                                             (str "type", VStr (str "STRING"))]])])]))
      ++ Tables.bytes_of (text_frame Tables.rows) /\
    same_env (Tables.loaded Demo.gappy) w' /\
    conn_in w' = conn_in (Tables.loaded Demo.gappy).
Proof.
  apply (get_instances_sends_table (H := Tables.externals) Tables.get_grades
           (str "grades") Demo.gappy
           (VDict [(str "relation_name", VStr (str "grades"));
                   (str "attributes",
                    VList [VDict [(str "name", VStr (str "grade"));
                                  (str "type", VStr (str "STRING"))]])])
           false).
  - reflexivity.
  - vm_compute. reflexivity.
  - reflexivity.
  - vm_compute. reflexivity.
  - vm_compute. reflexivity.
  - vm_compute. reflexivity.
Defined.

Lemma put_then_get_instances_witness :
  exists w3 ack,
    send_instances (E := Tables.externals) (VDict Tables.get_grades)
      (snd (receive_instances (E := Tables.externals) (VDict (Tables.put_grades 4))
              (Demo.started [Tables.bytes_of (text_frame Tables.sheet)])))
    = (Ok tt, w3) /\
    json_frame (VDict [(str "response", VStr (str "ok"))]) = Ok ack /\
    conn_out w3
    = conn_out (Demo.started [Tables.bytes_of (text_frame Tables.sheet)])
      ++ ack ++ ack
      ++ Tables.bytes_of
           (json_frame
              (VDict [(str "response", VStr (str "instances_header"));
                      (str "num_instances", VInt (Z.of_N (index_len Demo.gappy)));
                      (str "header",
                       VDict [(str "relation_name", VStr (str "grades"));
                              (str "attributes",
                               VList [VDict [(str "name", VStr (str "grade"));
                                             (str "type", VStr (str "STRING"))]])])]))
      ++ Tables.bytes_of (text_frame Tables.rows).
Proof.
  apply (put_then_get_instances (H := Tables.externals) (Tables.put_grades 4)
           Tables.grades_header [] Tables.get_grades (str "grades") Tables.sheet 4
           Demo.gappy false false
           (VDict [(str "relation_name", VStr (str "grades"));
                   (str "attributes",
                    VList [VDict [(str "name", VStr (str "grade"));
                                  (str "type", VStr (str "STRING"))]])])
           (Tables.bytes_of
              (json_frame
                 (VDict [(str "response", VStr (str "instances_header"));
                         (str "num_instances", VInt (Z.of_N (index_len Demo.gappy)));
                         (str "header",
                          VDict [(str "relation_name", VStr (str "grades"));
                                 (str "attributes",
                                  VList [VDict [(str "name", VStr (str "grade"));
                                                (str "type", VStr (str "STRING"))]])])])))
           (Tables.bytes_of (text_frame Tables.rows))
           (Demo.started [Tables.bytes_of (text_frame Tables.sheet)])
           (snd (receive_instances (E := Tables.externals)
                   (VDict (Tables.put_grades 4))
                   (Demo.started [Tables.bytes_of (text_frame Tables.sheet)])))
           (snd (receive_message (E := Tables.externals) false
                   (Demo.started [Tables.bytes_of (text_frame Tables.sheet)])))).
  - reflexivity.
  - reflexivity.
  - reflexivity.
  - reflexivity.
  - reflexivity.
  - reflexivity.
  - vm_compute. reflexivity.
  - reflexivity.
  - vm_compute. reflexivity.
  - reflexivity.
  - reflexivity.
  - vm_compute. reflexivity.
  - vm_compute. reflexivity.
  - vm_compute. reflexivity.
Defined.

Lemma header_numeric_and_date_columns_witness :
  exists attributes,
    instances_to_header_message (VStr (str "grades")) Tables.measured
    = Ok (VDict [(str "relation_name", VStr (str "grades"));
                 (str "attributes", VList attributes)]) /\
    length attributes = length (columns Tables.measured) /\
    attributes !! 0%nat
    = Some (VDict [(str "name",
                    VStr (col_name (Column (str "when") (str "datetime64[ns]")
                                      [CNum 0; CNum 1])));
                   (str "type",
                    VStr (if is_prefix (str "datetime")
                               (col_dtype (Column (str "when") (str "datetime64[ns]")
                                             [CNum 0; CNum 1]))
                          then str "DATE" else str "NUMERIC"))]).
Proof.
  apply (header_numeric_and_date_columns (VStr (str "grades")) Tables.measured
           0%nat (Column (str "when") (str "datetime64[ns]") [CNum 0; CNum 1])).
  - apply (bool_decide_unpack _). vm_compute. reflexivity.
  - reflexivity.
  - discriminate.
  - discriminate.
Defined.

Lemma get_instances_nominal_bool_witness :
  exists ack,
    json_frame (VDict [(str "response", VStr (str "ok"))]) = Ok ack /\
    send_instances (E := Tables.externals) (VDict Tables.get_grades)
      (Tables.loaded Tables.flags)
    = (Raise TypeError,
       set_conn_out (conn_out (Tables.loaded Tables.flags) ++ ack)
         (Tables.loaded Tables.flags)).
Proof.
  apply (get_instances_nominal_bool (H := Tables.externals) Tables.get_grades
           (str "grades") Tables.flags 0%nat
           (Column (str "passed") (str "bool")
              [CBool true; CBool false; CBool true; CBool true; CBool false])
           (Tables.loaded Tables.flags)).
  - reflexivity.
  - vm_compute. reflexivity.
  - reflexivity.
  - apply (bool_decide_unpack _). vm_compute. reflexivity.
  - reflexivity.
  - reflexivity.
  - discriminate.
  - repeat constructor.
  - vm_compute. reflexivity.
Defined.

Lemma get_instances_duplicate_labels_witness :
  instances_to_header_message (VStr (str "grades")) Tables.twice
  = Raise ValueError /\
  exists ack,
    json_frame (VDict [(str "response", VStr (str "ok"))]) = Ok ack /\
    send_instances (E := Tables.externals) (VDict Tables.get_grades)
      (Tables.loaded Tables.twice)
    = (Raise ValueError,
       set_conn_out (conn_out (Tables.loaded Tables.twice) ++ ack)
         (Tables.loaded Tables.twice)).
Proof.
  apply (get_instances_duplicate_labels (H := Tables.externals) Tables.get_grades
           (str "grades") Tables.twice (Tables.loaded Tables.twice)).
  - reflexivity.
  - vm_compute. reflexivity.
  - apply (bool_decide_eq_false_1 _). vm_compute. reflexivity.
Defined.

Lemma header_nominal_counts_missing_witness :
  exists attributes attribute,
    instances_to_header_message (VStr (str "grades")) Demo.graded
    = Ok (VDict [(str "relation_name", VStr (str "grades"));
                 (str "attributes", VList attributes)]) /\
    attributes !! 0%nat = Some (VDict attribute) /\
    (dict_get (str "type") attribute = Some (VStr (str "NOMINAL")) <->
     2 * (len (non_missing
                 (unique [CStr (str "a"); CStr (str "b"); CStr (str "a"); CNaN;
                          CStr (str "a"); CStr (str "b"); CStr (str "a")]))
          + (if existsb is_nan
                  [CStr (str "a"); CStr (str "b"); CStr (str "a"); CNaN;
                   CStr (str "a"); CStr (str "b"); CStr (str "a")]
             then 1 else 0))
     < index_len Demo.graded) /\
    (dict_get (str "type") attribute = Some (VStr (str "NOMINAL")) ->
     exists values,
       dict_get (str "values") attribute = Some (VList values) /\
       len values
       = len (non_missing
                (unique [CStr (str "a"); CStr (str "b"); CStr (str "a"); CNaN;
                         CStr (str "a"); CStr (str "b"); CStr (str "a")]))).
Proof.
  apply (header_nominal_counts_missing (VStr (str "grades")) Demo.graded 0%nat
           (Column (str "grade") (str "object")
              [CStr (str "a"); CStr (str "b"); CStr (str "a"); CNaN;
               CStr (str "a"); CStr (str "b"); CStr (str "a")])).
  - apply (bool_decide_unpack _). vm_compute. reflexivity.
  - reflexivity.
  - left. reflexivity.
Defined.

